(** * HoTT telemetry driver (src/main/telemetry/hott.c)

    A shallow embedding of the HoTT telemetry driver: the fixed-width integer
    arithmetic of the record encoders, the records as byte buffers addressed
    by field offset, the single-slot response queue with its pointer into a
    record, and the protocol state machine driven by [handleHoTTTelemetry].

    The file-scope and function-scope [static] variables of the C file are
    the fields of one [Driver] record that every function threads through.
    The serial port is a receive FIFO and a log of written bytes. *)

From Stdlib Require Import ZArith List Bool Lia.
From stdpp Require Import base list.
Import ListNotations.

Local Open Scope Z_scope.

(** ** Fixed-width integers

    C integers are [Z] with the wrap-around of each conversion written out. *)

Definition wrap_unsigned (bits x : Z) : Z := x mod 2 ^ bits.

Definition wrap_signed (bits x : Z) : Z :=
  (x + 2 ^ (bits - 1)) mod 2 ^ bits - 2 ^ (bits - 1).

Definition u8 : Z -> Z := wrap_unsigned 8.
Definition u16 : Z -> Z := wrap_unsigned 16.
Definition u32 : Z -> Z := wrap_unsigned 32.
Definition s8 : Z -> Z := wrap_signed 8.
Definition s16 : Z -> Z := wrap_signed 16.
Definition s32 : Z -> Z := wrap_signed 32.

(** [MAX(a, b)] of common/maths.h, on integers. *)
Definition MAX (a b : Z) : Z := if a <? b then b else a.

(** The C operators used by the encoders: [/] and [%] truncate toward zero
    ([Z.quot], [Z.rem]); [>>] on a signed operand is the arithmetic shift
    ([Z.shiftr]); [&] is [Z.land]. *)

(** ** Declarations that live outside hott.c

    telemetry/hott.h, io/gps.h, common/time.h and the build configuration are
    not part of the sources at hand.  What hott.c takes from them is gathered
    in one record, and every definition below is parametric in it. *)

Module EAM.
(** The members of [HOTT_EAM_MSG_t] that hott.c names. *)
Inductive field : Set :=
  | start_byte | eam_sensor_id | warning_beeps | sensor_id | alarm_invers1
  | batt1_voltage_L | batt1_voltage_H | altitude_L | altitude_H
  | current_L | current_H | main_voltage_L | main_voltage_H
  | batt_cap_L | batt_cap_H | climbrate_L | climbrate_H | climbrate3s
  | stop_byte.
End EAM.

Module GPS.
(** The members of [HOTT_GPS_MSG_t] that hott.c names. *)
Inductive field : Set :=
  | start_byte | gps_sensor_id | sensor_id | stop_byte
  | gps_satelites | climbrate_L | climbrate_H | climbrate3s | gps_fix_char
  | pos_NS | pos_NS_dm_L | pos_NS_dm_H | pos_NS_sec_L | pos_NS_sec_H
  | pos_EW | pos_EW_dm_L | pos_EW_dm_H | pos_EW_sec_L | pos_EW_sec_H
  | gps_speed_L | gps_speed_H | home_distance_L | home_distance_H
  | altitude_L | altitude_H | home_direction.
End GPS.

Module TXT.
(** The members of [hottTextModeMsg_t] that hott.c names; [txt] is the
    first cell of the two-dimensional character grid. *)
Inductive field : Set := start | esc | warning | txt | stop.
End TXT.

Record Headers : Type := {
  (* common/time.h: the width of timeUs_t *)
  TIMEUS_BITS : Z;
  (* build configuration *)
  USE_GPS : bool;
  USE_GPS_FIX_ESTIMATION : bool;
  USE_HOTT_TEXTMODE_AND_CMS : bool;
  (* telemetry/hott.h: identifiers *)
  HOTT_TELEMETRY_EAM_SENSOR_ID : Z;
  HOTT_EAM_SENSOR_TEXT_ID : Z;
  HOTT_TELEMETRY_GPS_SENSOR_ID : Z;
  HOTT_GPS_SENSOR_TEXT_ID : Z;
  HOTT_EAM_ALARM1_FLAG_NONE : Z;
  HOTT_EAM_ALARM1_FLAG_BATTERY_1 : Z;
  HOTT_GPS_ALTITUDE_OFFSET : Z;
  HOTT_TEXTMODE_START : Z;
  HOTT_TEXTMODE_STOP : Z;
  HOTT_TEXTMODE_ESC : Z;
  HOTT_TEXTMODE_DISPLAY_COLUMNS : Z;
  HOTT_TEXTMODE_DISPLAY_ROWS : Z;
  (* io/gps.h *)
  GPS_DEGREES_DIVIDER : Z;
  (* scheduler/scheduler.h: the TASK_PERIOD_HZ macro *)
  TASK_PERIOD_HZ : Z -> Z;
  (* telemetry/hott.h: sizeof and offsetof of the three records *)
  sizeof_EAM : nat;
  offsetof_EAM : EAM.field -> nat;
  sizeof_GPS : nat;
  offsetof_GPS : GPS.field -> nat;
  sizeof_TXT : nat;
  offsetof_TXT : TXT.field -> nat
}.

(** Modelled from the spec: the two request markers of telemetry/hott.h,
    which is absent.  The spec's scenarios send [0x80] for binary mode, and
    the comment in [handleHoTTTelemetry] gives both values: 0x80 (binary
    mode) and 0x7F (text mode). *)
Definition HOTT_BINARY_MODE_REQUEST_ID : Z := 0x80.
Definition HOTT_TEXT_MODE_REQUEST_ID : Z := 0x7F.

(** ** Records as byte buffers

    Every member of the three records is one byte wide, so a record is the
    list of its bytes and a member access is a load or a store at the
    member's offset.  A store converts its value to [uint8_t]. *)

Definition load (off : nat) (msg : list Z) : Z := default 0 (msg !! off).

Definition store (off : nat) (v : Z) (msg : list Z) : list Z :=
  <[off := u8 v]> msg.

(** [memset(msg, 0, size)] over a record of [size] bytes. *)
Definition memset0 (size : nat) : list Z := replicate size 0.

(** ** Sensor and configuration inputs

    The values that hott.c reads from its collaborators during one call.
    The three expressions that hott.c evaluates in [float] arrive already
    converted to [int32_t]:
    - [positionAlt] is [getEstimatedActualPosition(Z) / 100.0f + HOTT_GPS_ALTITUDE_OFFSET],
    - [climbrateRaw] is [getEstimatedActualVelocity(Z) + 30000],
    - [climbrate3sRaw] is [3.0f * getEstimatedActualVelocity(Z) / 100 + 120]. *)

Inductive batteryState_e : Set :=
  | BATTERY_OK | BATTERY_WARNING | BATTERY_CRITICAL | BATTERY_NOT_PRESENT.

Inductive gpsFixType_e : Set := GPS_NO_FIX | GPS_FIX_2D | GPS_FIX_3D.

Record Inputs : Type := {
  millis : Z;
  hottAlarmSoundInterval : Z;
  getBatteryState : batteryState_e;
  getBatteryVoltage : Z;
  getAmperage : Z;
  getMAhDrawn : Z;
  positionAlt : Z;
  climbrateRaw : Z;
  climbrate3sRaw : Z;
  sensors_SENSOR_GPS : bool;
  STATE_GPS_FIX : bool;
  STATE_GPS_ESTIMATED_FIX : bool;
  gpsSol_numSat : Z;
  gpsSol_fixType : gpsFixType_e;
  gpsSol_llh_lat : Z;
  gpsSol_llh_lon : Z;
  gpsSol_llh_alt : Z;
  gpsSol_groundSpeed : Z;
  GPS_distanceToHome : Z;
  GPS_directionToHome : Z;
  taskInfo_desiredPeriod : Z
}.

(** ** Driver state

    One record holds the file-scope statics of hott.c, the function-scope
    statics ([lastHottAlarmSoundTime] of [updateAlarmBatteryStatus],
    [serialWrites] of [hottSerialWrite], [setEscBack] of
    [processHottTextModeRequest], [byteSentTimeUs] of
    [hottSendTelemetryDataByte], [hottRequestBuffer] and
    [hottRequestBufferPtr] of [handleHoTTTelemetry]) and the serial port.
    [hottRequestBufferPtr] is an [int] that hott.c sets to 0 and increments
    below 2, a [nat] here.  The bytes in the receive FIFO are what
    [serialRead] returns, values of [uint8_t]. *)

Inductive hottState_e : Set :=
  | HOTT_WAITING_FOR_REQUEST
  | HOTT_RECEIVING_REQUEST
  | HOTT_WAITING_FOR_TX_WINDOW
  | HOTT_TRANSMITTING
  | HOTT_ENDING_TRANSMISSION.

Definition hottState_eqb (a b : hottState_e) : bool :=
  match a, b with
  | HOTT_WAITING_FOR_REQUEST, HOTT_WAITING_FOR_REQUEST
  | HOTT_RECEIVING_REQUEST, HOTT_RECEIVING_REQUEST
  | HOTT_WAITING_FOR_TX_WINDOW, HOTT_WAITING_FOR_TX_WINDOW
  | HOTT_TRANSMITTING, HOTT_TRANSMITTING
  | HOTT_ENDING_TRANSMISSION, HOTT_ENDING_TRANSMISSION => true
  | _, _ => false
  end.

(** The three static records that [hottTxMsg] can point into, and a pointer
    as a record and a byte offset in it; [NULL] is [None]. *)
Inductive Buffer : Set := GPSMessage | EAMMessage | TextModeMessage.

Record Pointer : Set := { base : Buffer; offset : nat }.

(** Calls into the scheduler and the CMS display port, kept as a log. *)
Inductive ExternCall : Set :=
  | hottDisplayportRegister
  | rescheduleTask (period : Z)
  | hottCmsOpen
  | hottSetCmsKey (key : Z) (esc : bool).

Record Driver : Type := {
  rxSchedule : Z;
  txDelayUs : Z;
  hottState : hottState_e;
  hottStateChangeUs : Z;
  hottTxMsg : option Pointer;
  hottTxMsgSize : Z;
  hottTxMsgCrc : Z;
  hottTelemetryEnabled : bool;
  hottGPSMessage : list Z;
  hottEAMMessage : list Z;
  hottTextModeMessage : list Z;
  textmodeIsAlive : bool;
  telemetryTaskPeriod : Z;
  (* function-scope statics *)
  lastHottAlarmSoundTime : Z;
  serialWrites : Z;
  setEscBack : bool;
  byteSentTimeUs : Z;
  hottRequestBuffer : Z * Z;
  hottRequestBufferPtr : nat;
  (* the serial port: bytes waiting to be read, bytes written so far *)
  rxFifo : list Z;
  txLog : list Z;
  externCalls : list ExternCall
}.

(** Assignment to one variable of the driver.  There is none for
    [byteSentTimeUs]: hott.c initialises it to 0 and never assigns it. *)
Definition set_rxSchedule (v : Z) (d : Driver) : Driver :=
  Build_Driver v (txDelayUs d) (hottState d) (hottStateChangeUs d)
    (hottTxMsg d) (hottTxMsgSize d) (hottTxMsgCrc d) (hottTelemetryEnabled d)
    (hottGPSMessage d) (hottEAMMessage d) (hottTextModeMessage d)
    (textmodeIsAlive d) (telemetryTaskPeriod d) (lastHottAlarmSoundTime d)
    (serialWrites d) (setEscBack d) (byteSentTimeUs d) (hottRequestBuffer d)
    (hottRequestBufferPtr d) (rxFifo d) (txLog d) (externCalls d).
Definition set_txDelayUs (v : Z) (d : Driver) : Driver :=
  Build_Driver (rxSchedule d) v (hottState d) (hottStateChangeUs d)
    (hottTxMsg d) (hottTxMsgSize d) (hottTxMsgCrc d) (hottTelemetryEnabled d)
    (hottGPSMessage d) (hottEAMMessage d) (hottTextModeMessage d)
    (textmodeIsAlive d) (telemetryTaskPeriod d) (lastHottAlarmSoundTime d)
    (serialWrites d) (setEscBack d) (byteSentTimeUs d) (hottRequestBuffer d)
    (hottRequestBufferPtr d) (rxFifo d) (txLog d) (externCalls d).
Definition set_hottState (v : hottState_e) (d : Driver) : Driver :=
  Build_Driver (rxSchedule d) (txDelayUs d) v (hottStateChangeUs d)
    (hottTxMsg d) (hottTxMsgSize d) (hottTxMsgCrc d) (hottTelemetryEnabled d)
    (hottGPSMessage d) (hottEAMMessage d) (hottTextModeMessage d)
    (textmodeIsAlive d) (telemetryTaskPeriod d) (lastHottAlarmSoundTime d)
    (serialWrites d) (setEscBack d) (byteSentTimeUs d) (hottRequestBuffer d)
    (hottRequestBufferPtr d) (rxFifo d) (txLog d) (externCalls d).
Definition set_hottStateChangeUs (v : Z) (d : Driver) : Driver :=
  Build_Driver (rxSchedule d) (txDelayUs d) (hottState d) v (hottTxMsg d)
    (hottTxMsgSize d) (hottTxMsgCrc d) (hottTelemetryEnabled d)
    (hottGPSMessage d) (hottEAMMessage d) (hottTextModeMessage d)
    (textmodeIsAlive d) (telemetryTaskPeriod d) (lastHottAlarmSoundTime d)
    (serialWrites d) (setEscBack d) (byteSentTimeUs d) (hottRequestBuffer d)
    (hottRequestBufferPtr d) (rxFifo d) (txLog d) (externCalls d).
Definition set_hottTxMsg (v : option Pointer) (d : Driver) : Driver :=
  Build_Driver (rxSchedule d) (txDelayUs d) (hottState d)
    (hottStateChangeUs d) v (hottTxMsgSize d) (hottTxMsgCrc d)
    (hottTelemetryEnabled d) (hottGPSMessage d) (hottEAMMessage d)
    (hottTextModeMessage d) (textmodeIsAlive d) (telemetryTaskPeriod d)
    (lastHottAlarmSoundTime d) (serialWrites d) (setEscBack d)
    (byteSentTimeUs d) (hottRequestBuffer d) (hottRequestBufferPtr d)
    (rxFifo d) (txLog d) (externCalls d).
Definition set_hottTxMsgSize (v : Z) (d : Driver) : Driver :=
  Build_Driver (rxSchedule d) (txDelayUs d) (hottState d)
    (hottStateChangeUs d) (hottTxMsg d) v (hottTxMsgCrc d)
    (hottTelemetryEnabled d) (hottGPSMessage d) (hottEAMMessage d)
    (hottTextModeMessage d) (textmodeIsAlive d) (telemetryTaskPeriod d)
    (lastHottAlarmSoundTime d) (serialWrites d) (setEscBack d)
    (byteSentTimeUs d) (hottRequestBuffer d) (hottRequestBufferPtr d)
    (rxFifo d) (txLog d) (externCalls d).
Definition set_hottTxMsgCrc (v : Z) (d : Driver) : Driver :=
  Build_Driver (rxSchedule d) (txDelayUs d) (hottState d)
    (hottStateChangeUs d) (hottTxMsg d) (hottTxMsgSize d) v
    (hottTelemetryEnabled d) (hottGPSMessage d) (hottEAMMessage d)
    (hottTextModeMessage d) (textmodeIsAlive d) (telemetryTaskPeriod d)
    (lastHottAlarmSoundTime d) (serialWrites d) (setEscBack d)
    (byteSentTimeUs d) (hottRequestBuffer d) (hottRequestBufferPtr d)
    (rxFifo d) (txLog d) (externCalls d).
Definition set_hottTelemetryEnabled (v : bool) (d : Driver) : Driver :=
  Build_Driver (rxSchedule d) (txDelayUs d) (hottState d)
    (hottStateChangeUs d) (hottTxMsg d) (hottTxMsgSize d) (hottTxMsgCrc d) v
    (hottGPSMessage d) (hottEAMMessage d) (hottTextModeMessage d)
    (textmodeIsAlive d) (telemetryTaskPeriod d) (lastHottAlarmSoundTime d)
    (serialWrites d) (setEscBack d) (byteSentTimeUs d) (hottRequestBuffer d)
    (hottRequestBufferPtr d) (rxFifo d) (txLog d) (externCalls d).
Definition set_hottGPSMessage (v : list Z) (d : Driver) : Driver :=
  Build_Driver (rxSchedule d) (txDelayUs d) (hottState d)
    (hottStateChangeUs d) (hottTxMsg d) (hottTxMsgSize d) (hottTxMsgCrc d)
    (hottTelemetryEnabled d) v (hottEAMMessage d) (hottTextModeMessage d)
    (textmodeIsAlive d) (telemetryTaskPeriod d) (lastHottAlarmSoundTime d)
    (serialWrites d) (setEscBack d) (byteSentTimeUs d) (hottRequestBuffer d)
    (hottRequestBufferPtr d) (rxFifo d) (txLog d) (externCalls d).
Definition set_hottEAMMessage (v : list Z) (d : Driver) : Driver :=
  Build_Driver (rxSchedule d) (txDelayUs d) (hottState d)
    (hottStateChangeUs d) (hottTxMsg d) (hottTxMsgSize d) (hottTxMsgCrc d)
    (hottTelemetryEnabled d) (hottGPSMessage d) v (hottTextModeMessage d)
    (textmodeIsAlive d) (telemetryTaskPeriod d) (lastHottAlarmSoundTime d)
    (serialWrites d) (setEscBack d) (byteSentTimeUs d) (hottRequestBuffer d)
    (hottRequestBufferPtr d) (rxFifo d) (txLog d) (externCalls d).
Definition set_hottTextModeMessage (v : list Z) (d : Driver) : Driver :=
  Build_Driver (rxSchedule d) (txDelayUs d) (hottState d)
    (hottStateChangeUs d) (hottTxMsg d) (hottTxMsgSize d) (hottTxMsgCrc d)
    (hottTelemetryEnabled d) (hottGPSMessage d) (hottEAMMessage d) v
    (textmodeIsAlive d) (telemetryTaskPeriod d) (lastHottAlarmSoundTime d)
    (serialWrites d) (setEscBack d) (byteSentTimeUs d) (hottRequestBuffer d)
    (hottRequestBufferPtr d) (rxFifo d) (txLog d) (externCalls d).
Definition set_textmodeIsAlive (v : bool) (d : Driver) : Driver :=
  Build_Driver (rxSchedule d) (txDelayUs d) (hottState d)
    (hottStateChangeUs d) (hottTxMsg d) (hottTxMsgSize d) (hottTxMsgCrc d)
    (hottTelemetryEnabled d) (hottGPSMessage d) (hottEAMMessage d)
    (hottTextModeMessage d) v (telemetryTaskPeriod d)
    (lastHottAlarmSoundTime d) (serialWrites d) (setEscBack d)
    (byteSentTimeUs d) (hottRequestBuffer d) (hottRequestBufferPtr d)
    (rxFifo d) (txLog d) (externCalls d).
Definition set_telemetryTaskPeriod (v : Z) (d : Driver) : Driver :=
  Build_Driver (rxSchedule d) (txDelayUs d) (hottState d)
    (hottStateChangeUs d) (hottTxMsg d) (hottTxMsgSize d) (hottTxMsgCrc d)
    (hottTelemetryEnabled d) (hottGPSMessage d) (hottEAMMessage d)
    (hottTextModeMessage d) (textmodeIsAlive d) v (lastHottAlarmSoundTime d)
    (serialWrites d) (setEscBack d) (byteSentTimeUs d) (hottRequestBuffer d)
    (hottRequestBufferPtr d) (rxFifo d) (txLog d) (externCalls d).
Definition set_lastHottAlarmSoundTime (v : Z) (d : Driver) : Driver :=
  Build_Driver (rxSchedule d) (txDelayUs d) (hottState d)
    (hottStateChangeUs d) (hottTxMsg d) (hottTxMsgSize d) (hottTxMsgCrc d)
    (hottTelemetryEnabled d) (hottGPSMessage d) (hottEAMMessage d)
    (hottTextModeMessage d) (textmodeIsAlive d) (telemetryTaskPeriod d) v
    (serialWrites d) (setEscBack d) (byteSentTimeUs d) (hottRequestBuffer d)
    (hottRequestBufferPtr d) (rxFifo d) (txLog d) (externCalls d).
Definition set_serialWrites (v : Z) (d : Driver) : Driver :=
  Build_Driver (rxSchedule d) (txDelayUs d) (hottState d)
    (hottStateChangeUs d) (hottTxMsg d) (hottTxMsgSize d) (hottTxMsgCrc d)
    (hottTelemetryEnabled d) (hottGPSMessage d) (hottEAMMessage d)
    (hottTextModeMessage d) (textmodeIsAlive d) (telemetryTaskPeriod d)
    (lastHottAlarmSoundTime d) v (setEscBack d) (byteSentTimeUs d)
    (hottRequestBuffer d) (hottRequestBufferPtr d) (rxFifo d) (txLog d)
    (externCalls d).
Definition set_setEscBack (v : bool) (d : Driver) : Driver :=
  Build_Driver (rxSchedule d) (txDelayUs d) (hottState d)
    (hottStateChangeUs d) (hottTxMsg d) (hottTxMsgSize d) (hottTxMsgCrc d)
    (hottTelemetryEnabled d) (hottGPSMessage d) (hottEAMMessage d)
    (hottTextModeMessage d) (textmodeIsAlive d) (telemetryTaskPeriod d)
    (lastHottAlarmSoundTime d) (serialWrites d) v (byteSentTimeUs d)
    (hottRequestBuffer d) (hottRequestBufferPtr d) (rxFifo d) (txLog d)
    (externCalls d).
Definition set_hottRequestBuffer (v : Z * Z) (d : Driver) : Driver :=
  Build_Driver (rxSchedule d) (txDelayUs d) (hottState d)
    (hottStateChangeUs d) (hottTxMsg d) (hottTxMsgSize d) (hottTxMsgCrc d)
    (hottTelemetryEnabled d) (hottGPSMessage d) (hottEAMMessage d)
    (hottTextModeMessage d) (textmodeIsAlive d) (telemetryTaskPeriod d)
    (lastHottAlarmSoundTime d) (serialWrites d) (setEscBack d)
    (byteSentTimeUs d) v (hottRequestBufferPtr d) (rxFifo d) (txLog d)
    (externCalls d).
Definition set_hottRequestBufferPtr (v : nat) (d : Driver) : Driver :=
  Build_Driver (rxSchedule d) (txDelayUs d) (hottState d)
    (hottStateChangeUs d) (hottTxMsg d) (hottTxMsgSize d) (hottTxMsgCrc d)
    (hottTelemetryEnabled d) (hottGPSMessage d) (hottEAMMessage d)
    (hottTextModeMessage d) (textmodeIsAlive d) (telemetryTaskPeriod d)
    (lastHottAlarmSoundTime d) (serialWrites d) (setEscBack d)
    (byteSentTimeUs d) (hottRequestBuffer d) v (rxFifo d) (txLog d)
    (externCalls d).
Definition set_rxFifo (v : list Z) (d : Driver) : Driver :=
  Build_Driver (rxSchedule d) (txDelayUs d) (hottState d)
    (hottStateChangeUs d) (hottTxMsg d) (hottTxMsgSize d) (hottTxMsgCrc d)
    (hottTelemetryEnabled d) (hottGPSMessage d) (hottEAMMessage d)
    (hottTextModeMessage d) (textmodeIsAlive d) (telemetryTaskPeriod d)
    (lastHottAlarmSoundTime d) (serialWrites d) (setEscBack d)
    (byteSentTimeUs d) (hottRequestBuffer d) (hottRequestBufferPtr d) v
    (txLog d) (externCalls d).
Definition set_txLog (v : list Z) (d : Driver) : Driver :=
  Build_Driver (rxSchedule d) (txDelayUs d) (hottState d)
    (hottStateChangeUs d) (hottTxMsg d) (hottTxMsgSize d) (hottTxMsgCrc d)
    (hottTelemetryEnabled d) (hottGPSMessage d) (hottEAMMessage d)
    (hottTextModeMessage d) (textmodeIsAlive d) (telemetryTaskPeriod d)
    (lastHottAlarmSoundTime d) (serialWrites d) (setEscBack d)
    (byteSentTimeUs d) (hottRequestBuffer d) (hottRequestBufferPtr d)
    (rxFifo d) v (externCalls d).
Definition set_externCalls (v : list ExternCall) (d : Driver) : Driver :=
  Build_Driver (rxSchedule d) (txDelayUs d) (hottState d)
    (hottStateChangeUs d) (hottTxMsg d) (hottTxMsgSize d) (hottTxMsgCrc d)
    (hottTelemetryEnabled d) (hottGPSMessage d) (hottEAMMessage d)
    (hottTextModeMessage d) (textmodeIsAlive d) (telemetryTaskPeriod d)
    (lastHottAlarmSoundTime d) (serialWrites d) (setEscBack d)
    (byteSentTimeUs d) (hottRequestBuffer d) (hottRequestBufferPtr d)
    (rxFifo d) (txLog d) v.

(** ** Constants of hott.c *)

Definition HOTT_RX_SCHEDULE : Z := 4000.
Definition HOTT_TX_SCHEDULE : Z := 5000.
Definition HOTT_TX_DELAY_US : Z := 2000.
Definition MILLISECONDS_IN_A_SECOND : Z := 1000.
Definition HOTT_TEXTMODE_TASK_PERIOD : Z := 1000.
Definition HOTT_TEXTMODE_RX_SCHEDULE : Z := 5000.
Definition HOTT_TEXTMODE_TX_DELAY_US : Z := 1000.

(** [gpsFixChar_e] *)
Definition GPS_FIX_CHAR_NONE : Z := 45.
Definition GPS_FIX_CHAR_2D : Z := 50.
Definition GPS_FIX_CHAR_3D : Z := 51.
Definition GPS_FIX_CHAR_DGPS : Z := 68.

Section Driver.

Context (hdr : Headers).

(** A [timeUs_t] difference, with the unsigned wrap-around of its width. *)
Definition elapsedUs (currentTimeUs sinceUs : Z) : Z :=
  wrap_unsigned (TIMEUS_BITS hdr) (currentTimeUs - sinceUs).

Definition getEAM (f : EAM.field) (msg : list Z) : Z := load (offsetof_EAM hdr f) msg.
Definition setEAM (f : EAM.field) (v : Z) (msg : list Z) : list Z :=
  store (offsetof_EAM hdr f) v msg.
Definition getGPS (f : GPS.field) (msg : list Z) : Z := load (offsetof_GPS hdr f) msg.
Definition setGPS (f : GPS.field) (v : Z) (msg : list Z) : list Z :=
  store (offsetof_GPS hdr f) v msg.
Definition getTXT (f : TXT.field) (msg : list Z) : Z := load (offsetof_TXT hdr f) msg.
Definition setTXT (f : TXT.field) (v : Z) (msg : list Z) : list Z :=
  store (offsetof_TXT hdr f) v msg.

(** *** Initialisation of the records *)

Definition initialiseTextmodeMessage (msg : list Z) : list Z :=
  let msg := setTXT TXT.start (HOTT_TEXTMODE_START hdr) msg in
  let msg := setTXT TXT.esc (HOTT_EAM_SENSOR_TEXT_ID hdr) msg in
  let msg := setTXT TXT.warning 0 msg in
  let msg := setTXT TXT.stop (HOTT_TEXTMODE_STOP hdr) msg in
  msg.

Definition hottSwitchState (newState : hottState_e) (currentTimeUs : Z) (d : Driver) : Driver :=
  if hottState_eqb (hottState d) newState then d
  else set_hottStateChangeUs currentTimeUs (set_hottState newState d).

Definition initialiseEAMMessage (msg : list Z) (size : nat) : list Z :=
  let msg := memset0 size ++ drop size msg in
  let msg := setEAM EAM.start_byte 0x7C msg in
  let msg := setEAM EAM.eam_sensor_id (HOTT_TELEMETRY_EAM_SENSOR_ID hdr) msg in
  let msg := setEAM EAM.sensor_id (HOTT_EAM_SENSOR_TEXT_ID hdr) msg in
  let msg := setEAM EAM.stop_byte 0x7D msg in
  msg.

Definition initialiseGPSMessage (msg : list Z) (size : nat) : list Z :=
  let msg := memset0 size ++ drop size msg in
  let msg := setGPS GPS.start_byte 0x7C msg in
  let msg := setGPS GPS.gps_sensor_id (HOTT_TELEMETRY_GPS_SENSOR_ID hdr) msg in
  let msg := setGPS GPS.sensor_id (HOTT_GPS_SENSOR_TEXT_ID hdr) msg in
  let msg := setGPS GPS.stop_byte 0x7D msg in
  msg.

Definition initialiseMessages (d : Driver) : Driver :=
  let d := set_hottEAMMessage (initialiseEAMMessage (hottEAMMessage d) (sizeof_EAM hdr)) d in
  let d := if USE_GPS hdr
           then set_hottGPSMessage (initialiseGPSMessage (hottGPSMessage d) (sizeof_GPS hdr)) d
           else d in
  let d := if USE_HOTT_TEXTMODE_AND_CMS hdr
           then set_hottTextModeMessage (initialiseTextmodeMessage (hottTextModeMessage d)) d
           else d in
  d.

(** *** addGPSCoordinates

    The five local computations that [addGPSCoordinates] performs for the
    latitude and then again for the longitude: [deg] ([int16_t]), [sec]
    ([int32_t]), [min] ([int8_t]), [sec] again and [degMin] ([uint16_t]). *)

Record CoordinateLocals : Type := {
  cl_deg : Z; cl_min : Z; cl_sec : Z; cl_degMin : Z
}.

Definition coordinateLocals (coordinate : Z) : CoordinateLocals :=
  let deg := s16 (coordinate ÷ GPS_DEGREES_DIVIDER hdr) in
  let sec := s32 ((coordinate - deg * GPS_DEGREES_DIVIDER hdr) * 6) in
  let min := s8 (sec ÷ 1000000) in
  let sec := s32 (Z.rem sec 1000000 ÷ 100) in
  let degMin := u16 (deg * 100 + min) in
  {| cl_deg := deg; cl_min := min; cl_sec := sec; cl_degMin := degMin |}.

Definition addGPSCoordinates (msg : list Z) (latitude longitude : Z) : list Z :=
  let ns := coordinateLocals latitude in
  let msg := setGPS GPS.pos_NS (if latitude <? 0 then 1 else 0) msg in
  let msg := setGPS GPS.pos_NS_dm_L (cl_degMin ns) msg in
  let msg := setGPS GPS.pos_NS_dm_H (Z.shiftr (cl_degMin ns) 8) msg in
  let msg := setGPS GPS.pos_NS_sec_L (cl_sec ns) msg in
  let msg := setGPS GPS.pos_NS_sec_H (Z.shiftr (cl_sec ns) 8) msg in
  let ew := coordinateLocals longitude in
  let msg := setGPS GPS.pos_EW (if longitude <? 0 then 1 else 0) msg in
  let msg := setGPS GPS.pos_EW_dm_L (cl_degMin ew) msg in
  let msg := setGPS GPS.pos_EW_dm_H (Z.shiftr (cl_degMin ew) 8) msg in
  let msg := setGPS GPS.pos_EW_sec_L (cl_sec ew) msg in
  let msg := setGPS GPS.pos_EW_sec_H (Z.shiftr (cl_sec ew) 8) msg in
  msg.

Definition hottPrepareGPSResponse (env : Inputs) (msg : list Z) : list Z :=
  let msg := setGPS GPS.gps_satelites (gpsSol_numSat env) msg in
  let climbrate := MAX 0 (climbrateRaw env) in
  let msg := setGPS GPS.climbrate_L (Z.land climbrate 0xFF) msg in
  let msg := setGPS GPS.climbrate_H (Z.shiftr climbrate 8) msg in
  let climbrate3s := MAX 0 (climbrate3sRaw env) in
  let msg := setGPS GPS.climbrate3s (Z.land climbrate3s 0xFF) msg in
  let haveFix :=
    if USE_GPS_FIX_ESTIMATION hdr
    then STATE_GPS_FIX env || STATE_GPS_ESTIMATED_FIX env
    else STATE_GPS_FIX env in
  if negb haveFix then setGPS GPS.gps_fix_char GPS_FIX_CHAR_NONE msg
  else
    let msg :=
      match gpsSol_fixType env with
      | GPS_FIX_3D => setGPS GPS.gps_fix_char GPS_FIX_CHAR_3D msg
      | _ => setGPS GPS.gps_fix_char GPS_FIX_CHAR_2D msg
      end in
    let msg := addGPSCoordinates msg (gpsSol_llh_lat env) (gpsSol_llh_lon env) in
    let speed := u16 ((gpsSol_groundSpeed env * 36) ÷ 1000) in
    let msg := setGPS GPS.gps_speed_L (Z.land speed 0x00FF) msg in
    let msg := setGPS GPS.gps_speed_H (Z.shiftr speed 8) msg in
    let msg := setGPS GPS.home_distance_L (Z.land (GPS_distanceToHome env) 0x00FF) msg in
    let msg := setGPS GPS.home_distance_H (Z.shiftr (GPS_distanceToHome env) 8) msg in
    let hottGpsAltitude := u16 (gpsSol_llh_alt env ÷ 100 + HOTT_GPS_ALTITUDE_OFFSET hdr) in
    let msg := setGPS GPS.altitude_L (Z.land hottGpsAltitude 0x00FF) msg in
    let msg := setGPS GPS.altitude_H (Z.shiftr hottGpsAltitude 8) msg in
    let msg := setGPS GPS.home_direction (GPS_directionToHome env) msg in
    msg.

(** *** The EAM record

    [updateAlarmBatteryStatus] owns the static [lastHottAlarmSoundTime]; the
    encoders take it and the record and return both.  The two calls of
    [millis()] in [updateAlarmBatteryStatus] read the same [millis env]. *)

Definition updateAlarmBatteryStatus (env : Inputs) (lastHottAlarmSoundTime : Z)
    (msg : list Z) : Z * list Z :=
  if u32 (millis env - lastHottAlarmSoundTime)
       >=? u32 (hottAlarmSoundInterval env * MILLISECONDS_IN_A_SECOND)
  then
    let lastHottAlarmSoundTime := millis env in
    match getBatteryState env with
    | BATTERY_WARNING | BATTERY_CRITICAL =>
        let msg := setEAM EAM.warning_beeps 0x10 msg in
        let msg := setEAM EAM.alarm_invers1 (HOTT_EAM_ALARM1_FLAG_BATTERY_1 hdr) msg in
        (lastHottAlarmSoundTime, msg)
    | _ =>
        let msg := setEAM EAM.warning_beeps (HOTT_EAM_ALARM1_FLAG_NONE hdr) msg in
        let msg := setEAM EAM.alarm_invers1 (HOTT_EAM_ALARM1_FLAG_NONE hdr) msg in
        (lastHottAlarmSoundTime, msg)
    end
  else (lastHottAlarmSoundTime, msg).

Definition hottEAMUpdateBattery (env : Inputs) (lastHottAlarmSoundTime : Z)
    (msg : list Z) : Z * list Z :=
  let vbat_dcv := u8 (getBatteryVoltage env ÷ 10) in
  let msg := setEAM EAM.main_voltage_L (Z.land vbat_dcv 0xFF) msg in
  let msg := setEAM EAM.main_voltage_H (Z.shiftr vbat_dcv 8) msg in
  let msg := setEAM EAM.batt1_voltage_L (Z.land vbat_dcv 0xFF) msg in
  let msg := setEAM EAM.batt1_voltage_H (Z.shiftr vbat_dcv 8) msg in
  updateAlarmBatteryStatus env lastHottAlarmSoundTime msg.

Definition hottEAMUpdateCurrentMeter (env : Inputs) (msg : list Z) : list Z :=
  let amp := s32 (getAmperage env ÷ 10) in
  let msg := setEAM EAM.current_L (Z.land amp 0xFF) msg in
  let msg := setEAM EAM.current_H (Z.shiftr amp 8) msg in
  msg.

Definition hottEAMUpdateBatteryDrawnCapacity (env : Inputs) (msg : list Z) : list Z :=
  let mAh := s32 (getMAhDrawn env ÷ 10) in
  let msg := setEAM EAM.batt_cap_L (Z.land mAh 0xFF) msg in
  let msg := setEAM EAM.batt_cap_H (Z.shiftr mAh 8) msg in
  msg.

Definition hottEAMUpdateAltitudeAndClimbrate (env : Inputs) (msg : list Z) : list Z :=
  let alt := MAX 0 (positionAlt env) in
  let msg := setEAM EAM.altitude_L (Z.land alt 0xFF) msg in
  let msg := setEAM EAM.altitude_H (Z.shiftr alt 8) msg in
  let climbrate := MAX 0 (climbrateRaw env) in
  let msg := setEAM EAM.climbrate_L (Z.land climbrate 0xFF) msg in
  let msg := setEAM EAM.climbrate_H (Z.shiftr climbrate 8) msg in
  let climbrate3s := MAX 0 (climbrate3sRaw env) in
  let msg := setEAM EAM.climbrate3s (Z.land climbrate3s 0xFF) msg in
  msg.

Definition hottPrepareEAMResponse (env : Inputs) (lastHottAlarmSoundTime : Z)
    (msg : list Z) : Z * list Z :=
  (* Reset alarms *)
  let msg := setEAM EAM.warning_beeps 0x0 msg in
  let msg := setEAM EAM.alarm_invers1 0x0 msg in
  let '(lastHottAlarmSoundTime, msg) := hottEAMUpdateBattery env lastHottAlarmSoundTime msg in
  let msg := hottEAMUpdateCurrentMeter env msg in
  let msg := hottEAMUpdateBatteryDrawnCapacity env msg in
  let msg := hottEAMUpdateAltitudeAndClimbrate env msg in
  (lastHottAlarmSoundTime, msg).

(** *** Serial port and response queue *)

Definition serialRxBytesWaiting (d : Driver) : Z := Z.of_nat (length (rxFifo d)).

Definition hottSerialWrite (c : Z) (d : Driver) : Driver :=
  let d := set_serialWrites (u8 (serialWrites d + 1)) d in
  set_txLog (txLog d ++ [c]) d.

Definition hottQueueSendResponse (buffer : Pointer) (length : Z) (d : Driver) : Driver :=
  let d := set_hottTxMsg (Some buffer) d in
  set_hottTxMsgSize (u8 length) d.

(** The record a pointer points into, and the byte it points at.  The driver
    reads through [hottTxMsg] only in HOTT_TRANSMITTING, which it enters
    after [hottQueueSendResponse]; a read through [NULL] or past the end of
    the record is given the value 0 here. *)
Definition bufferOf (b : Buffer) (d : Driver) : list Z :=
  match b with
  | GPSMessage => hottGPSMessage d
  | EAMMessage => hottEAMMessage d
  | TextModeMessage => hottTextModeMessage d
  end.

Definition deref (p : option Pointer) (d : Driver) : Z :=
  match p with
  | Some p => load (offset p) (bufferOf (base p) d)
  | None => 0
  end.

Definition incr (p : option Pointer) : option Pointer :=
  match p with
  | Some p => Some {| base := base p; offset := S (offset p) |}
  | None => None
  end.

(** *** Text mode *)

Definition hottTextmodeStart (env : Inputs) (d : Driver) : Driver :=
  let d := set_telemetryTaskPeriod (s32 (taskInfo_desiredPeriod env)) d in
  let d := set_externCalls
             (externCalls d ++ [rescheduleTask (TASK_PERIOD_HZ hdr HOTT_TEXTMODE_TASK_PERIOD)]) d in
  let d := set_rxSchedule HOTT_TEXTMODE_RX_SCHEDULE d in
  set_txDelayUs HOTT_TEXTMODE_TX_DELAY_US d.

Definition hottTextmodeStop (d : Driver) : Driver :=
  let d := if 0 <? telemetryTaskPeriod d
           then
             let d := set_externCalls
                        (externCalls d ++ [rescheduleTask (telemetryTaskPeriod d)]) d in
             set_telemetryTaskPeriod 0 d
           else d in
  let d := set_rxSchedule HOTT_RX_SCHEDULE d in
  set_txDelayUs HOTT_TX_DELAY_US d.

Definition hottTextmodeIsAlive (d : Driver) : bool := textmodeIsAlive d.

Definition hottTextmodeGrab (d : Driver) : Driver :=
  set_hottTextModeMessage
    (setTXT TXT.esc (HOTT_EAM_SENSOR_TEXT_ID hdr) (hottTextModeMessage d)) d.

Definition hottTextmodeExit (d : Driver) : Driver :=
  set_hottTextModeMessage
    (setTXT TXT.esc (HOTT_TEXTMODE_ESC hdr) (hottTextModeMessage d)) d.

(** The offset of [txt[row][column]] in the text-mode record. *)
Definition txtCell (row column : Z) : nat :=
  (offsetof_TXT hdr TXT.txt
   + Z.to_nat (row * HOTT_TEXTMODE_DISPLAY_COLUMNS hdr + column))%nat.

Definition hottTextmodeWriteChar (column row c : Z) (d : Driver) : Driver :=
  let column := u8 column in
  let row := u8 row in
  let c := u8 c in
  if (column <? HOTT_TEXTMODE_DISPLAY_COLUMNS hdr) && (row <? HOTT_TEXTMODE_DISPLAY_ROWS hdr)
  then
    if negb (load (txtCell row column) (hottTextModeMessage d) =? c)
    then set_hottTextModeMessage (store (txtCell row column) c (hottTextModeMessage d)) d
    else d
  else d.

Definition processHottTextModeRequest (env : Inputs) (cmd : Z) (d : Driver) : bool * Driver :=
  let d := if negb (textmodeIsAlive d)
           then set_textmodeIsAlive true (hottTextmodeStart env d)
           else d in
  if negb (Z.land cmd 0xF0 =? HOTT_EAM_SENSOR_TEXT_ID hdr) then (false, d)
  else
    let d := if setEscBack d
             then
               let d := set_hottTextModeMessage
                          (setTXT TXT.esc (HOTT_EAM_SENSOR_TEXT_ID hdr) (hottTextModeMessage d)) d in
               set_setEscBack false d
             else d in
    let d := if negb (getTXT TXT.esc (hottTextModeMessage d) =? HOTT_TEXTMODE_ESC hdr)
             then set_externCalls (externCalls d ++ [hottCmsOpen]) d
             else set_setEscBack true d in
    let d := set_externCalls
               (externCalls d
                ++ [hottSetCmsKey (Z.land cmd 0x0f)
                      (getTXT TXT.esc (hottTextModeMessage d) =? HOTT_TEXTMODE_ESC hdr)]) d in
    let d := hottQueueSendResponse {| base := TextModeMessage; offset := 0 |}
               (Z.of_nat (sizeof_TXT hdr)) d in
    (true, d).

(** *** Request decoding *)

Definition processBinaryModeRequest (env : Inputs) (address : Z) (d : Driver) : bool * Driver :=
  let d := if USE_HOTT_TEXTMODE_AND_CMS hdr && textmodeIsAlive d
           then set_textmodeIsAlive false (hottTextmodeStop d)
           else d in
  if USE_GPS hdr && (address =? 0x8A) then
    if sensors_SENSOR_GPS env || (USE_GPS_FIX_ESTIMATION hdr && STATE_GPS_ESTIMATED_FIX env)
    then
      let d := set_hottGPSMessage (hottPrepareGPSResponse env (hottGPSMessage d)) d in
      let d := hottQueueSendResponse {| base := GPSMessage; offset := 0 |}
                 (Z.of_nat (sizeof_GPS hdr)) d in
      (true, d)
    else (false, d)
  else if address =? 0x8E then
    let '(last, msg) :=
      hottPrepareEAMResponse env (lastHottAlarmSoundTime d) (hottEAMMessage d) in
    let d := set_lastHottAlarmSoundTime last d in
    let d := set_hottEAMMessage msg d in
    let d := hottQueueSendResponse {| base := EAMMessage; offset := 0 |}
               (Z.of_nat (sizeof_EAM hdr)) d in
    (true, d)
  else (false, d).

(** [while (serialRxBytesWaiting(hottPort) > 0) serialRead(hottPort);] *)
Fixpoint flushLoop (fifo : list Z) : list Z :=
  match fifo with
  | [] => fifo
  | _ :: fifo => flushLoop fifo
  end.

Definition flushHottRxBuffer (d : Driver) : Driver :=
  set_rxFifo (flushLoop (rxFifo d)) d.

(** *** The byte transmitter *)

Definition hottSendTelemetryDataByte (currentTimeUs : Z) (d : Driver) : bool * Driver :=
  (* Guard intra-byte interval *)
  if elapsedUs currentTimeUs (byteSentTimeUs d) <? HOTT_TX_DELAY_US then (false, d)
  else if hottTxMsgSize d =? 0 then
    (* Send CRC byte *)
    (true, hottSerialWrite (hottTxMsgCrc d) d)
  else
    (* Send data byte *)
    let d := set_hottTxMsgCrc (u8 (hottTxMsgCrc d + deref (hottTxMsg d) d)) d in
    let d := hottSerialWrite (deref (hottTxMsg d) d) d in
    let d := set_hottTxMsg (incr (hottTxMsg d)) d in
    let d := set_hottTxMsgSize (u8 (hottTxMsgSize d - 1)) d in
    (false, d).

(** *** The protocol state machine *)

(** [hottRequestBuffer[ptr] = b] for the two-byte request buffer. *)
Definition writeRequestBuffer (buf : Z * Z) (ptr : nat) (b : Z) : Z * Z :=
  match ptr with
  | O => (b, snd buf)
  | _ => (fst buf, b)
  end.

(** [while (serialRxBytesWaiting(hottPort) && hottRequestBufferPtr < 2)
       hottRequestBuffer[hottRequestBufferPtr++] = serialRead(hottPort);] *)
Fixpoint receiveLoop (fifo : list Z) (buf : Z * Z) (ptr : nat) : list Z * (Z * Z) * nat :=
  match fifo with
  | [] => (fifo, buf, ptr)
  | b :: rest =>
      if (ptr <? 2)%nat
      then receiveLoop rest (writeRequestBuffer buf ptr b) (S ptr)
      else (fifo, buf, ptr)
  end.

Definition receiveRequestBytes (d : Driver) : Driver :=
  let '(fifo, buf, ptr) :=
    receiveLoop (rxFifo d) (hottRequestBuffer d) (hottRequestBufferPtr d) in
  set_hottRequestBufferPtr ptr (set_hottRequestBuffer buf (set_rxFifo fifo d)).

(** The binary-mode branch of the decode: dispatch on the address byte
    [hottRequestBuffer[1]]. *)
Definition binaryModeBranch (env : Inputs) (currentTimeUs : Z) (d : Driver) : Driver :=
  let '(ok, d) := processBinaryModeRequest env (snd (hottRequestBuffer d)) d in
  if ok then hottSwitchState HOTT_WAITING_FOR_TX_WINDOW currentTimeUs d
  else hottSwitchState HOTT_WAITING_FOR_REQUEST currentTimeUs d.

(** The decode of a completed request in HOTT_RECEIVING_REQUEST. *)
Definition decodeRequest (env : Inputs) (currentTimeUs : Z) (d : Driver) : Driver :=
  let b0 := fst (hottRequestBuffer d) in
  let b1 := snd (hottRequestBuffer d) in
  if (b0 =? 0) || (b0 =? HOTT_BINARY_MODE_REQUEST_ID) then
    binaryModeBranch env currentTimeUs d
  else if b0 =? HOTT_TEXT_MODE_REQUEST_ID then
    if USE_HOTT_TEXTMODE_AND_CMS hdr then
      let '(ok, d) := processHottTextModeRequest env b1 d in
      if ok then hottSwitchState HOTT_WAITING_FOR_TX_WINDOW currentTimeUs d
      else hottSwitchState HOTT_WAITING_FOR_REQUEST currentTimeUs d
    else hottSwitchState HOTT_WAITING_FOR_REQUEST currentTimeUs d
  else
    (* Received garbage - resync *)
    let d := flushHottRxBuffer d in
    hottSwitchState HOTT_WAITING_FOR_REQUEST currentTimeUs d.

(** One pass through the body of the [do ... while (reprocessState)] loop:
    the new driver and the value of [reprocessState]. *)
Definition hottStateStep (env : Inputs) (currentTimeUs : Z) (d : Driver) : Driver * bool :=
  match hottState d with
  | HOTT_WAITING_FOR_REQUEST =>
      if negb (serialRxBytesWaiting d =? 0) then
        let d := set_hottRequestBufferPtr 0%nat d in
        (hottSwitchState HOTT_RECEIVING_REQUEST currentTimeUs d, true)
      else (d, false)
  | HOTT_RECEIVING_REQUEST =>
      if elapsedUs currentTimeUs (hottStateChangeUs d) >=? rxSchedule d then
        (* Waiting for too long - resync *)
        let d := flushHottRxBuffer d in
        (hottSwitchState HOTT_WAITING_FOR_REQUEST currentTimeUs d, false)
      else
        let d := receiveRequestBytes d in
        if (2 <=? hottRequestBufferPtr d)%nat
        then (decodeRequest env currentTimeUs d, true)
        else (d, false)
  | HOTT_WAITING_FOR_TX_WINDOW =>
      if elapsedUs currentTimeUs (hottStateChangeUs d) >=? HOTT_TX_SCHEDULE then
        let d := set_hottTxMsgCrc 0 d in
        (hottSwitchState HOTT_TRANSMITTING currentTimeUs d, false)
      else (d, false)
  | HOTT_TRANSMITTING =>
      let '(done, d) := hottSendTelemetryDataByte currentTimeUs d in
      if done then (hottSwitchState HOTT_ENDING_TRANSMISSION currentTimeUs d, false)
      else (d, false)
  | HOTT_ENDING_TRANSMISSION =>
      if elapsedUs currentTimeUs (hottStateChangeUs d) >=? txDelayUs d then
        let d := flushHottRxBuffer d in
        (hottSwitchState HOTT_WAITING_FOR_REQUEST currentTimeUs d, true)
      else (d, false)
  end.

(** The [do ... while] loop, bounded by [fuel] passes; [None] when the loop
    is still asking for another pass after [fuel] of them. *)
Fixpoint hottStateLoop (fuel : nat) (env : Inputs) (currentTimeUs : Z) (d : Driver)
    : option Driver :=
  match fuel with
  | O => None
  | S fuel =>
      let '(d, reprocessState) := hottStateStep env currentTimeUs d in
      if reprocessState then hottStateLoop fuel env currentTimeUs d else Some d
  end.

(** Every pass that asks for another one either leaves
    HOTT_ENDING_TRANSMISSION for good or is one of the two passes that take
    two bytes off the receive FIFO, so [2 + length (rxFifo d)] passes are
    enough ([handleHoTTTelemetry_returns] below). *)
Definition handleHoTTTelemetry (env : Inputs) (currentTimeUs : Z) (d : Driver)
    : option Driver :=
  if negb (hottTelemetryEnabled d) then Some d
  else hottStateLoop (2 + length (rxFifo d)) env currentTimeUs d.

(** *** Start-up

    The statics of hott.c as the C start-up code leaves them, and
    [initHoTTTelemetry] and [configureHoTTTelemetryPort] with the answers of
    [findSerialPortConfig] and [openSerialPort] as arguments. *)

Definition initialDriver : Driver :=
  {| rxSchedule := HOTT_RX_SCHEDULE;
     txDelayUs := HOTT_TX_DELAY_US;
     hottState := HOTT_WAITING_FOR_REQUEST;
     hottStateChangeUs := 0;
     hottTxMsg := None;
     hottTxMsgSize := 0;
     hottTxMsgCrc := 0;
     hottTelemetryEnabled := false;
     hottGPSMessage := memset0 (sizeof_GPS hdr);
     hottEAMMessage := memset0 (sizeof_EAM hdr);
     hottTextModeMessage := memset0 (sizeof_TXT hdr);
     textmodeIsAlive := false;
     telemetryTaskPeriod := 0;
     lastHottAlarmSoundTime := 0;
     serialWrites := 0;
     setEscBack := false;
     byteSentTimeUs := 0;
     hottRequestBuffer := (0, 0);
     hottRequestBufferPtr := 0%nat;
     rxFifo := [];
     txLog := [];
     externCalls := [] |}.

Definition initHoTTTelemetry (portConfig : bool) (d : Driver) : Driver :=
  if negb portConfig then d
  else
    let d := if USE_HOTT_TEXTMODE_AND_CMS hdr
             then set_externCalls (externCalls d ++ [hottDisplayportRegister]) d
             else d in
    initialiseMessages d.

Definition configureHoTTTelemetryPort (portConfig hottPort : bool) (d : Driver) : Driver :=
  if negb portConfig then d
  else if negb hottPort then d
  else set_hottTelemetryEnabled true d.

Definition freeHoTTTelemetryPort (d : Driver) : Driver :=
  set_hottTelemetryEnabled false d.

(** The driver once telemetry is up: initialised and with its port open. *)
Definition startedDriver : Driver :=
  configureHoTTTelemetryPort true true (initHoTTTelemetry true initialDriver).

(** *** The scheduler and the line

    Between two calls of [handleHoTTTelemetry] the UART may have received
    bytes.  A poll is one call, with the inputs read during it, its
    timestamp and the bytes that arrived since the previous call. *)

Definition serialReceive (bytes : list Z) (d : Driver) : Driver :=
  set_rxFifo (rxFifo d ++ bytes) d.

Record Poll : Type := {
  poll_env : Inputs;
  poll_time : Z;
  poll_arrived : list Z
}.

Fixpoint runPolls (polls : list Poll) (d : Driver) : option Driver :=
  match polls with
  | [] => Some d
  | p :: polls =>
      match handleHoTTTelemetry (poll_env p) (poll_time p)
              (serialReceive (poll_arrived p) d) with
      | Some d => runPolls polls d
      | None => None
      end
  end.

End Driver.

(** ** Vocabulary of the properties *)

(** *** Record layouts

    What the proofs need of a record layout: distinct members have distinct
    offsets, every member lies inside the record, and the size of the record
    fits the [uint8_t] counter [hottTxMsgSize]. *)

Record EAMLayout (hdr : Headers) : Prop := {
  eam_offsets_distinct : forall f g, offsetof_EAM hdr f = offsetof_EAM hdr g -> f = g;
  eam_offsets_inside : forall f, (offsetof_EAM hdr f < sizeof_EAM hdr)%nat;
  eam_size_fits : (sizeof_EAM hdr < 256)%nat
}.

Record GPSLayout (hdr : Headers) : Prop := {
  gps_offsets_distinct : forall f g, offsetof_GPS hdr f = offsetof_GPS hdr g -> f = g;
  gps_offsets_inside : forall f, (offsetof_GPS hdr f < sizeof_GPS hdr)%nat;
  gps_size_fits : (sizeof_GPS hdr < 256)%nat
}.

(** A set of declarations on which the driver can be run: a 32-bit
    [timeUs_t], every optional feature compiled in, GPS and EAM records of 44
    bytes with the start marker first and the stop marker last, and a text
    record with a grid of 8 rows of 21 characters. *)

Definition sampleOffsetEAM (f : EAM.field) : nat :=
  match f with
  | EAM.start_byte => 0 | EAM.eam_sensor_id => 1 | EAM.warning_beeps => 2
  | EAM.sensor_id => 3 | EAM.alarm_invers1 => 4
  | EAM.batt1_voltage_L => 20 | EAM.batt1_voltage_H => 21
  | EAM.altitude_L => 26 | EAM.altitude_H => 27
  | EAM.current_L => 28 | EAM.current_H => 29
  | EAM.main_voltage_L => 30 | EAM.main_voltage_H => 31
  | EAM.batt_cap_L => 32 | EAM.batt_cap_H => 33
  | EAM.climbrate_L => 34 | EAM.climbrate_H => 35 | EAM.climbrate3s => 36
  | EAM.stop_byte => 43
  end%nat.

Definition sampleOffsetGPS (f : GPS.field) : nat :=
  match f with
  | GPS.start_byte => 0 | GPS.gps_sensor_id => 1 | GPS.sensor_id => 3
  | GPS.gps_speed_L => 7 | GPS.gps_speed_H => 8
  | GPS.pos_NS => 9 | GPS.pos_NS_dm_L => 10 | GPS.pos_NS_dm_H => 11
  | GPS.pos_NS_sec_L => 12 | GPS.pos_NS_sec_H => 13
  | GPS.pos_EW => 14 | GPS.pos_EW_dm_L => 15 | GPS.pos_EW_dm_H => 16
  | GPS.pos_EW_sec_L => 17 | GPS.pos_EW_sec_H => 18
  | GPS.home_distance_L => 19 | GPS.home_distance_H => 20
  | GPS.altitude_L => 21 | GPS.altitude_H => 22
  | GPS.climbrate_L => 23 | GPS.climbrate_H => 24 | GPS.climbrate3s => 25
  | GPS.gps_satelites => 26 | GPS.gps_fix_char => 27 | GPS.home_direction => 28
  | GPS.stop_byte => 43
  end%nat.

Definition sampleOffsetTXT (f : TXT.field) : nat :=
  match f with
  | TXT.start => 0 | TXT.esc => 1 | TXT.warning => 2 | TXT.txt => 3
  | TXT.stop => 171
  end%nat.

Definition sampleHeaders : Headers :=
  {| TIMEUS_BITS := 32;
     USE_GPS := true;
     USE_GPS_FIX_ESTIMATION := true;
     USE_HOTT_TEXTMODE_AND_CMS := true;
     HOTT_TELEMETRY_EAM_SENSOR_ID := 0x8E;
     HOTT_EAM_SENSOR_TEXT_ID := 0xE0;
     HOTT_TELEMETRY_GPS_SENSOR_ID := 0x8A;
     HOTT_GPS_SENSOR_TEXT_ID := 0xA0;
     HOTT_EAM_ALARM1_FLAG_NONE := 0;
     HOTT_EAM_ALARM1_FLAG_BATTERY_1 := 0x80;
     HOTT_GPS_ALTITUDE_OFFSET := 500;
     HOTT_TEXTMODE_START := 0x7B;
     HOTT_TEXTMODE_STOP := 0x7D;
     HOTT_TEXTMODE_ESC := 0x01;
     HOTT_TEXTMODE_DISPLAY_COLUMNS := 21;
     HOTT_TEXTMODE_DISPLAY_ROWS := 8;
     GPS_DEGREES_DIVIDER := 10000000;
     TASK_PERIOD_HZ := fun hz => 1000000 ÷ hz;
     sizeof_EAM := 44;
     offsetof_EAM := sampleOffsetEAM;
     sizeof_GPS := 44;
     offsetof_GPS := sampleOffsetGPS;
     sizeof_TXT := 172;
     offsetof_TXT := sampleOffsetTXT |}.

(** Sensor inputs of a craft on the bench: a battery at [vbat] (in units of
    10 mV), no GPS, nothing moving. *)
Definition benchInputs (vbat : Z) (state : batteryState_e) (now_ms : Z) : Inputs :=
  {| millis := now_ms;
     hottAlarmSoundInterval := 5;
     getBatteryState := state;
     getBatteryVoltage := vbat;
     getAmperage := 0;
     getMAhDrawn := 0;
     positionAlt := 500;
     climbrateRaw := 30000;
     climbrate3sRaw := 120;
     sensors_SENSOR_GPS := false;
     STATE_GPS_FIX := false;
     STATE_GPS_ESTIMATED_FIX := false;
     gpsSol_numSat := 0;
     gpsSol_fixType := GPS_NO_FIX;
     gpsSol_llh_lat := 0;
     gpsSol_llh_lon := 0;
     gpsSol_llh_alt := 0;
     gpsSol_groundSpeed := 0;
     GPS_distanceToHome := 0;
     GPS_directionToHome := 0;
     taskInfo_desiredPeriod := 2000 |}.

(** *** Coordinates

    A low/high byte pair read as a 16-bit two's-complement number. *)
Definition int16OfBytes (lo hi : Z) : Z := s16 (lo + 256 * hi).

(** Six times the coordinate that the packed fields stand for, in the units
    of the input (1/[GPS_DEGREES_DIVIDER] degree): [dm] is
    [degrees * 100 + minutes] and [frac] counts 1/10000 of a minute.  The
    factor six keeps the value an integer: a minute is a sixtieth of a
    degree. *)
Definition reconstruct6 (hdr : Headers) (dm frac : Z) : Z :=
  6 * ((dm ÷ 100) * GPS_DEGREES_DIVIDER hdr)
  + Z.rem dm 100 * (GPS_DEGREES_DIVIDER hdr ÷ 10)
  + frac * (GPS_DEGREES_DIVIDER hdr ÷ 100000).

(** The same, reading the second pair as hundredths of a second of arc
    (1/360000 degree) as the spec words it; the result is 360000 times the
    coordinate in degrees. *)
Definition reconstructSeconds360000 (dm sec : Z) : Z :=
  (dm ÷ 100) * 360000 + Z.rem dm 100 * 6000 + sec.

(** [coordinate] and a reconstruction [r] (given as [k] times the
    reconstructed value, in the same units) differ by less than a hundredth
    of a second of arc, that is [GPS_DEGREES_DIVIDER / 360000] units. *)
Definition withinHundredthOfSecond (hdr : Headers) (coordinate k r : Z) : Prop :=
  360000 * Z.abs (k * coordinate - r) < k * GPS_DEGREES_DIVIDER hdr.

Definition latitudePair (hdr : Headers) (msg : list Z) : Z * Z :=
  (int16OfBytes (getGPS hdr GPS.pos_NS_dm_L msg) (getGPS hdr GPS.pos_NS_dm_H msg),
   int16OfBytes (getGPS hdr GPS.pos_NS_sec_L msg) (getGPS hdr GPS.pos_NS_sec_H msg)).

Definition longitudePair (hdr : Headers) (msg : list Z) : Z * Z :=
  (int16OfBytes (getGPS hdr GPS.pos_EW_dm_L msg) (getGPS hdr GPS.pos_EW_dm_H msg),
   int16OfBytes (getGPS hdr GPS.pos_EW_sec_L msg) (getGPS hdr GPS.pos_EW_sec_H msg)).

Definition int32 (x : Z) : Prop := - 2 ^ 31 <= x < 2 ^ 31.

(** *** Requests

    A two-byte request [m], [a] completes during the call at [now], with
    [rest] behind it in the receive FIFO: the driver is listening and both
    bytes wait in the FIFO, or it is already receiving, the request timeout
    has not expired, and the bytes it still misses wait in the FIFO. *)
Definition requestCompletes (hdr : Headers) (now m a : Z) (rest : list Z) (d : Driver)
    : Prop :=
  hottTelemetryEnabled d = true /\
  ((hottState d = HOTT_WAITING_FOR_REQUEST /\ rxFifo d = m :: a :: rest /\
    0 < rxSchedule d) \/
   (hottState d = HOTT_RECEIVING_REQUEST /\
    elapsedUs hdr now (hottStateChangeUs d) < rxSchedule d /\
    ((hottRequestBufferPtr d = 0%nat /\ rxFifo d = m :: a :: rest) \/
     (hottRequestBufferPtr d = 1%nat /\ fst (hottRequestBuffer d) = m /\
      rxFifo d = a :: rest)))).

(** The same with nothing behind the request, as when the far end waits for
    the answer. *)
Definition requestArrives (hdr : Headers) (now m a : Z) (d : Driver) : Prop :=
  requestCompletes hdr now m a [] d.

(** The driver at the moment the second byte has been stored: in
    HOTT_RECEIVING_REQUEST, both bytes in [hottRequestBuffer], the FIFO
    empty. *)
Definition received (now m a : Z) (d : Driver) : Driver :=
  let d := if hottState_eqb (hottState d) HOTT_RECEIVING_REQUEST then d
           else set_hottStateChangeUs now (set_hottState HOTT_RECEIVING_REQUEST d) in
  set_hottRequestBufferPtr 2%nat (set_hottRequestBuffer (m, a) (set_rxFifo [] d)).

(** The response queue: the pointer, the remaining length and the checksum
    accumulator. *)
Definition responseQueue (d : Driver) : option Pointer * Z * Z :=
  (hottTxMsg d, hottTxMsgSize d, hottTxMsgCrc d).

(** *** The EAM record

    The four members that [initialiseEAMMessage] sets and nothing in hott.c
    writes afterwards. *)
Definition EAMInitialised (hdr : Headers) (msg : list Z) : Prop :=
  getEAM hdr EAM.start_byte msg = 0x7C /\
  getEAM hdr EAM.eam_sensor_id msg = u8 (HOTT_TELEMETRY_EAM_SENSOR_ID hdr) /\
  getEAM hdr EAM.sensor_id msg = u8 (HOTT_EAM_SENSOR_TEXT_ID hdr) /\
  getEAM hdr EAM.stop_byte msg = 0x7D.

(** The main-voltage member pair, low byte first. *)
Definition mainVoltage (hdr : Headers) (msg : list Z) : Z :=
  getEAM hdr EAM.main_voltage_L msg + 256 * getEAM hdr EAM.main_voltage_H msg.

(** A run of stores, the latest first, and the value of the latest store to
    an offset. *)
Definition applyStores (stores : list (nat * Z)) (msg : list Z) : list Z :=
  foldr (fun s m => store (fst s) (snd s) m) msg stores.

Fixpoint lastStoreTo (off : nat) (stores : list (nat * Z)) : option Z :=
  match stores with
  | [] => None
  | s :: stores => if Nat.eqb (fst s) off then Some (u8 (snd s)) else lastStoreTo off stores
  end.

(** The stores of [hottPrepareEAMResponse], the latest first, in three
    parts: those before the body of [updateAlarmBatteryStatus], those of
    that body when the alarm check is due, and those after it. *)
Definition storesBeforeAlarm (hdr : Headers) (env : Inputs) : list (nat * Z) :=
  let vbat_dcv := u8 (getBatteryVoltage env ÷ 10) in
  [ (offsetof_EAM hdr EAM.batt1_voltage_H, Z.shiftr vbat_dcv 8);
    (offsetof_EAM hdr EAM.batt1_voltage_L, Z.land vbat_dcv 0xFF);
    (offsetof_EAM hdr EAM.main_voltage_H, Z.shiftr vbat_dcv 8);
    (offsetof_EAM hdr EAM.main_voltage_L, Z.land vbat_dcv 0xFF);
    (offsetof_EAM hdr EAM.alarm_invers1, 0x0);
    (offsetof_EAM hdr EAM.warning_beeps, 0x0) ].

Definition alarmStores (hdr : Headers) (env : Inputs) (due : bool) : list (nat * Z) :=
  if due then
    match getBatteryState env with
    | BATTERY_WARNING | BATTERY_CRITICAL =>
        [ (offsetof_EAM hdr EAM.alarm_invers1, HOTT_EAM_ALARM1_FLAG_BATTERY_1 hdr);
          (offsetof_EAM hdr EAM.warning_beeps, 0x10) ]
    | _ =>
        [ (offsetof_EAM hdr EAM.alarm_invers1, HOTT_EAM_ALARM1_FLAG_NONE hdr);
          (offsetof_EAM hdr EAM.warning_beeps, HOTT_EAM_ALARM1_FLAG_NONE hdr) ]
    end
  else [].

Definition storesAfterAlarm (hdr : Headers) (env : Inputs) : list (nat * Z) :=
  let amp := s32 (getAmperage env ÷ 10) in
  let mAh := s32 (getMAhDrawn env ÷ 10) in
  let alt := MAX 0 (positionAlt env) in
  let climbrate := MAX 0 (climbrateRaw env) in
  let climbrate3s := MAX 0 (climbrate3sRaw env) in
  [ (offsetof_EAM hdr EAM.climbrate3s, Z.land climbrate3s 0xFF);
    (offsetof_EAM hdr EAM.climbrate_H, Z.shiftr climbrate 8);
    (offsetof_EAM hdr EAM.climbrate_L, Z.land climbrate 0xFF);
    (offsetof_EAM hdr EAM.altitude_H, Z.shiftr alt 8);
    (offsetof_EAM hdr EAM.altitude_L, Z.land alt 0xFF);
    (offsetof_EAM hdr EAM.batt_cap_H, Z.shiftr mAh 8);
    (offsetof_EAM hdr EAM.batt_cap_L, Z.land mAh 0xFF);
    (offsetof_EAM hdr EAM.current_H, Z.shiftr amp 8);
    (offsetof_EAM hdr EAM.current_L, Z.land amp 0xFF) ].

(** The test of [updateAlarmBatteryStatus]: the alarm interval has passed
    since the alarm fields were last set. *)
Definition alarmCheckDue (env : Inputs) (lastHottAlarmSoundTime : Z) : bool :=
  u32 (millis env - lastHottAlarmSoundTime)
  >=? u32 (hottAlarmSoundInterval env * MILLISECONDS_IN_A_SECOND).

Definition batteryLow (env : Inputs) : bool :=
  match getBatteryState env with
  | BATTERY_WARNING | BATTERY_CRITICAL => true
  | _ => false
  end.

(** The EAM record after one population and after a second one that follows
    it with the same inputs. *)
Definition populateTwice (hdr : Headers) (env : Inputs) (last : Z) (msg : list Z)
    : list Z * list Z :=
  let '(last1, msg1) := hottPrepareEAMResponse hdr env last msg in
  let '(last2, msg2) := hottPrepareEAMResponse hdr env last1 msg1 in
  (msg1, msg2).

(** *** Transmission *)

Definition sumBytes (bytes : list Z) : Z := foldr Z.add 0 bytes.

Definition sizeofBuffer (hdr : Headers) (b : Buffer) : nat :=
  match b with
  | GPSMessage => sizeof_GPS hdr
  | EAMMessage => sizeof_EAM hdr
  | TextModeMessage => sizeof_TXT hdr
  end.

(** The record that a binary-mode request for address [a] is answered with,
    if any: the cases of the [switch] in [processBinaryModeRequest]. *)
Definition recognisedAddress (hdr : Headers) (env : Inputs) (a : Z) : option Buffer :=
  if USE_GPS hdr && (a =? 0x8A) then
    if sensors_SENSOR_GPS env || (USE_GPS_FIX_ESTIMATION hdr && STATE_GPS_ESTIMATED_FIX env)
    then Some GPSMessage else None
  else if a =? 0x8E then Some EAMMessage
  else None.

(** The records have the size that the header declares, and the size fits
    the [uint8_t] counter [hottTxMsgSize]. *)
Definition recordsSized (hdr : Headers) (d : Driver) : Prop :=
  forall b, length (bufferOf b d) = sizeofBuffer hdr b /\ (sizeofBuffer hdr b < 256)%nat.

(** The guard of [hottSendTelemetryDataByte] lets the call at the time of
    poll [p] through. *)
Definition guardPasses (hdr : Headers) (d : Driver) (p : Poll) : Prop :=
  HOTT_TX_DELAY_US <= elapsedUs hdr (poll_time p) (byteSentTimeUs d).

(** A poll at [now] with nothing new on the line. *)
Definition quietPoll (env : Inputs) (now : Z) : Poll :=
  {| poll_env := env; poll_time := now; poll_arrived := [] |}.

(** The driver is transmitting, with [n] bytes of the record left to send
    from the pointer [p] on. *)
Definition Transmitting (d : Driver) (p : Pointer) (n : nat) : Prop :=
  hottTelemetryEnabled d = true /\
  hottState d = HOTT_TRANSMITTING /\
  hottTxMsg d = Some p /\
  hottTxMsgSize d = Z.of_nat n /\
  (n < 256)%nat /\
  (offset p + n <= length (bufferOf (base p) d))%nat /\
  0 <= hottTxMsgCrc d < 256.

(** The bytes of the record still to send. *)
Definition remaining (d : Driver) (p : Pointer) (n : nat) : list Z :=
  take n (drop (offset p) (bufferOf (base p) d)).

(** *** Scenarios on the sample declarations *)

(** The bench inputs with the battery at 11.50 V. *)
Definition benchEnv : Inputs := benchInputs 1150 BATTERY_OK 1000.

(** The started driver with [bytes] waiting in the receive FIFO. *)
Definition startedWith (bytes : list Z) : Driver :=
  serialReceive bytes (startedDriver sampleHeaders).

(** [n] quiet polls, the first at [start] and each [step] microseconds after
    the one before. *)
Definition spacedPolls (n : nat) (start step : Z) : list Poll :=
  map (fun k => quietPoll benchEnv (start + step * Z.of_nat k)) (seq 0 n).

(** The started driver after a poll at 10000 microseconds has read the
    single byte 0x80. *)
Definition afterFirstByte : Driver :=
  set_hottRequestBufferPtr 1%nat
    (set_hottRequestBuffer (0x80, 0)
       (set_hottStateChangeUs 10000
          (set_hottState HOTT_RECEIVING_REQUEST (startedDriver sampleHeaders)))).

(** *** The transitions of the state machine

    One pass through the loop body of [handleHoTTTelemetry] at [now], as a
    relation between the driver before, the driver after and the value of
    [reprocessState]: one rule for every way through the [switch]. *)
Inductive Transition (hdr : Headers) (env : Inputs) (now : Z) (d : Driver)
    : Driver -> bool -> Prop :=
  | T_listening_quiet :
      hottState d = HOTT_WAITING_FOR_REQUEST -> rxFifo d = [] ->
      Transition hdr env now d d false
  | T_listening_bytes :
      hottState d = HOTT_WAITING_FOR_REQUEST -> rxFifo d <> [] ->
      Transition hdr env now d
        (set_hottStateChangeUs now
           (set_hottState HOTT_RECEIVING_REQUEST (set_hottRequestBufferPtr 0%nat d)))
        true
  | T_receiving_timeout :
      hottState d = HOTT_RECEIVING_REQUEST ->
      rxSchedule d <= elapsedUs hdr now (hottStateChangeUs d) ->
      Transition hdr env now d
        (set_hottStateChangeUs now
           (set_hottState HOTT_WAITING_FOR_REQUEST (set_rxFifo [] d)))
        false
  | T_receiving_partial :
      hottState d = HOTT_RECEIVING_REQUEST ->
      elapsedUs hdr now (hottStateChangeUs d) < rxSchedule d ->
      (hottRequestBufferPtr (receiveRequestBytes d) < 2)%nat ->
      Transition hdr env now d (receiveRequestBytes d) false
  | T_receiving_decode :
      hottState d = HOTT_RECEIVING_REQUEST ->
      elapsedUs hdr now (hottStateChangeUs d) < rxSchedule d ->
      (2 <= hottRequestBufferPtr (receiveRequestBytes d))%nat ->
      Transition hdr env now d (decodeRequest hdr env now (receiveRequestBytes d)) true
  | T_window_wait :
      hottState d = HOTT_WAITING_FOR_TX_WINDOW ->
      elapsedUs hdr now (hottStateChangeUs d) < HOTT_TX_SCHEDULE ->
      Transition hdr env now d d false
  | T_window_open :
      hottState d = HOTT_WAITING_FOR_TX_WINDOW ->
      HOTT_TX_SCHEDULE <= elapsedUs hdr now (hottStateChangeUs d) ->
      Transition hdr env now d
        (set_hottStateChangeUs now
           (set_hottState HOTT_TRANSMITTING (set_hottTxMsgCrc 0 d)))
        false
  | T_transmitting : forall d1,
      hottState d = HOTT_TRANSMITTING ->
      hottSendTelemetryDataByte hdr now d = (false, d1) ->
      Transition hdr env now d d1 false
  | T_transmitting_done : forall d1,
      hottState d = HOTT_TRANSMITTING ->
      hottSendTelemetryDataByte hdr now d = (true, d1) ->
      Transition hdr env now d
        (set_hottStateChangeUs now (set_hottState HOTT_ENDING_TRANSMISSION d1))
        false
  | T_ending_wait :
      hottState d = HOTT_ENDING_TRANSMISSION ->
      elapsedUs hdr now (hottStateChangeUs d) < txDelayUs d ->
      Transition hdr env now d d false
  | T_ending_done :
      hottState d = HOTT_ENDING_TRANSMISSION ->
      txDelayUs d <= elapsedUs hdr now (hottStateChangeUs d) ->
      Transition hdr env now d
        (set_hottStateChangeUs now
           (set_hottState HOTT_WAITING_FOR_REQUEST (set_rxFifo [] d)))
        true.

(** *** What only the decode of a request changes

    The timing profile, the text-mode flags, the time of the last alarm,
    the calls into the scheduler and the CMS, and the three records. *)
Definition settings (d : Driver) :=
  (rxSchedule d, txDelayUs d, textmodeIsAlive d, telemetryTaskPeriod d,
   lastHottAlarmSoundTime d, setEscBack d, externCalls d,
   (hottGPSMessage d, hottEAMMessage d, hottTextModeMessage d)).

(** The request timeout and the end-of-transmission delay are those of text
    mode exactly while text mode is alive. *)
Definition TimingProfile (d : Driver) : Prop :=
  (rxSchedule d, txDelayUs d)
  = if textmodeIsAlive d
    then (HOTT_TEXTMODE_RX_SCHEDULE, HOTT_TEXTMODE_TX_DELAY_US)
    else (HOTT_RX_SCHEDULE, HOTT_TX_DELAY_US).

(** The four members that [initialiseGPSMessage] sets. *)
Definition GPSInitialised (hdr : Headers) (msg : list Z) : Prop :=
  getGPS hdr GPS.start_byte msg = 0x7C /\
  getGPS hdr GPS.gps_sensor_id msg = u8 (HOTT_TELEMETRY_GPS_SENSOR_ID hdr) /\
  getGPS hdr GPS.sensor_id msg = u8 (HOTT_GPS_SENSOR_TEXT_ID hdr) /\
  getGPS hdr GPS.stop_byte msg = 0x7D.

(** Sensor inputs of a craft in flight with a 3D fix: 52.5200000 degrees
    north, 13.4050000 degrees east, 12 satellites, 15 m/s over ground, 120 m
    above the reference, 250 m from home. *)
Definition gpsEnv : Inputs :=
  {| millis := 1000;
     hottAlarmSoundInterval := 5;
     getBatteryState := BATTERY_OK;
     getBatteryVoltage := 1150;
     getAmperage := 1234;
     getMAhDrawn := 450;
     positionAlt := 620;
     climbrateRaw := 30150;
     climbrate3sRaw := 124;
     sensors_SENSOR_GPS := true;
     STATE_GPS_FIX := true;
     STATE_GPS_ESTIMATED_FIX := false;
     gpsSol_numSat := 12;
     gpsSol_fixType := GPS_FIX_3D;
     gpsSol_llh_lat := 525200000;
     gpsSol_llh_lon := 134050000;
     gpsSol_llh_alt := 12000;
     gpsSol_groundSpeed := 1500;
     GPS_distanceToHome := 250;
     GPS_directionToHome := 90;
     taskInfo_desiredPeriod := 2000 |}.

(** *** Record contents

    The test of [hottPrepareGPSResponse] for a position to report. *)
Definition haveFix (hdr : Headers) (env : Inputs) : bool :=
  if USE_GPS_FIX_ESTIMATION hdr
  then STATE_GPS_FIX env || STATE_GPS_ESTIMATED_FIX env
  else STATE_GPS_FIX env.

(** A low/high member pair of a record read as one unsigned 16-bit number,
    the way the receiver puts it together. *)
Definition pairGPS (hdr : Headers) (lo hi : GPS.field) (msg : list Z) : Z :=
  getGPS hdr lo msg + 256 * getGPS hdr hi msg.

Definition pairEAM (hdr : Headers) (lo hi : EAM.field) (msg : list Z) : Z :=
  getEAM hdr lo msg + 256 * getEAM hdr hi msg.

(** The members that [hottPrepareGPSResponse] writes whether there is a fix
    or not. *)
Definition writtenWithoutFix (f : GPS.field) : bool :=
  match f with
  | GPS.gps_satelites | GPS.climbrate_L | GPS.climbrate_H | GPS.climbrate3s
  | GPS.gps_fix_char => true
  | _ => false
  end.

(** While a response waits for its window or is being sent, the pointer and
    the count of the response queue together end at the end of the record
    the pointer points into. *)
Definition QueueInBounds (hdr : Headers) (d : Driver) : Prop :=
  match hottState d with
  | HOTT_WAITING_FOR_TX_WINDOW | HOTT_TRANSMITTING =>
      exists p,
        hottTxMsg d = Some p /\ 0 <= hottTxMsgSize d /\
        Z.of_nat (offset p) + hottTxMsgSize d = Z.of_nat (sizeofBuffer hdr (base p))
  | _ => True
  end.

(** The three records have the size of their declarations. *)
Definition recordLengths (hdr : Headers) (d : Driver) : Prop :=
  forall b, length (bufferOf b d) = sizeofBuffer hdr b.

(** * Properties *)

(** ** Integer conversions and byte buffers *)

Ltac unwrap :=
  unfold int32, u8, u16, u32, s8, s16, s32, wrap_unsigned, wrap_signed in *;
  change (2 ^ 8) with 256 in *; change (2 ^ (8 - 1)) with 128 in *;
  change (2 ^ 16) with 65536 in *; change (2 ^ (16 - 1)) with 32768 in *;
  change (2 ^ 32) with 4294967296 in *; change (2 ^ (32 - 1)) with 2147483648 in *;
  change (2 ^ 31) with 2147483648 in *.

Ltac arith := unwrap; Z.to_euclidean_division_equations; lia.

Lemma u8_range x : 0 <= u8 x < 256.
Proof. arith. Qed.

Lemma u8_small x : 0 <= x < 256 -> u8 x = x.
Proof. intros; arith. Qed.

Lemma u8_idem x : u8 (u8 x) = u8 x.
Proof. apply u8_small, u8_range. Qed.

Lemma u8_add_l a b : u8 (u8 a + b) = u8 (a + b).
Proof. unfold u8, wrap_unsigned. apply Zplus_mod_idemp_l. Qed.

Lemma s16_small x : - 32768 <= x < 32768 -> s16 x = x.
Proof. intros; arith. Qed.

Lemma byte_pair x : u8 x + 256 * u8 (Z.shiftr x 8) = x mod 65536.
Proof. rewrite Z.shiftr_div_pow2 by lia. arith. Qed.

Lemma int16OfBytes_pair x :
  - 32768 <= x < 32768 -> int16OfBytes (u8 x) (u8 (Z.shiftr x 8)) = x.
Proof. intros H. unfold int16OfBytes. rewrite byte_pair. arith. Qed.

Lemma int16OfBytes_pair_u16 x :
  - 32768 <= x < 32768 -> int16OfBytes (u8 (u16 x)) (u8 (Z.shiftr (u16 x) 8)) = x.
Proof. intros H. unfold int16OfBytes. rewrite byte_pair. arith. Qed.

Lemma length_store off v msg : length (store off v msg) = length msg.
Proof. apply length_insert. Qed.

Lemma load_store_eq off v msg :
  (off < length msg)%nat -> load off (store off v msg) = u8 v.
Proof.
  intros H. unfold load, store. now rewrite list_lookup_insert_eq.
Qed.

Lemma load_store_ne off off' v msg :
  off <> off' -> load off (store off' v msg) = load off msg.
Proof.
  intros H. unfold load, store. rewrite list_lookup_insert_ne; auto.
Qed.

(** ** addGPSCoordinates *)

Lemma coordinateLocals_exact hdr c :
  GPS_DEGREES_DIVIDER hdr = 10000000 -> int32 c ->
  let cl := coordinateLocals hdr c in
  cl_deg cl = c ÷ 10000000 /\
  cl_min cl = (Z.rem c 10000000 * 6) ÷ 1000000 /\
  cl_sec cl = Z.rem (Z.rem c 10000000 * 6) 1000000 ÷ 100 /\
  cl_degMin cl = u16 (cl_deg cl * 100 + cl_min cl) /\
  - 32768 <= cl_deg cl * 100 + cl_min cl < 32768 /\
  - 32768 <= cl_sec cl < 32768.
Proof.
  intros HD Hc. unfold coordinateLocals. rewrite HD. cbn [cl_deg cl_min cl_sec cl_degMin].
  assert (E1 : s16 (c ÷ 10000000) = c ÷ 10000000) by arith.
  rewrite E1.
  assert (E2 : s32 ((c - c ÷ 10000000 * 10000000) * 6) = Z.rem c 10000000 * 6) by arith.
  rewrite E2.
  assert (E3 : s8 (Z.rem c 10000000 * 6 ÷ 1000000) = Z.rem c 10000000 * 6 ÷ 1000000) by arith.
  rewrite E3.
  assert (E4 : s32 (Z.rem (Z.rem c 10000000 * 6) 1000000 ÷ 100)
               = Z.rem (Z.rem c 10000000 * 6) 1000000 ÷ 100) by arith.
  rewrite E4.
  repeat split; try reflexivity; arith.
Qed.

Lemma coordinate_roundtrip hdr c :
  GPS_DEGREES_DIVIDER hdr = 10000000 -> int32 c ->
  let cl := coordinateLocals hdr c in
  let dm := int16OfBytes (u8 (cl_degMin cl)) (u8 (Z.shiftr (cl_degMin cl) 8)) in
  let frac := int16OfBytes (u8 (cl_sec cl)) (u8 (Z.shiftr (cl_sec cl) 8)) in
  dm = (c ÷ 10000000) * 100 + (Z.rem c 10000000 * 6) ÷ 1000000 /\
  frac = Z.rem (Z.rem c 10000000 * 6) 1000000 ÷ 100 /\
  Z.abs (6 * c - reconstruct6 hdr dm frac) < 100.
Proof.
  intros HD Hc.
  destruct (coordinateLocals_exact hdr c HD Hc) as (Ed & Em & Es & Edm & Rdm & Rs).
  cbv zeta. rewrite Edm.
  rewrite int16OfBytes_pair_u16 by exact Rdm.
  rewrite int16OfBytes_pair by exact Rs.
  rewrite Ed, Em, Es. unfold reconstruct6. rewrite HD.
  change (10000000 ÷ 10) with 1000000. change (10000000 ÷ 100000) with 100.
  repeat split; arith.
Qed.

Ltac gps_distinct L :=
  let E := fresh in
  intros E; apply (gps_offsets_distinct _ L) in E; discriminate E.

Ltac gps_read L Hlen :=
  unfold getGPS, setGPS;
  repeat (rewrite load_store_ne by gps_distinct L);
  rewrite load_store_eq
    by (rewrite ?length_store, Hlen; apply (gps_offsets_inside _ L));
  reflexivity.

Lemma addGPSCoordinates_fields hdr msg lat lon :
  GPSLayout hdr -> length msg = sizeof_GPS hdr ->
  let msg' := addGPSCoordinates hdr msg lat lon in
  let ns := coordinateLocals hdr lat in
  let ew := coordinateLocals hdr lon in
  (getGPS hdr GPS.pos_NS msg' = u8 (if lat <? 0 then 1 else 0) /\
   getGPS hdr GPS.pos_NS_dm_L msg' = u8 (cl_degMin ns) /\
   getGPS hdr GPS.pos_NS_dm_H msg' = u8 (Z.shiftr (cl_degMin ns) 8) /\
   getGPS hdr GPS.pos_NS_sec_L msg' = u8 (cl_sec ns) /\
   getGPS hdr GPS.pos_NS_sec_H msg' = u8 (Z.shiftr (cl_sec ns) 8)) /\
  (getGPS hdr GPS.pos_EW msg' = u8 (if lon <? 0 then 1 else 0) /\
   getGPS hdr GPS.pos_EW_dm_L msg' = u8 (cl_degMin ew) /\
   getGPS hdr GPS.pos_EW_dm_H msg' = u8 (Z.shiftr (cl_degMin ew) 8) /\
   getGPS hdr GPS.pos_EW_sec_L msg' = u8 (cl_sec ew) /\
   getGPS hdr GPS.pos_EW_sec_H msg' = u8 (Z.shiftr (cl_sec ew) 8)).
Proof.
  intros L Hlen. cbv zeta. unfold addGPSCoordinates.
  repeat split; gps_read L Hlen.
Qed.

Lemma length_addGPSCoordinates hdr msg lat lon :
  length (addGPSCoordinates hdr msg lat lon) = length msg.
Proof. unfold addGPSCoordinates, setGPS. now rewrite !length_store. Qed.

Lemma withinHundredthOfSecond_6 hdr c r :
  GPS_DEGREES_DIVIDER hdr = 10000000 ->
  Z.abs (6 * c - r) < 100 -> withinHundredthOfSecond hdr c 6 r.
Proof. intros HD H. unfold withinHundredthOfSecond. rewrite HD. lia. Qed.

Lemma sampleHeaders_GPSLayout : GPSLayout sampleHeaders.
Proof.
  split.
  - intros f g; destruct f, g; simpl; intros E; first [reflexivity | discriminate E].
  - intros f; destruct f; simpl; lia.
  - simpl; lia.
Qed.

Lemma sampleHeaders_EAMLayout : EAMLayout sampleHeaders.
Proof.
  split.
  - intros f g; destruct f, g; simpl; intros E; first [reflexivity | discriminate E].
  - intros f; destruct f; simpl; lia.
  - simpl; lia.
Qed.

(** C7, as amended.  [addGPSCoordinates] stores, for the latitude and for the
    longitude, [degrees * 100 + minutes] in one low/high byte pair and the
    fraction of the minute, in 1/10000 of a minute, in the other, both as
    16-bit two's-complement numbers (all three parts carry the sign of the
    coordinate), and sets the hemisphere flag exactly when the coordinate is
    negative.  For every [int32_t] coordinate in 1e-7 degree, putting
    degrees, minutes and the fraction of the minute back together gives the
    coordinate to within 1/10000 of a minute (the difference times six is
    below 100 units), which is within a hundredth of a second of arc. *)
Theorem addGPSCoordinates_roundtrip hdr msg lat lon :
  GPSLayout hdr -> GPS_DEGREES_DIVIDER hdr = 10000000 ->
  length msg = sizeof_GPS hdr -> int32 lat -> int32 lon ->
  let msg' := addGPSCoordinates hdr msg lat lon in
  (fst (latitudePair hdr msg') = (lat ÷ 10000000) * 100 + (Z.rem lat 10000000 * 6) ÷ 1000000 /\
   snd (latitudePair hdr msg') = Z.rem (Z.rem lat 10000000 * 6) 1000000 ÷ 100 /\
   Z.abs (6 * lat - reconstruct6 hdr (fst (latitudePair hdr msg')) (snd (latitudePair hdr msg'))) < 100 /\
   withinHundredthOfSecond hdr lat 6
     (reconstruct6 hdr (fst (latitudePair hdr msg')) (snd (latitudePair hdr msg'))) /\
   (getGPS hdr GPS.pos_NS msg' = 1 <-> lat < 0)) /\
  (fst (longitudePair hdr msg') = (lon ÷ 10000000) * 100 + (Z.rem lon 10000000 * 6) ÷ 1000000 /\
   snd (longitudePair hdr msg') = Z.rem (Z.rem lon 10000000 * 6) 1000000 ÷ 100 /\
   Z.abs (6 * lon - reconstruct6 hdr (fst (longitudePair hdr msg')) (snd (longitudePair hdr msg'))) < 100 /\
   withinHundredthOfSecond hdr lon 6
     (reconstruct6 hdr (fst (longitudePair hdr msg')) (snd (longitudePair hdr msg'))) /\
   (getGPS hdr GPS.pos_EW msg' = 1 <-> lon < 0)).
Proof.
  intros L HD Hlen Hlat Hlon msg'.
  destruct (addGPSCoordinates_fields hdr msg lat lon L Hlen)
    as ((N0 & N1 & N2 & N3 & N4) & (E0 & E1 & E2 & E3 & E4)).
  fold msg' in N0, N1, N2, N3, N4, E0, E1, E2, E3, E4.
  destruct (coordinate_roundtrip hdr lat HD Hlat) as (A1 & A2 & A3).
  destruct (coordinate_roundtrip hdr lon HD Hlon) as (B1 & B2 & B3).
  unfold latitudePair, longitudePair. cbn [fst snd].
  rewrite N0, N1, N2, N3, N4, E0, E1, E2, E3, E4.
  split; (split; [assumption | split; [assumption | split; [assumption | split]]]).
  - now apply withinHundredthOfSecond_6.
  - destruct (Z.ltb_spec lat 0);
      [change (u8 1) with 1 | change (u8 0) with 0];
      split; intros; first [lia | reflexivity | discriminate].
  - now apply withinHundredthOfSecond_6.
  - destruct (Z.ltb_spec lon 0);
      [change (u8 1) with 1 | change (u8 0) with 0];
      split; intros; first [lia | reflexivity | discriminate].
Qed.

Lemma addGPSCoordinates_roundtrip_witness :
  let msg' := addGPSCoordinates sampleHeaders (memset0 44) 481234560 (-1599600) in
  (Z.abs (6 * 481234560
          - reconstruct6 sampleHeaders (fst (latitudePair sampleHeaders msg'))
              (snd (latitudePair sampleHeaders msg'))) < 100 /\
   (getGPS sampleHeaders GPS.pos_NS msg' = 1 <-> 481234560 < 0)) /\
  (Z.abs (6 * -1599600
          - reconstruct6 sampleHeaders (fst (longitudePair sampleHeaders msg'))
              (snd (longitudePair sampleHeaders msg'))) < 100 /\
   (getGPS sampleHeaders GPS.pos_EW msg' = 1 <-> -1599600 < 0)).
Proof.
  intros msg'.
  destruct (addGPSCoordinates_roundtrip sampleHeaders (memset0 44) 481234560 (-1599600))
    as ((_ & _ & A & _ & A') & (_ & _ & B & _ & B')).
  - exact sampleHeaders_GPSLayout.
  - reflexivity.
  - reflexivity.
  - unfold int32; lia.
  - unfold int32; lia.
  - repeat split; first [exact A | apply A' | exact B | apply B'].
Defined.

(** C7, counterexample.  Taken as the spec words it, with the second byte
    pair read as hundredths of a second of arc, the packed fields of
    48.123456 degrees (minutes 7, second pair 4073) stand for 48 degrees 7
    minutes 40.73 seconds, which is 16 seconds of arc away from the input.
    And a negative coordinate is not packed as a magnitude beside the
    hemisphere flag: for the longitude -0.15996 degrees the first pair holds
    65527, the 16-bit two's complement of -9, not 9. *)
Lemma addGPSCoordinates_seconds_counterexample :
  let msg' := addGPSCoordinates sampleHeaders (memset0 44) 481234560 (-1599600) in
  latitudePair sampleHeaders msg' = (4807, 4073) /\
  ~ withinHundredthOfSecond sampleHeaders 481234560 360000
      (reconstructSeconds360000 (fst (latitudePair sampleHeaders msg'))
         (snd (latitudePair sampleHeaders msg'))
       * GPS_DEGREES_DIVIDER sampleHeaders) /\
  getGPS sampleHeaders GPS.pos_EW msg' = 1 /\
  getGPS sampleHeaders GPS.pos_EW_dm_L msg'
  + 256 * getGPS sampleHeaders GPS.pos_EW_dm_H msg' = 65527.
Proof.
  split; [reflexivity |]. split; [| split; reflexivity].
  unfold withinHundredthOfSecond. vm_compute. intros H; discriminate H.
Qed.

(** ** The text grid *)

Lemma txtCell_injective hdr r c r' c' :
  0 <= r -> 0 <= r' ->
  0 <= c < HOTT_TEXTMODE_DISPLAY_COLUMNS hdr ->
  0 <= c' < HOTT_TEXTMODE_DISPLAY_COLUMNS hdr ->
  txtCell hdr r c = txtCell hdr r' c' -> r = r' /\ c = c'.
Proof.
  intros Hr Hr' Hc Hc' E. unfold txtCell in E.
  assert (0 <= r * HOTT_TEXTMODE_DISPLAY_COLUMNS hdr) by nia.
  assert (0 <= r' * HOTT_TEXTMODE_DISPLAY_COLUMNS hdr) by nia.
  assert (E' : r * HOTT_TEXTMODE_DISPLAY_COLUMNS hdr + c
               = r' * HOTT_TEXTMODE_DISPLAY_COLUMNS hdr + c') by lia.
  clear E.
  assert (Er : r = r').
  { destruct (Z.lt_trichotomy r r') as [T | [T | T]]; [exfalso | exact T | exfalso].
    - assert (1 <= r' - r) by lia. nia.
    - assert (1 <= r - r') by lia. nia. }
  subst r'. split; [reflexivity | lia].
Qed.

Lemma set_hottTextModeMessage_same d :
  set_hottTextModeMessage (hottTextModeMessage d) d = d.
Proof. now destruct d. Qed.

(** C10.  [hottTextmodeWriteChar] with a column or a row outside the grid
    returns the driver as it was.  In every case the driver changes in its
    text record only, the record keeps its length, and every byte of it
    other than the addressed cell [txt[row][column]] keeps its value; inside
    the grid, different (row, column) pairs are different cells. *)
Theorem hottTextmodeWriteChar_bounds hdr column row c d :
  (HOTT_TEXTMODE_DISPLAY_COLUMNS hdr <= u8 column \/
   HOTT_TEXTMODE_DISPLAY_ROWS hdr <= u8 row ->
   hottTextmodeWriteChar hdr column row c d = d) /\
  (exists msg',
     hottTextmodeWriteChar hdr column row c d = set_hottTextModeMessage msg' d /\
     length msg' = length (hottTextModeMessage d) /\
     forall i, i <> txtCell hdr (u8 row) (u8 column) ->
               msg' !! i = hottTextModeMessage d !! i) /\
  (forall row' column',
     0 <= row' < HOTT_TEXTMODE_DISPLAY_ROWS hdr ->
     0 <= column' < HOTT_TEXTMODE_DISPLAY_COLUMNS hdr ->
     u8 column < HOTT_TEXTMODE_DISPLAY_COLUMNS hdr ->
     (row', column') <> (u8 row, u8 column) ->
     load (txtCell hdr row' column')
       (hottTextModeMessage (hottTextmodeWriteChar hdr column row c d))
     = load (txtCell hdr row' column') (hottTextModeMessage d)).
Proof.
  assert (W : exists msg',
     hottTextmodeWriteChar hdr column row c d = set_hottTextModeMessage msg' d /\
     length msg' = length (hottTextModeMessage d) /\
     forall i, i <> txtCell hdr (u8 row) (u8 column) ->
               msg' !! i = hottTextModeMessage d !! i).
  { unfold hottTextmodeWriteChar.
    destruct ((u8 column <? _) && (u8 row <? _)).
    - destruct (negb _).
      + eexists; split; [reflexivity | split].
        * apply length_store.
        * intros i Hi. unfold store. now apply list_lookup_insert_ne.
      + exists (hottTextModeMessage d).
        now rewrite set_hottTextModeMessage_same.
    - exists (hottTextModeMessage d).
      now rewrite set_hottTextModeMessage_same. }
  split; [| split; [exact W |]].
  - intros H. unfold hottTextmodeWriteChar.
    destruct (Z.ltb_spec (u8 column) (HOTT_TEXTMODE_DISPLAY_COLUMNS hdr));
      destruct (Z.ltb_spec (u8 row) (HOTT_TEXTMODE_DISPLAY_ROWS hdr));
      cbn [andb]; first [reflexivity | lia].
  - intros row' column' Hr Hc Hcol Hne.
    destruct W as (msg' & -> & _ & Hother).
    assert (Hcell : txtCell hdr row' column' <> txtCell hdr (u8 row) (u8 column)).
    { intros E. apply txtCell_injective in E; try lia.
      - destruct E; congruence.
      - pose proof (u8_range row); lia.
      - pose proof (u8_range column); lia. }
    unfold load. destruct d; cbn. now rewrite (Hother _ Hcell).
Qed.

(** ** The state machine: what the decoders leave alone *)

(** Normalise a driver built from assignments to a record of its fields.
    The reduction is lazy, so that a driver under several assignments is
    evaluated once and not once for every field read from it. *)
Ltac assignments :=
  lazy beta iota zeta delta [
    set_rxSchedule set_txDelayUs set_hottState set_hottStateChangeUs set_hottTxMsg
    set_hottTxMsgSize set_hottTxMsgCrc set_hottTelemetryEnabled set_hottGPSMessage
    set_hottEAMMessage set_hottTextModeMessage set_textmodeIsAlive
    set_telemetryTaskPeriod set_lastHottAlarmSoundTime set_serialWrites set_setEscBack
    set_hottRequestBuffer set_hottRequestBufferPtr set_rxFifo set_txLog set_externCalls
    rxSchedule txDelayUs hottState hottStateChangeUs hottTxMsg hottTxMsgSize
    hottTxMsgCrc hottTelemetryEnabled hottGPSMessage hottEAMMessage hottTextModeMessage
    textmodeIsAlive telemetryTaskPeriod lastHottAlarmSoundTime serialWrites setEscBack
    byteSentTimeUs hottRequestBuffer hottRequestBufferPtr rxFifo txLog externCalls ];
  cbn [fst snd].

(** Case analysis on the tests that stand in the way of the evaluation,
    those that contain no other test first. *)
Ltac has_test x :=
  match x with
  | context [if _ then _ else _] => idtac
  | context [match _ with (_, _) => _ end] => idtac
  | context [match _ with
             | BATTERY_OK => _ | BATTERY_WARNING => _
             | BATTERY_CRITICAL => _ | BATTERY_NOT_PRESENT => _
             end] => idtac
  | context [match _ with GPS_NO_FIX => _ | GPS_FIX_2D => _ | GPS_FIX_3D => _ end] => idtac
  end.

Ltac innermost_test :=
  match goal with
  | |- context [match ?x with
                | BATTERY_OK => _ | BATTERY_WARNING => _
                | BATTERY_CRITICAL => _ | BATTERY_NOT_PRESENT => _
                end] =>
      tryif has_test x then fail else destruct x eqn:?
  | |- context [match ?x with GPS_NO_FIX => _ | GPS_FIX_2D => _ | GPS_FIX_3D => _ end] =>
      tryif has_test x then fail else destruct x eqn:?
  | |- context [if ?b then _ else _] =>
      tryif has_test b then fail else destruct b eqn:?
  | |- context [match ?x with (_, _) => _ end] =>
      tryif has_test x then fail else destruct x eqn:?
  end.

Ltac crunch :=
  repeat (cbn -[hottPrepareEAMResponse hottPrepareGPSResponse]; innermost_test);
  cbn -[hottPrepareEAMResponse hottPrepareGPSResponse].

Ltac split_ifs := repeat innermost_test.

(** The same, folding the population of the EAM record, named by [Hr],
    back as soon as it shows. *)
Ltac normalise_with Hr :=
  repeat (cbn -[hottPrepareEAMResponse hottPrepareGPSResponse]; rewrite <- ?Hr;
          cbn -[hottPrepareEAMResponse hottPrepareGPSResponse];
          innermost_test);
  cbn -[hottPrepareEAMResponse hottPrepareGPSResponse]; rewrite <- ?Hr;
  cbn -[hottPrepareEAMResponse hottPrepareGPSResponse].

Lemma driver_ext d1 d2 :
  rxSchedule d1 = rxSchedule d2 ->
  txDelayUs d1 = txDelayUs d2 ->
  hottState d1 = hottState d2 ->
  hottStateChangeUs d1 = hottStateChangeUs d2 ->
  hottTxMsg d1 = hottTxMsg d2 ->
  hottTxMsgSize d1 = hottTxMsgSize d2 ->
  hottTxMsgCrc d1 = hottTxMsgCrc d2 ->
  hottTelemetryEnabled d1 = hottTelemetryEnabled d2 ->
  hottGPSMessage d1 = hottGPSMessage d2 ->
  hottEAMMessage d1 = hottEAMMessage d2 ->
  hottTextModeMessage d1 = hottTextModeMessage d2 ->
  textmodeIsAlive d1 = textmodeIsAlive d2 ->
  telemetryTaskPeriod d1 = telemetryTaskPeriod d2 ->
  lastHottAlarmSoundTime d1 = lastHottAlarmSoundTime d2 ->
  serialWrites d1 = serialWrites d2 ->
  setEscBack d1 = setEscBack d2 ->
  byteSentTimeUs d1 = byteSentTimeUs d2 ->
  hottRequestBuffer d1 = hottRequestBuffer d2 ->
  hottRequestBufferPtr d1 = hottRequestBufferPtr d2 ->
  rxFifo d1 = rxFifo d2 ->
  txLog d1 = txLog d2 ->
  externCalls d1 = externCalls d2 ->
  d1 = d2.
Proof. destruct d1, d2; cbn; intros; subst; reflexivity. Qed.

Lemma hottStateLoop_S fuel hdr env now d :
  hottStateLoop hdr (S fuel) env now d
  = (let '(d, reprocessState) := hottStateStep hdr env now d in
     if reprocessState then hottStateLoop hdr fuel env now d else Some d).
Proof. reflexivity. Qed.

Lemma hottStateLoop_stop fuel hdr env now d d' :
  hottStateStep hdr env now d = (d', false) ->
  hottStateLoop hdr (S fuel) env now d = Some d'.
Proof. intros H. cbn. now rewrite H. Qed.

Lemma hottStateLoop_again fuel hdr env now d d' :
  hottStateStep hdr env now d = (d', true) ->
  hottStateLoop hdr (S fuel) env now d = hottStateLoop hdr fuel env now d'.
Proof. intros H. cbn. now rewrite H. Qed.

Lemma elapsedUs_same hdr now : elapsedUs hdr now now = 0.
Proof. unfold elapsedUs, wrap_unsigned. rewrite Z.sub_diag. apply Zmod_0_l. Qed.

Lemma flushLoop_nil fifo : flushLoop fifo = [].
Proof. induction fifo; auto. Qed.

Lemma processBinaryModeRequest_frame hdr env a d :
  let d' := snd (processBinaryModeRequest hdr env a d) in
  hottState d' = hottState d /\
  hottStateChangeUs d' = hottStateChangeUs d /\
  rxFifo d' = rxFifo d /\
  txLog d' = txLog d /\
  hottRequestBuffer d' = hottRequestBuffer d /\
  hottRequestBufferPtr d' = hottRequestBufferPtr d /\
  hottTelemetryEnabled d' = hottTelemetryEnabled d /\
  byteSentTimeUs d' = byteSentTimeUs d /\
  hottTxMsgCrc d' = hottTxMsgCrc d.
Proof.
  unfold processBinaryModeRequest, hottQueueSendResponse, hottTextmodeStop.
  destruct d; cbn -[hottPrepareEAMResponse hottPrepareGPSResponse].
  split_ifs; cbn; repeat split; reflexivity.
Qed.

Lemma processHottTextModeRequest_frame hdr env cmd d :
  let d' := snd (processHottTextModeRequest hdr env cmd d) in
  hottState d' = hottState d /\
  hottStateChangeUs d' = hottStateChangeUs d /\
  rxFifo d' = rxFifo d /\
  txLog d' = txLog d /\
  hottRequestBuffer d' = hottRequestBuffer d /\
  hottRequestBufferPtr d' = hottRequestBufferPtr d /\
  hottTelemetryEnabled d' = hottTelemetryEnabled d /\
  byteSentTimeUs d' = byteSentTimeUs d /\
  hottTxMsgCrc d' = hottTxMsgCrc d.
Proof.
  unfold processHottTextModeRequest, hottQueueSendResponse, hottTextmodeStart.
  destruct d; cbn.
  split_ifs; cbn; repeat split; reflexivity.
Qed.

Lemma hottSwitchState_from s s' now d :
  hottState d = s -> hottState_eqb s s' = false ->
  hottSwitchState s' now d = set_hottStateChangeUs now (set_hottState s' d).
Proof. intros <- H. unfold hottSwitchState. now rewrite H. Qed.

(** After the decode of a completed request the driver is back in
    HOTT_WAITING_FOR_REQUEST or waits for its transmit window, the state was
    entered at [now], and the FIFO has not grown. *)
Lemma decodeRequest_after hdr env now d :
  hottState d = HOTT_RECEIVING_REQUEST ->
  let d' := decodeRequest hdr env now d in
  (hottState d' = HOTT_WAITING_FOR_REQUEST \/ hottState d' = HOTT_WAITING_FOR_TX_WINDOW) /\
  hottStateChangeUs d' = now /\
  (length (rxFifo d') <= length (rxFifo d))%nat /\
  hottRequestBuffer d' = hottRequestBuffer d /\
  hottTelemetryEnabled d' = hottTelemetryEnabled d /\
  txLog d' = txLog d.
Proof.
  intros Hs. unfold decodeRequest, binaryModeBranch.
  pose proof (processBinaryModeRequest_frame hdr env (snd (hottRequestBuffer d)) d) as FB.
  pose proof (processHottTextModeRequest_frame hdr env (snd (hottRequestBuffer d)) d) as FT.
  destruct (processBinaryModeRequest hdr env (snd (hottRequestBuffer d)) d) as [okb db].
  destruct (processHottTextModeRequest hdr env (snd (hottRequestBuffer d)) d) as [okt dt].
  cbn [snd] in FB, FT.
  destruct FB as (B1 & B2 & B3 & B4 & B5 & B6 & B7 & B8 & B9).
  destruct FT as (T1 & T2 & T3 & T4 & T5 & T6 & T7 & T8 & T9).
  rewrite Hs in B1, T1.
  assert (Hf : hottState (flushHottRxBuffer d) = HOTT_RECEIVING_REQUEST)
    by (destruct d; exact Hs).
  split_ifs;
    first [ rewrite (hottSwitchState_from _ _ now _ B1) by reflexivity
          | rewrite (hottSwitchState_from _ _ now _ T1) by reflexivity
          | rewrite (hottSwitchState_from _ _ now _ Hf) by reflexivity
          | rewrite (hottSwitchState_from _ _ now _ Hs) by reflexivity ];
    cbn; rewrite ?B3, ?T3, ?B5, ?T5, ?B7, ?T7, ?B4, ?T4, ?flushLoop_nil;
    repeat split; auto; cbn; lia.
Qed.

Lemma idle_or_window_stops hdr fuel env now d :
  hottState d = HOTT_WAITING_FOR_REQUEST /\ rxFifo d = [] \/
  hottState d = HOTT_WAITING_FOR_TX_WINDOW /\ hottStateChangeUs d = now ->
  hottStateLoop hdr (S fuel) env now d = Some d.
Proof.
  intros H. apply hottStateLoop_stop. unfold hottStateStep.
  destruct H as [(Hs & Hf) | (Hs & Hc)]; rewrite Hs.
  - unfold serialRxBytesWaiting. now rewrite Hf.
  - rewrite Hc, elapsedUs_same. reflexivity.
Qed.

Lemma receiveLoop_full rest buf : receiveLoop rest buf 2 = (rest, buf, 2%nat).
Proof. destruct rest; reflexivity. Qed.

Lemma hottStateStep_receiving_ahead hdr env now m a rest d :
  hottState d = HOTT_RECEIVING_REQUEST ->
  elapsedUs hdr now (hottStateChangeUs d) < rxSchedule d ->
  (hottRequestBufferPtr d = 0%nat /\ rxFifo d = m :: a :: rest) \/
  (hottRequestBufferPtr d = 1%nat /\ fst (hottRequestBuffer d) = m /\ rxFifo d = a :: rest) ->
  hottStateStep hdr env now d
  = (decodeRequest hdr env now (set_rxFifo rest (received now m a d)), true).
Proof.
  intros Hs Ht H. unfold hottStateStep, receiveRequestBytes, received.
  destruct d as [? ? ? ? ? ? ? ? ? ? ? ? ? ? ? ? ? [b0 b1] ? ? ? ?]; cbn in *.
  subst hottState0. cbn.
  destruct (Z.geb_spec (elapsedUs hdr now hottStateChangeUs0) rxSchedule0); [lia |].
  destruct H as [(Hp & Hf) | (Hp & Hb & Hf)]; subst;
    cbn [receiveLoop Nat.ltb Nat.leb writeRequestBuffer fst snd];
    rewrite receiveLoop_full; reflexivity.
Qed.

Lemma hottStateStep_receiving hdr env now m a d :
  hottState d = HOTT_RECEIVING_REQUEST ->
  elapsedUs hdr now (hottStateChangeUs d) < rxSchedule d ->
  (hottRequestBufferPtr d = 0%nat /\ rxFifo d = [m; a]) \/
  (hottRequestBufferPtr d = 1%nat /\ fst (hottRequestBuffer d) = m /\ rxFifo d = [a]) ->
  hottStateStep hdr env now d = (decodeRequest hdr env now (received now m a d), true).
Proof.
  intros Hs Ht H. rewrite (hottStateStep_receiving_ahead hdr env now m a [] d Hs Ht H).
  replace (set_rxFifo [] (received now m a d)) with (received now m a d)
    by (unfold received; now destruct d).
  reflexivity.
Qed.

Lemma hottStateStep_listening hdr env now b rest d :
  hottState d = HOTT_WAITING_FOR_REQUEST -> rxFifo d = b :: rest ->
  hottStateStep hdr env now d
  = (set_hottStateChangeUs now
       (set_hottState HOTT_RECEIVING_REQUEST (set_hottRequestBufferPtr 0%nat d)), true).
Proof.
  intros Hs Hf. unfold hottStateStep, serialRxBytesWaiting, hottSwitchState.
  destruct d; cbn in *. subst. reflexivity.
Qed.

(** A completed request is decoded in the call in which its last byte is
    read, and the call returns right after the decode. *)
Lemma handleHoTTTelemetry_request hdr env now m a d :
  requestArrives hdr now m a d ->
  handleHoTTTelemetry hdr env now d = Some (decodeRequest hdr env now (received now m a d)).
Proof.
  intros (En & H).
  assert (Hafter : forall fuel,
    hottStateLoop hdr (S fuel) env now (decodeRequest hdr env now (received now m a d))
    = Some (decodeRequest hdr env now (received now m a d))).
  { intros fuel. apply idle_or_window_stops.
    assert (Hr : hottState (received now m a d) = HOTT_RECEIVING_REQUEST).
    { unfold received. destruct d; cbn. now destruct hottState0. }
    destruct (decodeRequest_after hdr env now _ Hr) as ([S1 | S1] & C & F & _).
    - left. split; [exact S1 |].
      assert (Hf : rxFifo (received now m a d) = []).
      { unfold received. destruct d; cbn. now destruct hottState0. }
      rewrite Hf in F.
      destruct (rxFifo (decodeRequest hdr env now (received now m a d)));
        [reflexivity | cbn in F; lia].
    - right. now split. }
  unfold handleHoTTTelemetry. rewrite En. cbn [negb].
  destruct H as [(Hs & Hf & Hrx) | (Hs & Ht & H)].
  - (* listening, both bytes waiting *)
    rewrite Hf. cbn [length Nat.add].
    rewrite (hottStateLoop_again _ _ _ _ _ _ (hottStateStep_listening hdr env now _ _ d Hs Hf)).
    rewrite (hottStateLoop_again _ hdr env now _
               (decodeRequest hdr env now (received now m a d))).
    + apply Hafter.
    + rewrite (hottStateStep_receiving hdr env now m a).
      * do 2 f_equal. unfold received. destruct d; cbn in *. subst. reflexivity.
      * destruct d; reflexivity.
      * destruct d; cbn. rewrite elapsedUs_same. exact Hrx.
      * left. destruct d; cbn in *. now split.
  - (* receiving *)
    assert (exists k, (2 + length (rxFifo d))%nat = S (S k)) as (k & ->).
    { destruct H as [(_ & ->) | (_ & _ & ->)]; cbn; eauto. }
    rewrite (hottStateLoop_again _ _ _ _ _ _ (hottStateStep_receiving hdr env now m a d Hs Ht H)).
    apply Hafter.
Qed.

(** ** The call returns *)

Lemma receiveLoop_consumes fifo : forall buf ptr,
  (length (receiveLoop fifo buf ptr).1.1 + ((receiveLoop fifo buf ptr).2 - ptr)
   = length fifo)%nat /\
  (ptr <= (receiveLoop fifo buf ptr).2)%nat /\
  ((receiveLoop fifo buf ptr).2 <= Nat.max ptr 2)%nat.
Proof.
  induction fifo as [| b rest IH]; intros buf ptr; cbn [receiveLoop].
  - cbn. lia.
  - destruct (Nat.ltb_spec ptr 2).
    + specialize (IH (writeRequestBuffer buf ptr b) (S ptr)). cbn [length]. lia.
    + cbn. lia.
Qed.

Lemma receiveRequestBytes_frame d :
  hottState (receiveRequestBytes d) = hottState d /\
  hottStateChangeUs (receiveRequestBytes d) = hottStateChangeUs d /\
  (length (rxFifo (receiveRequestBytes d))
   + (hottRequestBufferPtr (receiveRequestBytes d) - hottRequestBufferPtr d)
   = length (rxFifo d))%nat.
Proof.
  unfold receiveRequestBytes.
  pose proof (receiveLoop_consumes (rxFifo d) (hottRequestBuffer d) (hottRequestBufferPtr d)) as H.
  destruct (receiveLoop _ _ _) as [[f b] p]. cbn in H. destruct d; cbn in *.
  repeat split; try reflexivity; lia.
Qed.

Lemma hottStateLoop_listening_returns hdr env now : forall n fuel d,
  hottState d = HOTT_WAITING_FOR_REQUEST ->
  (length (rxFifo d) <= n)%nat -> (n < fuel)%nat ->
  exists d', hottStateLoop hdr fuel env now d = Some d'.
Proof.
  induction n as [n IH] using lt_wf_ind. intros fuel d Hs Hn Hfuel.
  destruct fuel as [| fuel]; [lia |].
  destruct (rxFifo d) as [| b rest] eqn:Hf.
  - exists d. apply idle_or_window_stops. left. now split.
  - rewrite (hottStateLoop_again _ _ _ _ _ _ (hottStateStep_listening hdr env now _ _ d Hs Hf)).
    set (d1 := set_hottStateChangeUs now _).
    assert (H1 : hottState d1 = HOTT_RECEIVING_REQUEST /\ hottRequestBufferPtr d1 = 0%nat
                 /\ rxFifo d1 = b :: rest) by (destruct d; cbn in *; auto).
    destruct H1 as (S1 & P1 & F1).
    cbn [length] in Hn. destruct fuel as [| fuel]; [lia |].
    rewrite hottStateLoop_S. unfold hottStateStep. rewrite S1.
    destruct (_ >=? _); [eauto |].
    destruct (receiveRequestBytes_frame d1) as (S2 & _ & L2).
    rewrite P1, F1 in L2. cbn [length] in L2.
    destruct (2 <=? hottRequestBufferPtr (receiveRequestBytes d1))%nat eqn:Hp; [| eauto].
    apply Nat.leb_le in Hp.
    rewrite S1 in S2.
    destruct (decodeRequest_after hdr env now _ S2) as ([S3 | S3] & C3 & F3 & _).
    + apply (IH (n - 2)%nat); [lia | exact S3 | lia | lia].
    + destruct fuel as [| fuel]; [lia |]. eexists. apply idle_or_window_stops. right. now split.
Qed.

(** [handleHoTTTelemetry] returns: its loop never asks for more passes than
    the bound it is run with. *)
Lemma handleHoTTTelemetry_returns hdr env now d :
  exists d', handleHoTTTelemetry hdr env now d = Some d'.
Proof.
  unfold handleHoTTTelemetry. destruct (negb _); [eauto |].
  change (2 + length (rxFifo d))%nat with (S (S (length (rxFifo d)))).
  destruct (hottState d) eqn:Hs.
  - apply (hottStateLoop_listening_returns hdr env now (length (rxFifo d))); auto; lia.
  - rewrite hottStateLoop_S. unfold hottStateStep. rewrite Hs.
    destruct (_ >=? _); [eauto |].
    destruct (receiveRequestBytes_frame d) as (S2 & _ & L2). rewrite Hs in S2.
    destruct (2 <=? _)%nat; [| eauto].
    destruct (decodeRequest_after hdr env now _ S2) as ([S3 | S3] & C3 & F3 & _).
    + apply (hottStateLoop_listening_returns hdr env now (length (rxFifo d))); auto; lia.
    + eexists. apply idle_or_window_stops. right. now split.
  - rewrite hottStateLoop_S. unfold hottStateStep. rewrite Hs.
    destruct (_ >=? _); eauto.
  - rewrite hottStateLoop_S. unfold hottStateStep. rewrite Hs.
    destruct (hottSendTelemetryDataByte hdr now d) as [[|] d1]; eauto.
  - rewrite hottStateLoop_S. unfold hottStateStep. rewrite Hs.
    destruct (_ >=? _); [| eauto].
    apply (hottStateLoop_listening_returns hdr env now 0).
    + unfold hottSwitchState. destruct d; cbn in *. now subst.
    + unfold hottSwitchState. destruct d; cbn in *. subst. cbn. now rewrite flushLoop_nil.
    + lia.
Qed.

(** ** Request decoding *)

Lemma received_fields now m a d :
  hottRequestBuffer (received now m a d) = (m, a) /\
  rxFifo (received now m a d) = [] /\
  hottState (received now m a d) = HOTT_RECEIVING_REQUEST /\
  responseQueue (received now m a d) = responseQueue d /\
  hottGPSMessage (received now m a d) = hottGPSMessage d /\
  hottEAMMessage (received now m a d) = hottEAMMessage d /\
  hottTextModeMessage (received now m a d) = hottTextModeMessage d /\
  txLog (received now m a d) = txLog d /\
  lastHottAlarmSoundTime (received now m a d) = lastHottAlarmSoundTime d /\
  byteSentTimeUs (received now m a d) = byteSentTimeUs d /\
  hottTelemetryEnabled (received now m a d) = hottTelemetryEnabled d.
Proof.
  unfold received, responseQueue. destruct d; cbn.
  destruct hottState0; cbn; repeat split; reflexivity.
Qed.

Lemma decodeRequest_binary hdr env now m a d :
  m = 0 \/ m = HOTT_BINARY_MODE_REQUEST_ID ->
  decodeRequest hdr env now (received now m a d)
  = binaryModeBranch hdr env now (received now m a d).
Proof.
  intros Hm. unfold decodeRequest.
  destruct (received_fields now m a d) as (-> & _). cbn [fst].
  destruct Hm as [-> | ->]; reflexivity.
Qed.

Lemma decodeRequest_garbage hdr env now m a rest d :
  m <> 0 -> m <> HOTT_BINARY_MODE_REQUEST_ID -> m <> HOTT_TEXT_MODE_REQUEST_ID ->
  decodeRequest hdr env now (set_rxFifo rest (received now m a d))
  = set_hottStateChangeUs now (set_hottState HOTT_WAITING_FOR_REQUEST (received now m a d)).
Proof.
  intros H0 H1 H2. unfold decodeRequest.
  destruct (received_fields now m a d) as (Hb & Hf & Hs & _).
  assert (Hb' : hottRequestBuffer (set_rxFifo rest (received now m a d)) = (m, a))
    by (destruct (received now m a d); exact Hb).
  rewrite Hb'. cbn [fst].
  destruct (Z.eqb_spec m 0); [contradiction |].
  destruct (Z.eqb_spec m HOTT_BINARY_MODE_REQUEST_ID); [contradiction |].
  destruct (Z.eqb_spec m HOTT_TEXT_MODE_REQUEST_ID); [contradiction |].
  cbn [orb].
  assert (Hs' : hottState (flushHottRxBuffer (set_rxFifo rest (received now m a d)))
                = HOTT_RECEIVING_REQUEST).
  { destruct (received now m a d); exact Hs. }
  rewrite (hottSwitchState_from _ _ now _ Hs') by reflexivity.
  unfold flushHottRxBuffer.
  destruct (received now m a d); cbn in *. rewrite flushLoop_nil. now subst.
Qed.

(** A request with an unrecognised first byte: the call flushes what is
    behind it and returns with the driver listening. *)
Lemma handleHoTTTelemetry_garbage hdr env now m a rest d :
  requestCompletes hdr now m a rest d ->
  m <> 0 -> m <> HOTT_BINARY_MODE_REQUEST_ID -> m <> HOTT_TEXT_MODE_REQUEST_ID ->
  handleHoTTTelemetry hdr env now d
  = Some (set_hottStateChangeUs now
            (set_hottState HOTT_WAITING_FOR_REQUEST (received now m a d))).
Proof.
  intros (En & H) H0 H1 H2.
  set (d' := set_hottStateChangeUs now
               (set_hottState HOTT_WAITING_FOR_REQUEST (received now m a d))).
  assert (Hafter : forall fuel, hottStateLoop hdr (S fuel) env now d' = Some d').
  { intros fuel. apply idle_or_window_stops. left.
    destruct (received_fields now m a d) as (_ & Hf & _).
    subst d'. destruct (received now m a d); cbn in *. now split. }
  unfold handleHoTTTelemetry. rewrite En. cbn [negb].
  destruct H as [(Hs & Hf & Hrx) | (Hs & Ht & H)].
  - rewrite Hf. cbn [length Nat.add].
    rewrite (hottStateLoop_again _ _ _ _ _ _ (hottStateStep_listening hdr env now _ _ d Hs Hf)).
    rewrite (hottStateLoop_again _ hdr env now _ d').
    + apply Hafter.
    + rewrite (hottStateStep_receiving_ahead hdr env now m a rest).
      * rewrite decodeRequest_garbage by assumption. subst d'.
        do 3 f_equal. unfold received. destruct d; cbn in *. subst. reflexivity.
      * destruct d; reflexivity.
      * destruct d; cbn. rewrite elapsedUs_same. exact Hrx.
      * left. destruct d; cbn in *. now split.
  - assert (exists k, (2 + length (rxFifo d))%nat = S (S k)) as (k & ->).
    { destruct H as [(_ & ->) | (_ & _ & ->)]; cbn; eauto. }
    rewrite (hottStateLoop_again _ _ _ _ _ _
               (hottStateStep_receiving_ahead hdr env now m a rest d Hs Ht H)).
    rewrite decodeRequest_garbage by assumption. apply Hafter.
Qed.

(** C3, as amended.  A completed request whose first byte is none of 0x00,
    the binary-mode marker and the text-mode marker makes the driver drop
    whatever waits behind it in the receive FIFO and return to
    HOTT_WAITING_FOR_REQUEST; the response queue, the records and the bytes
    written so far are as before. *)
Theorem unrecognised_marker_resyncs hdr env now m a rest d :
  requestCompletes hdr now m a rest d ->
  m <> 0 -> m <> HOTT_BINARY_MODE_REQUEST_ID -> m <> HOTT_TEXT_MODE_REQUEST_ID ->
  exists d',
    handleHoTTTelemetry hdr env now d = Some d' /\
    hottState d' = HOTT_WAITING_FOR_REQUEST /\
    rxFifo d' = [] /\
    responseQueue d' = responseQueue d /\
    hottGPSMessage d' = hottGPSMessage d /\
    hottEAMMessage d' = hottEAMMessage d /\
    hottTextModeMessage d' = hottTextModeMessage d /\
    txLog d' = txLog d.
Proof.
  intros H H0 H1 H2. eexists. split.
  - now apply (handleHoTTTelemetry_garbage hdr env now m a rest d).
  - destruct (received_fields now m a d) as (_ & Hf & _ & Hq & Hg & He & Ht & Hl & _).
    unfold responseQueue in *.
    destruct (received now m a d); cbn in *. now subst.
Qed.

(** What [processBinaryModeRequest] does for each address: 0x8E populates
    and arms the EAM record; 0x8A, where GPS is compiled in and there is a
    GPS sensor or an estimated fix, populates and arms the GPS record; every
    other case answers [false] and leaves the response queue and the records
    alone. *)
Lemma processBinaryModeRequest_dispatch hdr env a d :
  let r := processBinaryModeRequest hdr env a d in
  (a = 0x8E ->
   fst r = true /\
   hottTxMsg (snd r) = Some {| base := EAMMessage; offset := 0 |} /\
   hottTxMsgSize (snd r) = u8 (Z.of_nat (sizeof_EAM hdr)) /\
   hottEAMMessage (snd r)
   = snd (hottPrepareEAMResponse hdr env (lastHottAlarmSoundTime d) (hottEAMMessage d)) /\
   hottGPSMessage (snd r) = hottGPSMessage d) /\
  (a = 0x8A -> USE_GPS hdr = true ->
   sensors_SENSOR_GPS env || (USE_GPS_FIX_ESTIMATION hdr && STATE_GPS_ESTIMATED_FIX env)
   = true ->
   fst r = true /\
   hottTxMsg (snd r) = Some {| base := GPSMessage; offset := 0 |} /\
   hottTxMsgSize (snd r) = u8 (Z.of_nat (sizeof_GPS hdr)) /\
   hottGPSMessage (snd r) = hottPrepareGPSResponse hdr env (hottGPSMessage d) /\
   hottEAMMessage (snd r) = hottEAMMessage d) /\
  (a <> 0x8E ->
   a <> 0x8A \/ USE_GPS hdr = false \/
   sensors_SENSOR_GPS env || (USE_GPS_FIX_ESTIMATION hdr && STATE_GPS_ESTIMATED_FIX env)
   = false ->
   fst r = false /\
   responseQueue (snd r) = responseQueue d /\
   hottGPSMessage (snd r) = hottGPSMessage d /\
   hottEAMMessage (snd r) = hottEAMMessage d) /\
  hottTextModeMessage (snd r) = hottTextModeMessage d.
Proof.
  cbv zeta.
  remember (hottPrepareEAMResponse hdr env (lastHottAlarmSoundTime d) (hottEAMMessage d))
    as p eqn:Hp in *.
  destruct p as [last1 msg1].
  unfold processBinaryModeRequest, hottQueueSendResponse, hottTextmodeStop, responseQueue.
  destruct (Z.eqb_spec a 0x8A) as [E | E]; [subst a; change (0x8A =? 0x8E) with false |];
    [| destruct (Z.eqb_spec a 0x8E) as [E' | E']; [subst a |]];
    rewrite ?andb_true_r, ?andb_false_r;
    normalise_with Hp;
    (split; [intros H; try discriminate H; try contradiction; repeat split; reflexivity |]);
    (split; [intros H; try discriminate H; try contradiction; intros H1 H2;
             try discriminate H1; try discriminate H2; repeat split; reflexivity |]);
    (split; [| reflexivity]);
    intros H H'; try (exfalso; apply H; reflexivity);
    try (destruct H' as [H' | [H' | H']];
         first [exfalso; apply H'; reflexivity | discriminate H']);
    repeat split; reflexivity.
Qed.

(** C4.  A request whose first byte is 0x00 and a request whose first byte
    is the binary-mode marker are decoded by the same branch, which
    dispatches on the address byte: the call returns the result of
    [binaryModeBranch], and the two results differ in nothing but the marker
    byte kept in [hottRequestBuffer].  The dispatch, the same for both first
    bytes: the address 0x8E populates the EAM record and arms it; the
    address 0x8A, where GPS is compiled in and there is a GPS sensor or an
    estimated fix, populates the GPS record and arms it; in both cases the
    driver waits for its transmit window.  Every other address, and 0x8A
    without GPS, arms nothing and changes no record, and the driver is back
    in HOTT_WAITING_FOR_REQUEST. *)
Theorem binary_marker_coalesced hdr env now a d :
  (forall m, m = 0 \/ m = HOTT_BINARY_MODE_REQUEST_ID ->
     requestArrives hdr now m a d ->
     handleHoTTTelemetry hdr env now d
     = Some (binaryModeBranch hdr env now (received now m a d))) /\
  (forall m,
     hottState (binaryModeBranch hdr env now (received now m a d))
     = if fst (processBinaryModeRequest hdr env a (received now m a d))
       then HOTT_WAITING_FOR_TX_WINDOW else HOTT_WAITING_FOR_REQUEST) /\
  binaryModeBranch hdr env now (received now HOTT_BINARY_MODE_REQUEST_ID a d)
  = set_hottRequestBuffer (HOTT_BINARY_MODE_REQUEST_ID, a)
      (binaryModeBranch hdr env now (received now 0 a d)) /\
  (forall m,
     let d1 := binaryModeBranch hdr env now (received now m a d) in
     (a = 0x8E ->
      hottState d1 = HOTT_WAITING_FOR_TX_WINDOW /\
      hottTxMsg d1 = Some {| base := EAMMessage; offset := 0 |} /\
      hottTxMsgSize d1 = u8 (Z.of_nat (sizeof_EAM hdr)) /\
      hottEAMMessage d1
      = snd (hottPrepareEAMResponse hdr env (lastHottAlarmSoundTime d) (hottEAMMessage d)) /\
      hottGPSMessage d1 = hottGPSMessage d) /\
     (a = 0x8A -> USE_GPS hdr = true ->
      sensors_SENSOR_GPS env || (USE_GPS_FIX_ESTIMATION hdr && STATE_GPS_ESTIMATED_FIX env)
      = true ->
      hottState d1 = HOTT_WAITING_FOR_TX_WINDOW /\
      hottTxMsg d1 = Some {| base := GPSMessage; offset := 0 |} /\
      hottTxMsgSize d1 = u8 (Z.of_nat (sizeof_GPS hdr)) /\
      hottGPSMessage d1 = hottPrepareGPSResponse hdr env (hottGPSMessage d) /\
      hottEAMMessage d1 = hottEAMMessage d) /\
     (a <> 0x8E ->
      a <> 0x8A \/ USE_GPS hdr = false \/
      sensors_SENSOR_GPS env || (USE_GPS_FIX_ESTIMATION hdr && STATE_GPS_ESTIMATED_FIX env)
      = false ->
      hottState d1 = HOTT_WAITING_FOR_REQUEST /\
      responseQueue d1 = responseQueue d /\
      hottGPSMessage d1 = hottGPSMessage d /\
      hottEAMMessage d1 = hottEAMMessage d) /\
     hottTextModeMessage d1 = hottTextModeMessage d).
Proof.
  split; [| split; [| split]].
  - intros m Hm H.
    rewrite (handleHoTTTelemetry_request _ _ _ _ _ _ H).
    now rewrite decodeRequest_binary.
  - intros m. unfold binaryModeBranch.
    destruct (received_fields now m a d) as (Hb & _ & Hs & _). rewrite Hb. cbn [snd].
    pose proof (processBinaryModeRequest_frame hdr env a (received now m a d)) as F.
    destruct (processBinaryModeRequest hdr env a (received now m a d)) as [ok d1].
    cbn [fst snd] in *. destruct F as (F1 & _). rewrite Hs in F1.
    destruct ok; rewrite (hottSwitchState_from _ _ now _ F1) by reflexivity;
      destruct d1; reflexivity.
  - unfold binaryModeBranch, received, processBinaryModeRequest, hottQueueSendResponse,
      hottTextmodeStop, hottSwitchState.
    destruct d as [? ? st ? ? ? ? ? ? ? ? ? ? ? ? ? ? ? ? ? ? ?]; destruct st; crunch;
      reflexivity.
  - intros m. cbv zeta. unfold binaryModeBranch.
    destruct (received_fields now m a d)
      as (Hb & _ & Hs & Hq & Hg & He & Ht & _ & Hl & _).
    rewrite Hb. cbn [snd].
    pose proof (processBinaryModeRequest_frame hdr env a (received now m a d)) as F.
    pose proof (processBinaryModeRequest_dispatch hdr env a (received now m a d)) as D.
    cbv zeta in D. rewrite Hq, Hg, He, Ht, Hl in D.
    destruct (processBinaryModeRequest hdr env a (received now m a d)) as [ok r].
    cbn [fst snd] in *. destruct F as (F1 & _). rewrite Hs in F1.
    destruct D as (D1 & D2 & D3 & D4).
    assert (Hsw : forall s, hottState_eqb HOTT_RECEIVING_REQUEST s = false ->
              let r' := hottSwitchState s now r in
              hottState r' = s /\ responseQueue r' = responseQueue r /\
              hottTxMsg r' = hottTxMsg r /\ hottTxMsgSize r' = hottTxMsgSize r /\
              hottGPSMessage r' = hottGPSMessage r /\ hottEAMMessage r' = hottEAMMessage r /\
              hottTextModeMessage r' = hottTextModeMessage r).
    { intros s Hne. cbv zeta. rewrite (hottSwitchState_from _ _ now _ F1 Hne).
      destruct r; repeat split; reflexivity. }
    destruct (Hsw HOTT_WAITING_FOR_TX_WINDOW eq_refl) as (W1 & W2 & W3 & W4 & W5 & W6 & W7).
    destruct (Hsw HOTT_WAITING_FOR_REQUEST eq_refl) as (I1 & I2 & I3 & I4 & I5 & I6 & I7).
    split; [| split; [| split]].
    + intros Ha. destruct (D1 Ha) as (-> & X1 & X2 & X3 & X4).
      rewrite W1, W3, W4, W5, W6. auto.
    + intros Ha U Hg'. destruct (D2 Ha U Hg') as (-> & X1 & X2 & X3 & X4).
      rewrite W1, W3, W4, W5, W6. auto.
    + intros Ha Hn. destruct (D3 Ha Hn) as (-> & X1 & X2 & X3).
      rewrite I1, I2, I5, I6. auto.
    + destruct ok; [rewrite W7 | rewrite I7]; exact D4.
Qed.

(** C6.  With no GPS sensor and no estimated fix, [processBinaryModeRequest]
    answers the GPS address 0x8A with [false] and leaves the response queue
    and the records alone; a completed binary-mode request for that address
    therefore arms nothing, and the call returns with the driver in
    HOTT_WAITING_FOR_REQUEST. *)
Theorem gps_request_without_sensor hdr env now m d :
  sensors_SENSOR_GPS env = false -> STATE_GPS_ESTIMATED_FIX env = false ->
  requestArrives hdr now m 0x8A d ->
  m = 0 \/ m = HOTT_BINARY_MODE_REQUEST_ID ->
  (forall d0,
     fst (processBinaryModeRequest hdr env 0x8A d0) = false /\
     responseQueue (snd (processBinaryModeRequest hdr env 0x8A d0)) = responseQueue d0) /\
  exists d',
    handleHoTTTelemetry hdr env now d = Some d' /\
    hottState d' = HOTT_WAITING_FOR_REQUEST /\
    responseQueue d' = responseQueue d /\
    hottGPSMessage d' = hottGPSMessage d /\
    hottEAMMessage d' = hottEAMMessage d /\
    hottTextModeMessage d' = hottTextModeMessage d /\
    txLog d' = txLog d /\
    rxFifo d' = [].
Proof.
  intros Hsensor Hfix H Hm. split.
  - intros d0. unfold processBinaryModeRequest, responseQueue, hottTextmodeStop.
    rewrite Hsensor, Hfix, andb_false_r. cbn [orb].
    change (0x8A =? 0x8A) with true. change (0x8A =? 0x8E) with false.
    destruct d0; crunch; split; reflexivity.
  - eexists. split.
    + rewrite (handleHoTTTelemetry_request _ _ _ _ _ _ H).
      now rewrite decodeRequest_binary.
    + destruct (received_fields now m 0x8A d) as (Hb & Hf & Hs & Hq & Hg & He & Ht & Hl & _).
      unfold binaryModeBranch, processBinaryModeRequest, responseQueue, hottTextmodeStop,
        hottSwitchState in *.
      rewrite Hb, Hsensor, Hfix, andb_false_r. cbn [snd orb].
      change (0x8A =? 0x8A) with true. change (0x8A =? 0x8E) with false.
      destruct (received now m 0x8A d); cbn in Hf, Hs, Hq, Hg, He, Ht, Hl; subst.
      crunch; repeat split; congruence.
Qed.

(** ** Request timeout *)

(** C5.  In HOTT_RECEIVING_REQUEST, once the request timeout [rxSchedule]
    (4000 microseconds from start-up) has passed since the state was
    entered, the call drops everything in the receive FIFO and returns with
    the driver in HOTT_WAITING_FOR_REQUEST, entered at [now].  When bytes
    arrive afterwards the driver first sets [hottRequestBufferPtr] back to
    0, so a request [m], [a] that follows is decoded as [m], [a], whatever
    was stored before the timeout. *)
Theorem request_timeout_resyncs hdr env now d :
  hottTelemetryEnabled d = true ->
  hottState d = HOTT_RECEIVING_REQUEST ->
  rxSchedule d <= elapsedUs hdr now (hottStateChangeUs d) ->
  let d' := set_hottStateChangeUs now
              (set_hottState HOTT_WAITING_FOR_REQUEST (set_rxFifo [] d)) in
  handleHoTTTelemetry hdr env now d = Some d' /\
  rxSchedule (initialDriver hdr) = 4000 /\
  responseQueue d' = responseQueue d /\
  (forall env' now' b rest,
     hottRequestBufferPtr
       (fst (hottStateStep hdr env' now' (serialReceive (b :: rest) d'))) = 0%nat /\
     hottState
       (fst (hottStateStep hdr env' now' (serialReceive (b :: rest) d')))
     = HOTT_RECEIVING_REQUEST) /\
  (forall env' now' m a,
     0 < rxSchedule d ->
     exists d'',
       handleHoTTTelemetry hdr env' now' (serialReceive [m; a] d') = Some d'' /\
       hottRequestBuffer d'' = (m, a)).
Proof.
  intros En Hs Ht d'.
  split; [| split; [reflexivity | split; [reflexivity | split]]].
  - unfold handleHoTTTelemetry. rewrite En. cbn [negb].
    change (2 + length (rxFifo d))%nat with (S (S (length (rxFifo d)))).
    apply hottStateLoop_stop. unfold hottStateStep. rewrite Hs.
    destruct (Z.geb_spec (elapsedUs hdr now (hottStateChangeUs d)) (rxSchedule d)); [| lia].
    unfold hottSwitchState, flushHottRxBuffer. rewrite flushLoop_nil.
    subst d'. destruct d; cbn in *. subst. reflexivity.
  - intros env' now' b rest.
    rewrite (hottStateStep_listening hdr env' now' b rest);
      [split; reflexivity | | ];
      subst d'; unfold serialReceive; destruct d; reflexivity.
  - intros env' now' m a Hrx. eexists. split.
    + apply handleHoTTTelemetry_request. split; [| left].
      * subst d'. destruct d; exact En.
      * subst d'. unfold serialReceive. destruct d; cbn in *. auto.
    + set (r := received now' m a _).
      assert (Hr : hottState r = HOTT_RECEIVING_REQUEST)
        by (subst r; apply received_fields).
      destruct (decodeRequest_after hdr env' now' r Hr) as (_ & _ & _ & -> & _).
      subst r. apply received_fields.
Qed.

(** ** The EAM record *)

Ltac eam_distinct L :=
  let E := fresh in
  intros E; apply (eam_offsets_distinct _ L) in E; discriminate E.

Ltac eam_kept L :=
  unfold getEAM, setEAM;
  repeat (rewrite load_store_ne by eam_distinct L);
  reflexivity.

Ltac eam_read L Hlen :=
  unfold getEAM, setEAM;
  repeat (rewrite load_store_ne by eam_distinct L);
  rewrite load_store_eq
    by (rewrite ?length_store, Hlen; apply (eam_offsets_inside _ L));
  reflexivity.

Ltac unfold_eam :=
  unfold hottPrepareEAMResponse, hottEAMUpdateBattery, updateAlarmBatteryStatus,
    hottEAMUpdateCurrentMeter, hottEAMUpdateBatteryDrawnCapacity,
    hottEAMUpdateAltitudeAndClimbrate.

Lemma land_0xFF x : Z.land x 0xFF = x mod 256.
Proof. change 0xFF with (Z.ones 8). now rewrite Z.land_ones by lia. Qed.

Lemma byte_pair_of_u8 x :
  u8 (Z.land (u8 x) 0xFF) + 256 * u8 (Z.shiftr (u8 x) 8) = u8 x.
Proof.
  rewrite land_0xFF, Z.shiftr_div_pow2 by lia.
  pose proof (u8_range x). arith.
Qed.

Lemma length_hottPrepareEAMResponse hdr env last msg :
  length (snd (hottPrepareEAMResponse hdr env last msg)) = length msg.
Proof.
  unfold_eam. split_ifs; cbn [snd]; unfold setEAM; now rewrite !length_store.
Qed.

Lemma hottPrepareEAMResponse_fields hdr env last msg :
  EAMLayout hdr -> length msg = sizeof_EAM hdr ->
  let msg' := snd (hottPrepareEAMResponse hdr env last msg) in
  getEAM hdr EAM.start_byte msg' = getEAM hdr EAM.start_byte msg /\
  getEAM hdr EAM.eam_sensor_id msg' = getEAM hdr EAM.eam_sensor_id msg /\
  getEAM hdr EAM.sensor_id msg' = getEAM hdr EAM.sensor_id msg /\
  getEAM hdr EAM.stop_byte msg' = getEAM hdr EAM.stop_byte msg /\
  mainVoltage hdr msg' = u8 (getBatteryVoltage env ÷ 10).
Proof.
  intros L Hlen. cbv zeta. unfold mainVoltage.
  rewrite <- (byte_pair_of_u8 (getBatteryVoltage env ÷ 10)).
  unfold_eam. split_ifs; cbn [snd]; repeat split; try eam_kept L.
  all: f_equal; [| f_equal]; eam_read L Hlen.
Qed.

Lemma initialiseEAMMessage_initialised hdr msg :
  EAMLayout hdr -> length msg = sizeof_EAM hdr ->
  EAMInitialised hdr (initialiseEAMMessage hdr msg (sizeof_EAM hdr)).
Proof.
  intros L Hlen. unfold EAMInitialised, initialiseEAMMessage.
  assert (Hlen' : length (memset0 (sizeof_EAM hdr) ++ drop (sizeof_EAM hdr) msg)
                  = sizeof_EAM hdr).
  { rewrite length_app, length_drop. unfold memset0. rewrite length_replicate. lia. }
  repeat split; eam_read L Hlen'.
Qed.

(** C9, as amended.  A completed binary-mode request for the address 0x8E
    arms the EAM record: the driver waits for its transmit window with the
    response queue holding the whole record.  The record still carries the
    start byte 0x7C, the EAM sensor id, the text sensor id and the stop byte
    0x7D of its initialisation, and its main-voltage pair, low byte first,
    holds the battery voltage divided by ten and cut to eight bits: 115 (in
    units of 0.1 V) for the input 1150 (11.50 V in units of 10 mV). *)
Theorem eam_request_voltage hdr env now m d :
  EAMLayout hdr ->
  length (hottEAMMessage d) = sizeof_EAM hdr ->
  EAMInitialised hdr (hottEAMMessage d) ->
  requestArrives hdr now m 0x8E d ->
  m = 0 \/ m = HOTT_BINARY_MODE_REQUEST_ID ->
  exists d',
    handleHoTTTelemetry hdr env now d = Some d' /\
    hottState d' = HOTT_WAITING_FOR_TX_WINDOW /\
    hottTxMsg d' = Some {| base := EAMMessage; offset := 0 |} /\
    hottTxMsgSize d' = Z.of_nat (sizeof_EAM hdr) /\
    getEAM hdr EAM.start_byte (hottEAMMessage d') = 0x7C /\
    getEAM hdr EAM.eam_sensor_id (hottEAMMessage d') = u8 (HOTT_TELEMETRY_EAM_SENSOR_ID hdr) /\
    getEAM hdr EAM.sensor_id (hottEAMMessage d') = u8 (HOTT_EAM_SENSOR_TEXT_ID hdr) /\
    getEAM hdr EAM.stop_byte (hottEAMMessage d') = 0x7D /\
    mainVoltage hdr (hottEAMMessage d') = u8 (getBatteryVoltage env ÷ 10) /\
    (getBatteryVoltage env = 1150 -> mainVoltage hdr (hottEAMMessage d') = 115).
Proof.
  intros L Hlen (I1 & I2 & I3 & I4) H Hm. eexists. split.
  - rewrite (handleHoTTTelemetry_request _ _ _ _ _ _ H).
    now rewrite decodeRequest_binary.
  - destruct (received_fields now m 0x8E d)
      as (Hb & Hf & Hs & Hq & Hg & He & Ht & Hl & Ha & _).
    destruct (hottPrepareEAMResponse_fields hdr env (lastHottAlarmSoundTime d)
                (hottEAMMessage d) L Hlen) as (F1 & F2 & F3 & F4 & F5).
    unfold binaryModeBranch, processBinaryModeRequest, hottQueueSendResponse,
      hottTextmodeStop, hottSwitchState.
    rewrite Hb. cbn [snd].
    change (0x8E =? 0x8A) with false. rewrite andb_false_r.
    change (0x8E =? 0x8E) with true. cbv iota.
    destruct (received now m 0x8E d); cbn in Hf, Hs, Hq, Hg, He, Ht, Hl, Ha; subst.
    assert (Hsize : u8 (Z.of_nat (sizeof_EAM hdr)) = Z.of_nat (sizeof_EAM hdr)).
    { apply u8_small. pose proof (eam_size_fits _ L). lia. }
    remember (hottPrepareEAMResponse hdr env (lastHottAlarmSoundTime d) (hottEAMMessage d))
      as r eqn:Hr in *.
    destruct r as [last1 msg1]. cbn [snd] in F1, F2, F3, F4, F5.
    normalise_with Hr;
      rewrite F1, F2, F3, F4, F5, Hsize;
      repeat split; first [assumption | reflexivity | intros ->; reflexivity].
Qed.

(** ** Populating the EAM record twice *)

Lemma length_applyStores stores msg : length (applyStores stores msg) = length msg.
Proof.
  induction stores as [| s stores IH]; cbn; [reflexivity |].
  now rewrite length_store.
Qed.

Lemma applyStores_app A B msg :
  applyStores (A ++ B) msg = applyStores A (applyStores B msg).
Proof. unfold applyStores. apply foldr_app. Qed.

Lemma lookup_applyStores stores (msg : list Z) (i : nat) :
  applyStores stores msg !! i
  = match lastStoreTo i stores with
    | Some v => if (i <? length msg)%nat then Some v else None
    | None => msg !! i
    end.
Proof.
  induction stores as [| [o v] stores IH]; cbn [applyStores foldr lastStoreTo fst snd];
    [reflexivity |].
  fold (applyStores stores msg). unfold store.
  destruct (Nat.eqb_spec o i) as [-> | Hne].
  - destruct (Nat.ltb_spec i (length msg)).
    + apply list_lookup_insert_eq. now rewrite length_applyStores.
    + rewrite list_insert_ge by (rewrite length_applyStores; lia).
      apply lookup_ge_None. rewrite length_applyStores. lia.
  - rewrite list_lookup_insert_ne by exact Hne. exact IH.
Qed.

Lemma lastStoreTo_app i A B :
  lastStoreTo i (A ++ B)
  = match lastStoreTo i A with Some v => Some v | None => lastStoreTo i B end.
Proof.
  induction A as [| s A IH]; cbn; [reflexivity |].
  destruct (Nat.eqb (fst s) i); auto.
Qed.

(** Two runs of stores that agree on the latest store to every offset give
    the same record. *)
Lemma applyStores_ext S1 S2 msg :
  (forall i, lastStoreTo i S1 = lastStoreTo i S2) ->
  applyStores S1 msg = applyStores S2 msg.
Proof.
  intros H. apply list_eq. intros i. now rewrite !lookup_applyStores, H.
Qed.

Lemma lookup_applyStores_twice S1 S2 msg i :
  lastStoreTo i S2 = lastStoreTo i S1 ->
  applyStores S2 (applyStores S1 msg) !! i = applyStores S1 msg !! i.
Proof.
  intros H. rewrite (lookup_applyStores S2), length_applyStores, H.
  rewrite (lookup_applyStores S1). now destruct (lastStoreTo i S1).
Qed.

Lemma applyStores_idempotent stores msg :
  applyStores stores (applyStores stores msg) = applyStores stores msg.
Proof. apply list_eq. intros i. now apply lookup_applyStores_twice. Qed.

Lemma hottPrepareEAMResponse_stores hdr env last msg :
  hottPrepareEAMResponse hdr env last msg
  = (if alarmCheckDue env last then millis env else last,
     applyStores (storesAfterAlarm hdr env
                  ++ alarmStores hdr env (alarmCheckDue env last)
                  ++ storesBeforeAlarm hdr env) msg).
Proof.
  unfold_eam. unfold alarmCheckDue, alarmStores.
  destruct (_ >=? _); [destruct (getBatteryState env) |]; reflexivity.
Qed.

Lemma alarmCheckDue_again env last :
  alarmCheckDue env last = true ->
  alarmCheckDue env (millis env)
  = (u32 (hottAlarmSoundInterval env * MILLISECONDS_IN_A_SECOND) =? 0).
Proof.
  intros _. unfold alarmCheckDue. rewrite Z.sub_diag. change (u32 0) with 0.
  pose proof (Z.mod_pos_bound (hottAlarmSoundInterval env * MILLISECONDS_IN_A_SECOND)
                (2 ^ 32) ltac:(lia)) as B.
  fold (wrap_unsigned 32 (hottAlarmSoundInterval env * MILLISECONDS_IN_A_SECOND)) in B.
  fold (u32 (hottAlarmSoundInterval env * MILLISECONDS_IN_A_SECOND)) in B.
  destruct (Z.geb_spec 0 (u32 (hottAlarmSoundInterval env * MILLISECONDS_IN_A_SECOND)));
    destruct (Z.eqb_spec (u32 (hottAlarmSoundInterval env * MILLISECONDS_IN_A_SECOND)) 0);
    first [reflexivity | lia].
Qed.

Lemma lastStoreTo_alarmStores hdr env due i :
  i <> offsetof_EAM hdr EAM.warning_beeps ->
  i <> offsetof_EAM hdr EAM.alarm_invers1 ->
  lastStoreTo i (alarmStores hdr env due) = None.
Proof.
  intros H1 H2. unfold alarmStores.
  destruct due; [destruct (getBatteryState env) |]; cbn;
    repeat match goal with
           | |- context [Nat.eqb ?a ?b] => destruct (Nat.eqb_spec a b); [congruence |]
           end; reflexivity.
Qed.

(** With the battery not low the stores of the alarm check repeat the reset
    of the two alarm fields, provided HOTT_EAM_ALARM1_FLAG_NONE is 0. *)
Lemma alarmStores_not_low hdr env due msg :
  EAMLayout hdr -> batteryLow env = false -> u8 (HOTT_EAM_ALARM1_FLAG_NONE hdr) = 0 ->
  applyStores (alarmStores hdr env due ++ storesBeforeAlarm hdr env) msg
  = applyStores (storesBeforeAlarm hdr env) msg.
Proof.
  intros L Hlow Hnone. apply applyStores_ext. intros i.
  rewrite lastStoreTo_app.
  destruct (lastStoreTo i (alarmStores hdr env due)) as [v |] eqn:E; [| reflexivity].
  unfold alarmStores, batteryLow in *.
  destruct due; [| discriminate E].
  destruct (getBatteryState env); try discriminate Hlow;
    cbn in E |- *; rewrite Hnone in E;
    repeat match goal with
           | |- context [Nat.eqb (offsetof_EAM hdr ?f) i] =>
               destruct (Nat.eqb_spec (offsetof_EAM hdr f) i)
           | H : context [Nat.eqb (offsetof_EAM hdr ?f) i] |- _ =>
               destruct (Nat.eqb_spec (offsetof_EAM hdr f) i)
           end;
    try discriminate E;
    try (exfalso;
         match goal with
         | H1 : offsetof_EAM hdr ?f = i, H2 : offsetof_EAM hdr ?g = i |- _ =>
             rewrite <- H2 in H1; apply (eam_offsets_distinct _ L) in H1; discriminate H1
         end);
    try (injection E as <-; reflexivity).
Qed.

Lemma populateTwice_stores hdr env last msg :
  let due1 := alarmCheckDue env last in
  let due2 := alarmCheckDue env (if due1 then millis env else last) in
  let run due := storesAfterAlarm hdr env ++ alarmStores hdr env due ++ storesBeforeAlarm hdr env in
  populateTwice hdr env last msg
  = (applyStores (run due1) msg, applyStores (run due2) (applyStores (run due1) msg)).
Proof.
  cbv zeta. unfold populateTwice. now rewrite !hottPrepareEAMResponse_stores.
Qed.

(** C8, as amended.  Populating the EAM record a second time with unchanged
    inputs leaves every member other than the two alarm fields
    [warning_beeps] and [alarm_invers1] as the first population left it.
    The whole record is the same when the alarm check was not due at the
    first population, when the alarm interval is zero, or when the battery
    is not low (and HOTT_EAM_ALARM1_FLAG_NONE is 0).  When the check was due
    with the battery low and a non-zero interval, the first population
    raises the alarm (0x10 and the battery flag) and the second, for which
    the check is not due again, leaves the two fields reset to 0. *)
Theorem populate_twice hdr env last msg :
  let m1 := fst (populateTwice hdr env last msg) in
  let m2 := snd (populateTwice hdr env last msg) in
  length m2 = length m1 /\
  (forall i : nat,
     i <> offsetof_EAM hdr EAM.warning_beeps ->
     i <> offsetof_EAM hdr EAM.alarm_invers1 ->
     m2 !! i = m1 !! i) /\
  (alarmCheckDue env last = false \/
   u32 (hottAlarmSoundInterval env * MILLISECONDS_IN_A_SECOND) = 0 \/
   (batteryLow env = false /\ EAMLayout hdr /\ u8 (HOTT_EAM_ALARM1_FLAG_NONE hdr) = 0) ->
   m2 = m1) /\
  (alarmCheckDue env last = true -> batteryLow env = true ->
   u32 (hottAlarmSoundInterval env * MILLISECONDS_IN_A_SECOND) <> 0 ->
   EAMLayout hdr -> length msg = sizeof_EAM hdr ->
   getEAM hdr EAM.warning_beeps m1 = 0x10 /\
   getEAM hdr EAM.alarm_invers1 m1 = u8 (HOTT_EAM_ALARM1_FLAG_BATTERY_1 hdr) /\
   getEAM hdr EAM.warning_beeps m2 = 0 /\
   getEAM hdr EAM.alarm_invers1 m2 = 0).
Proof.
  cbv zeta. rewrite populateTwice_stores. cbn [fst snd].
  set (due1 := alarmCheckDue env last).
  set (due2 := alarmCheckDue env (if due1 then millis env else last)).
  split; [| split; [| split]].
  - now rewrite !length_applyStores.
  - intros i H1 H2. apply lookup_applyStores_twice.
    rewrite !lastStoreTo_app, !(lastStoreTo_alarmStores hdr env _ i H1 H2). reflexivity.
  - intros H.
    assert (Hsame : due2 = due1 -> applyStores
              (storesAfterAlarm hdr env ++ alarmStores hdr env due2 ++ storesBeforeAlarm hdr env)
              (applyStores
                 (storesAfterAlarm hdr env ++ alarmStores hdr env due1 ++ storesBeforeAlarm hdr env)
                 msg)
            = applyStores
                (storesAfterAlarm hdr env ++ alarmStores hdr env due1 ++ storesBeforeAlarm hdr env)
                msg).
    { intros ->. apply applyStores_idempotent. }
    destruct H as [H | [H | (Hlow & L & Hnone)]].
    + apply Hsame. subst due2. now rewrite H.
    + apply Hsame. subst due2. destruct due1 eqn:E; [| exact E].
      rewrite (alarmCheckDue_again env last E), H. reflexivity.
    + rewrite !(applyStores_app (storesAfterAlarm hdr env)).
      rewrite !(alarmStores_not_low hdr env _ _ L Hlow Hnone).
      rewrite <- !(applyStores_app (storesAfterAlarm hdr env) (storesBeforeAlarm hdr env)).
      apply applyStores_idempotent.
  - intros Hdue Hlow Hint L Hlen.
    assert (Hdue2 : due2 = false).
    { subst due2 due1. rewrite Hdue, (alarmCheckDue_again env last Hdue).
      now apply Z.eqb_neq. }
    rewrite Hdue2. subst due1. rewrite Hdue.
    unfold alarmStores, batteryLow in *.
    assert (Hlen1 : forall S, length (applyStores S msg) = sizeof_EAM hdr)
      by (intros; now rewrite length_applyStores).
    destruct (getBatteryState env); try discriminate Hlow;
      cbn [app storesAfterAlarm storesBeforeAlarm applyStores foldr fst snd];
      repeat split;
      unfold getEAM;
      repeat (rewrite load_store_ne by eam_distinct L);
      (rewrite load_store_eq;
       [reflexivity
       | rewrite ?length_store;
         first [ rewrite Hlen
               | change (foldr (fun s m => store (fst s) (snd s) m) msg ?S)
                   with (applyStores S msg) ];
         try rewrite ?length_store, ?Hlen;
         apply (eam_offsets_inside _ L) ]).
Qed.

(** ** The byte transmitter *)

Lemma handleHoTTTelemetry_transmitting hdr env now d :
  hottTelemetryEnabled d = true -> hottState d = HOTT_TRANSMITTING ->
  handleHoTTTelemetry hdr env now d
  = Some (let '(done, d1) := hottSendTelemetryDataByte hdr now d in
          if done then hottSwitchState HOTT_ENDING_TRANSMISSION now d1 else d1).
Proof.
  intros En Hs. unfold handleHoTTTelemetry. rewrite En. cbn [negb].
  change (2 + length (rxFifo d))%nat with (S (S (length (rxFifo d)))).
  rewrite hottStateLoop_S. unfold hottStateStep. rewrite Hs.
  destruct (hottSendTelemetryDataByte hdr now d) as [[|] d1]; reflexivity.
Qed.

Lemma remaining_S d p n :
  (offset p + S n <= length (bufferOf (base p) d))%nat ->
  remaining d p (S n)
  = load (offset p) (bufferOf (base p) d)
    :: take n (drop (S (offset p)) (bufferOf (base p) d)).
Proof.
  intros H. unfold remaining, load.
  destruct (lookup_lt_is_Some_2 (bufferOf (base p) d) (offset p) ltac:(lia)) as [x Hx].
  rewrite Hx. cbn [default]. now rewrite (drop_S _ _ _ Hx).
Qed.

(** A poll that passes the guard with bytes left sends the byte under the
    pointer, adds it to the checksum and moves on by one. *)
Lemma transmit_data_poll hdr d p n poll :
  Transmitting d p (S n) -> guardPasses hdr d poll ->
  exists d',
    handleHoTTTelemetry hdr (poll_env poll) (poll_time poll)
      (serialReceive (poll_arrived poll) d) = Some d' /\
    Transmitting d' {| base := base p; offset := S (offset p) |} n /\
    txLog d' = txLog d ++ [load (offset p) (bufferOf (base p) d)] /\
    hottTxMsgCrc d' = u8 (hottTxMsgCrc d + load (offset p) (bufferOf (base p) d)) /\
    (forall b, bufferOf b d' = bufferOf b d) /\
    byteSentTimeUs d' = byteSentTimeUs d.
Proof.
  intros (En & Hs & Hp & Hn & Hlt & Hlen & Hcrc) Hg. unfold guardPasses in Hg.
  eexists. split.
  - apply handleHoTTTelemetry_transmitting; unfold serialReceive; destruct d; assumption.
  - unfold hottSendTelemetryDataByte, hottSerialWrite, serialReceive, deref, incr,
      Transmitting.
    destruct d; cbn in *. subst. assignments.
    destruct (Z.ltb_spec (elapsedUs hdr (poll_time poll) byteSentTimeUs0) HOTT_TX_DELAY_US);
      [lia |].
    destruct (Z.eqb_spec (Z.of_nat (S n)) 0); [lia |].
    assignments. cbn [bufferOf base offset].
    repeat split; auto; try lia.
    + rewrite u8_small by lia. lia.
    + destruct p as [[] o]; cbn in *; lia.
    + apply u8_range.
    + apply u8_range.
Qed.

(** A poll that passes the guard with no bytes left sends the checksum and
    ends the transmission. *)
Lemma transmit_crc_poll hdr d p poll :
  Transmitting d p 0 -> guardPasses hdr d poll ->
  exists d',
    handleHoTTTelemetry hdr (poll_env poll) (poll_time poll)
      (serialReceive (poll_arrived poll) d) = Some d' /\
    hottState d' = HOTT_ENDING_TRANSMISSION /\
    hottStateChangeUs d' = poll_time poll /\
    txLog d' = txLog d ++ [hottTxMsgCrc d] /\
    (forall b, bufferOf b d' = bufferOf b d).
Proof.
  intros (En & Hs & Hp & Hn & Hlt & Hlen & Hcrc) Hg. unfold guardPasses in Hg.
  eexists. split.
  - apply handleHoTTTelemetry_transmitting; unfold serialReceive; destruct d; assumption.
  - unfold hottSendTelemetryDataByte, hottSerialWrite, serialReceive, hottSwitchState.
    destruct d; cbn in *. subst. assignments.
    destruct (Z.ltb_spec (elapsedUs hdr (poll_time poll) byteSentTimeUs0) HOTT_TX_DELAY_US);
      [lia |].
    cbn. repeat split; auto.
Qed.

(** A poll that the guard stops changes nothing but the receive FIFO. *)
Lemma transmit_blocked_poll hdr d poll :
  hottTelemetryEnabled d = true -> hottState d = HOTT_TRANSMITTING ->
  ~ guardPasses hdr d poll ->
  handleHoTTTelemetry hdr (poll_env poll) (poll_time poll)
    (serialReceive (poll_arrived poll) d)
  = Some (serialReceive (poll_arrived poll) d).
Proof.
  intros En Hs Hg. unfold guardPasses in Hg.
  rewrite handleHoTTTelemetry_transmitting
    by (unfold serialReceive; destruct d; assumption).
  unfold hottSendTelemetryDataByte, serialReceive. destruct d; cbn in *.
  destruct (Z.ltb_spec (elapsedUs hdr (poll_time poll) byteSentTimeUs0) HOTT_TX_DELAY_US);
    [reflexivity | lia].
Qed.

Lemma guardPasses_same hdr d d' polls :
  byteSentTimeUs d' = byteSentTimeUs d ->
  Forall (guardPasses hdr d) polls -> Forall (guardPasses hdr d') polls.
Proof. intros E. unfold guardPasses. now rewrite E. Qed.

(** [n + 1] polls that pass the guard send the [n] remaining bytes in their
    order and then the checksum, one byte a poll. *)
Lemma transmit_run hdr : forall n polls d p,
  Transmitting d p n ->
  Forall (guardPasses hdr d) polls -> length polls = S n ->
  exists d',
    runPolls hdr polls d = Some d' /\
    hottState d' = HOTT_ENDING_TRANSMISSION /\
    txLog d' = txLog d ++ remaining d p n
               ++ [u8 (hottTxMsgCrc d + sumBytes (remaining d p n))] /\
    (forall b, bufferOf b d' = bufferOf b d).
Proof.
  induction n as [| n IH]; intros polls d p T Hg Hlen.
  - destruct polls as [| poll [| ? ?]]; try discriminate Hlen.
    apply Forall_inv in Hg.
    destruct (transmit_crc_poll hdr d p poll T Hg) as (d' & H1 & H2 & _ & H4 & H5).
    exists d'. cbn [runPolls]. rewrite H1.
    repeat split; auto.
    rewrite H4. unfold remaining. rewrite take_0. cbn [app sumBytes foldr].
    destruct T as (_ & _ & _ & _ & _ & _ & Hcrc).
    now rewrite Z.add_0_r, u8_small.
  - destruct polls as [| poll polls]; try discriminate Hlen.
    injection Hlen as Hlen.
    pose proof (Forall_inv Hg) as Hg1. pose proof (Forall_inv_tail Hg) as Hg2.
    destruct (transmit_data_poll hdr d p n poll T Hg1) as (d1 & H1 & T1 & L1 & C1 & B1 & S1).
    destruct (IH polls d1 _ T1 (guardPasses_same hdr d d1 polls S1 Hg2) Hlen)
      as (d' & R & Hs & Hl & Hb).
    exists d'. cbn [runPolls]. rewrite H1.
    repeat split; auto.
    + rewrite Hl, L1, C1.
      destruct T as (_ & _ & _ & _ & _ & Hlen' & _).
      rewrite (remaining_S d p n Hlen'). unfold remaining. cbn [base offset].
      rewrite B1. cbn [sumBytes foldr]. fold (sumBytes (take n (drop (S (offset p)) (bufferOf (base p) d)))).
      rewrite u8_add_l, <- !app_assoc. cbn [app]. now rewrite Z.add_assoc.
    + intros b. now rewrite Hb, B1.
Qed.

Lemma transmit_prefix hdr : forall k n polls d p,
  Transmitting d p n ->
  Forall (guardPasses hdr d) polls -> (k <= n)%nat -> (k <= length polls)%nat ->
  exists dk,
    runPolls hdr (take k polls) d = Some dk /\
    hottState dk = HOTT_TRANSMITTING /\
    txLog dk = txLog d ++ take k (remaining d p n).
Proof.
  induction k as [| k IH]; intros n polls d p T Hg Hk Hlen.
  - exists d. rewrite !take_0, app_nil_r. repeat split. apply T.
  - destruct polls as [| poll polls]; [cbn in Hlen; lia |].
    destruct n as [| n]; [lia |].
    pose proof (Forall_inv Hg) as Hg1. pose proof (Forall_inv_tail Hg) as Hg2.
    destruct (transmit_data_poll hdr d p n poll T Hg1) as (d1 & H1 & T1 & L1 & C1 & B1 & S1).
    destruct (IH n polls d1 _ T1 (guardPasses_same hdr d d1 polls S1 Hg2)
                ltac:(lia) ltac:(cbn in Hlen; lia)) as (dk & R & Hs & Hl).
    exists dk. cbn [take runPolls]. rewrite H1.
    repeat split; auto.
    rewrite Hl, L1.
    destruct T as (_ & _ & _ & _ & _ & Hlen' & _).
    rewrite (remaining_S d p n Hlen'). unfold remaining. cbn [base offset take].
    rewrite B1, <- app_assoc. reflexivity.
Qed.

Lemma length_hottPrepareGPSResponse hdr env msg :
  length (hottPrepareGPSResponse hdr env msg) = length msg.
Proof.
  unfold hottPrepareGPSResponse.
  split_ifs; unfold setGPS; rewrite ?length_store, ?length_addGPSCoordinates, ?length_store;
    try reflexivity.
  all: destruct (gpsSol_fixType env); now rewrite ?length_store.
Qed.

(** The transmit window opens: the checksum accumulator is set to 0 and the
    driver enters HOTT_TRANSMITTING, without sending anything yet. *)
Lemma handleHoTTTelemetry_window hdr env now d :
  hottTelemetryEnabled d = true -> hottState d = HOTT_WAITING_FOR_TX_WINDOW ->
  HOTT_TX_SCHEDULE <= elapsedUs hdr now (hottStateChangeUs d) ->
  handleHoTTTelemetry hdr env now d
  = Some (set_hottStateChangeUs now (set_hottState HOTT_TRANSMITTING (set_hottTxMsgCrc 0 d))).
Proof.
  intros En Hs Ht. unfold handleHoTTTelemetry. rewrite En. cbn [negb].
  change (2 + length (rxFifo d))%nat with (S (S (length (rxFifo d)))).
  apply hottStateLoop_stop. unfold hottStateStep. rewrite Hs.
  destruct (Z.geb_spec (elapsedUs hdr now (hottStateChangeUs d)) HOTT_TX_SCHEDULE); [| lia].
  unfold hottSwitchState. destruct d; cbn in *. subst. reflexivity.
Qed.

(** A binary-mode request for a recognised address arms the record of that
    address. *)
Lemma binaryModeBranch_arms hdr env now m a d buf :
  recognisedAddress hdr env a = Some buf -> recordsSized hdr d ->
  let d1 := binaryModeBranch hdr env now (received now m a d) in
  hottState d1 = HOTT_WAITING_FOR_TX_WINDOW /\
  hottStateChangeUs d1 = now /\
  hottTxMsg d1 = Some {| base := buf; offset := 0 |} /\
  hottTxMsgSize d1 = Z.of_nat (sizeofBuffer hdr buf) /\
  txLog d1 = txLog d /\
  hottTelemetryEnabled d1 = hottTelemetryEnabled d /\
  byteSentTimeUs d1 = byteSentTimeUs d /\
  recordsSized hdr d1.
Proof.
  intros Hrec Hsized. cbv zeta.
  destruct (received_fields now m a d)
    as (Hb & Hf & Hs & Hq & Hg & He & Ht & Hl & Ha & Hbs & Hen).
  assert (Hsize : forall b, u8 (Z.of_nat (sizeofBuffer hdr b)) = Z.of_nat (sizeofBuffer hdr b)).
  { intros b. apply u8_small. destruct (Hsized b). lia. }
  pose proof (Hsize GPSMessage) as HsG. pose proof (Hsize EAMMessage) as HsE.
  pose proof (Hsized GPSMessage) as [LG SG]. pose proof (Hsized EAMMessage) as [LE SE].
  pose proof (Hsized TextModeMessage) as [LT ST].
  cbn [sizeofBuffer bufferOf] in HsG, HsE, LG, LE, LT, SG, SE, ST.
  pose proof (length_hottPrepareEAMResponse hdr env (lastHottAlarmSoundTime d) (hottEAMMessage d))
    as LenE.
  pose proof (length_hottPrepareGPSResponse hdr env (hottGPSMessage d)) as LenG.
  unfold binaryModeBranch, processBinaryModeRequest, recognisedAddress, hottQueueSendResponse,
    hottTextmodeStop, hottSwitchState, recordsSized in *.
  rewrite Hb. cbn [snd].
  destruct (received now m a d); cbn in Hf, Hs, Hq, Hg, He, Ht, Hl, Ha, Hbs, Hen; subst.
  remember (hottPrepareEAMResponse hdr env (lastHottAlarmSoundTime d) (hottEAMMessage d))
    as r eqn:Hr in *.
  destruct r as [last1 msg1]. cbn [snd] in LenE.
  destruct (USE_GPS hdr && (a =? 138)).
  - destruct (_ || _); [| discriminate Hrec]. injection Hrec as <-.
    normalise_with Hr; cbn [sizeofBuffer]; rewrite HsG.
    all: repeat split; auto.
    all: destruct b; cbn; lia.
  - destruct (a =? 142); [| discriminate Hrec]. injection Hrec as <-.
    normalise_with Hr; cbn [sizeofBuffer]; rewrite HsE.
    all: repeat split; auto.
    all: destruct b; cbn; lia.
Qed.

(** C1.  A completed binary-mode request (first byte 0x00 or the binary-mode
    marker) for a recognised address arms one response: the queue points at
    the first byte of the record of that address and counts the whole
    record.  Once the transmit window has opened, which sets the checksum
    accumulator to 0 as the driver enters HOTT_TRANSMITTING and sends
    nothing, the polls that pass the guard of the byte transmitter send the
    bytes of the record in their order, one a poll, start and stop markers
    included, and then one more byte, the sum of the bytes of the record
    modulo 256; with that byte the driver enters
    HOTT_ENDING_TRANSMISSION. *)
Theorem binary_response_transmitted hdr env now m a d buf envT nowT arrived polls :
  requestArrives hdr now m a d ->
  m = 0 \/ m = HOTT_BINARY_MODE_REQUEST_ID ->
  recognisedAddress hdr env a = Some buf ->
  recordsSized hdr d ->
  HOTT_TX_SCHEDULE <= elapsedUs hdr nowT now ->
  Forall (guardPasses hdr d) polls ->
  length polls = S (sizeofBuffer hdr buf) ->
  exists d1 d2 d3,
    (handleHoTTTelemetry hdr env now d = Some d1 /\
     hottState d1 = HOTT_WAITING_FOR_TX_WINDOW /\
     hottTxMsg d1 = Some {| base := buf; offset := 0 |} /\
     hottTxMsgSize d1 = Z.of_nat (sizeofBuffer hdr buf) /\
     txLog d1 = txLog d) /\
    (handleHoTTTelemetry hdr envT nowT (serialReceive arrived d1) = Some d2 /\
     hottState d2 = HOTT_TRANSMITTING /\
     hottTxMsgCrc d2 = 0 /\
     txLog d2 = txLog d) /\
    (runPolls hdr polls d2 = Some d3 /\
     hottState d3 = HOTT_ENDING_TRANSMISSION /\
     txLog d3 = txLog d ++ bufferOf buf d1 ++ [sumBytes (bufferOf buf d1) mod 256]) /\
    (forall k, (k <= sizeofBuffer hdr buf)%nat ->
       exists dk,
         runPolls hdr (take k polls) d2 = Some dk /\
         hottState dk = HOTT_TRANSMITTING /\
         txLog dk = txLog d ++ take k (bufferOf buf d1)).
Proof.
  intros H Hm Hrec Hsized Hwin Hg Hlen.
  pose proof (binaryModeBranch_arms hdr env now m a d buf Hrec Hsized)
    as (A1 & A2 & A3 & A4 & A5 & A6 & A7 & A8).
  set (d1 := binaryModeBranch hdr env now (received now m a d)) in *.
  assert (En : hottTelemetryEnabled d1 = true) by (rewrite A6; apply H).
  set (d2 := set_hottStateChangeUs nowT
               (set_hottState HOTT_TRANSMITTING (set_hottTxMsgCrc 0 (serialReceive arrived d1)))).
  assert (B2 : forall b, bufferOf b d2 = bufferOf b d1)
    by (intros []; subst d2; unfold serialReceive; destruct d1; reflexivity).
  assert (T : Transmitting d2 {| base := buf; offset := 0 |} (sizeofBuffer hdr buf)).
  { destruct (A8 buf) as [L S].
    unfold Transmitting. cbn [base offset]. rewrite B2, L.
    subst d2. unfold serialReceive. destruct d1; cbn in *.
    repeat split; auto; lia. }
  assert (G2 : Forall (guardPasses hdr d2) polls).
  { apply (guardPasses_same hdr d); [| exact Hg].
    rewrite <- A7. subst d2. unfold serialReceive. destruct d1; reflexivity. }
  assert (R : remaining d2 {| base := buf; offset := 0 |} (sizeofBuffer hdr buf)
              = bufferOf buf d1).
  { unfold remaining. cbn [base offset]. rewrite B2, drop_0.
    destruct (A8 buf) as [L _]. rewrite <- L. apply firstn_all. }
  assert (L2 : txLog d2 = txLog d).
  { rewrite <- A5. subst d2. unfold serialReceive. destruct d1; reflexivity. }
  destruct (transmit_run hdr _ polls d2 _ T G2 Hlen) as (d3 & R1 & R2 & R3 & _).
  exists d1, d2, d3. split; [| split; [| split]].
  - split; [| now repeat split].
    rewrite (handleHoTTTelemetry_request _ _ _ _ _ _ H).
    now rewrite decodeRequest_binary.
  - split; [| split; [| split]].
    + apply handleHoTTTelemetry_window.
      * unfold serialReceive. destruct d1; exact En.
      * unfold serialReceive. destruct d1; exact A1.
      * unfold serialReceive. destruct d1; cbn in *. now subst.
    + apply T.
    + subst d2. unfold serialReceive. destruct d1; reflexivity.
    + exact L2.
  - split; [exact R1 | split; [exact R2 |]].
    rewrite R3, R, L2.
    replace (hottTxMsgCrc d2) with 0
      by (subst d2; unfold serialReceive; destruct d1; reflexivity).
    reflexivity.
  - intros k Hk.
    destruct (transmit_prefix hdr k _ polls d2 _ T G2 Hk ltac:(lia)) as (dk & P1 & P2 & P3).
    exists dk. split; [exact P1 | split; [exact P2 |]]. now rewrite P3, R, L2.
Qed.

(** ** The properties on concrete runs *)

Lemma startedWith_requestArrives m a :
  requestArrives sampleHeaders 10000 m a (startedWith [m; a]).
Proof. split; [reflexivity | left; repeat split; reflexivity]. Qed.

Lemma startedWith_recordsSized bytes : recordsSized sampleHeaders (startedWith bytes).
Proof. intros []; split; cbn; first [reflexivity | lia]. Qed.

Lemma spacedPolls_guardPasses n d start step :
  byteSentTimeUs d = 0 -> 2000 <= start -> 0 <= step ->
  start + step * Z.of_nat n < 2 ^ 32 ->
  Forall (guardPasses sampleHeaders d) (spacedPolls n start step).
Proof.
  intros Hb Hs Hstep Hmax. unfold spacedPolls.
  apply List.Forall_forall. intros p Hp. apply in_map_iff in Hp.
  destruct Hp as (k & <- & Hk). apply in_seq in Hk.
  unfold guardPasses, elapsedUs, wrap_unsigned, HOTT_TX_DELAY_US. rewrite Hb.
  cbn [poll_time quietPoll TIMEUS_BITS sampleHeaders].
  rewrite Z.sub_0_r, Z.mod_small; nia.
Qed.

Lemma binary_response_transmitted_witness :
  exists d1 d2 d3,
    (handleHoTTTelemetry sampleHeaders benchEnv 10000 (startedWith [0x80; 0x8E]) = Some d1 /\
     hottState d1 = HOTT_WAITING_FOR_TX_WINDOW /\
     hottTxMsg d1 = Some {| base := EAMMessage; offset := 0 |} /\
     hottTxMsgSize d1 = Z.of_nat (sizeofBuffer sampleHeaders EAMMessage) /\
     txLog d1 = txLog (startedWith [0x80; 0x8E])) /\
    (handleHoTTTelemetry sampleHeaders benchEnv 15000 (serialReceive [] d1) = Some d2 /\
     hottState d2 = HOTT_TRANSMITTING /\
     hottTxMsgCrc d2 = 0 /\
     txLog d2 = txLog (startedWith [0x80; 0x8E])) /\
    (runPolls sampleHeaders (spacedPolls 45 17000 2000) d2 = Some d3 /\
     hottState d3 = HOTT_ENDING_TRANSMISSION /\
     txLog d3 = txLog (startedWith [0x80; 0x8E]) ++ bufferOf EAMMessage d1
                ++ [sumBytes (bufferOf EAMMessage d1) mod 256]) /\
    (forall k, (k <= sizeofBuffer sampleHeaders EAMMessage)%nat ->
       exists dk,
         runPolls sampleHeaders (take k (spacedPolls 45 17000 2000)) d2 = Some dk /\
         hottState dk = HOTT_TRANSMITTING /\
         txLog dk = txLog (startedWith [0x80; 0x8E]) ++ take k (bufferOf EAMMessage d1)).
Proof.
  apply (binary_response_transmitted sampleHeaders benchEnv 10000 0x80 0x8E
           (startedWith [0x80; 0x8E]) EAMMessage benchEnv 15000 []
           (spacedPolls 45 17000 2000)).
  - apply startedWith_requestArrives.
  - right; reflexivity.
  - reflexivity.
  - apply startedWith_recordsSized.
  - vm_compute; discriminate.
  - apply spacedPolls_guardPasses; [reflexivity | lia | lia | cbn; lia].
  - reflexivity.
Defined.

(** C2, the code at the failing input.  [hottSendTelemetryDataByte] never
    assigns [byteSentTimeUs], so its guard compares the current time with
    the initial 0 and not with the time of the previous byte.  On the
    started driver, after a request for the EAM record at 10000 microseconds
    and the opening of the transmit window at 15000, the polls at 16000 and
    at 17000 each put a byte of the record on the line, 1000 microseconds
    apart, where HOTT_TX_DELAY_US asks for 2000. *)
Theorem hottSendTelemetryDataByte_delay_not_kept :
  (forall hdr now d,
     byteSentTimeUs (snd (hottSendTelemetryDataByte hdr now d)) = byteSentTimeUs d) /\
  exists d1 d2 d3,
    runPolls sampleHeaders
      [ {| poll_env := benchEnv; poll_time := 10000; poll_arrived := [0x80; 0x8E] |};
        quietPoll benchEnv 15000 ]
      (startedDriver sampleHeaders) = Some d1 /\
    hottState d1 = HOTT_TRANSMITTING /\ txLog d1 = [] /\
    handleHoTTTelemetry sampleHeaders benchEnv 16000 d1 = Some d2 /\
    txLog d2 = [0x7C] /\
    handleHoTTTelemetry sampleHeaders benchEnv 17000 d2 = Some d3 /\
    txLog d3 = [0x7C; 0x8E] /\
    17000 - 16000 < HOTT_TX_DELAY_US.
Proof.
  split.
  - intros hdr now d. unfold hottSendTelemetryDataByte, hottSerialWrite.
    destruct d; crunch; reflexivity.
  - do 3 eexists.
    split; [vm_compute; reflexivity |].
    split; [reflexivity |]. split; [reflexivity |].
    split; [vm_compute; reflexivity |].
    split; [reflexivity |].
    split; [vm_compute; reflexivity |].
    split; [reflexivity | reflexivity].
Qed.

(** C3, counterexample.  The first byte 0x00 is neither the binary-mode
    marker 0x80 nor the text-mode marker 0x7F, yet the request 0x00, 0x8E
    arms the EAM record and the driver goes on to wait for its transmit
    window. *)
Lemma unrecognised_marker_counterexample :
  0 <> HOTT_BINARY_MODE_REQUEST_ID /\ 0 <> HOTT_TEXT_MODE_REQUEST_ID /\
  requestArrives sampleHeaders 10000 0 0x8E (startedWith [0; 0x8E]) /\
  exists d',
    handleHoTTTelemetry sampleHeaders benchEnv 10000 (startedWith [0; 0x8E]) = Some d' /\
    hottState d' = HOTT_WAITING_FOR_TX_WINDOW /\
    hottState d' <> HOTT_WAITING_FOR_REQUEST /\
    hottTxMsg (startedWith [0; 0x8E]) = None /\
    hottTxMsg d' = Some {| base := EAMMessage; offset := 0 |} /\
    responseQueue d' <> responseQueue (startedWith [0; 0x8E]).
Proof.
  split; [discriminate |]. split; [discriminate |].
  split; [apply startedWith_requestArrives |].
  eexists. split; [vm_compute; reflexivity |].
  repeat split; try reflexivity; discriminate.
Qed.

Lemma startedWith_requestCompletes m a rest :
  requestCompletes sampleHeaders 10000 m a rest (startedWith (m :: a :: rest)).
Proof. split; [reflexivity | left; repeat split; reflexivity]. Qed.

Lemma unrecognised_marker_resyncs_witness :
  exists d',
    handleHoTTTelemetry sampleHeaders benchEnv 10000 (startedWith [0x55; 0x8E; 0x80; 0x8E])
    = Some d' /\
    hottState d' = HOTT_WAITING_FOR_REQUEST /\
    rxFifo d' = [] /\
    responseQueue d' = responseQueue (startedWith [0x55; 0x8E; 0x80; 0x8E]) /\
    hottGPSMessage d' = hottGPSMessage (startedWith [0x55; 0x8E; 0x80; 0x8E]) /\
    hottEAMMessage d' = hottEAMMessage (startedWith [0x55; 0x8E; 0x80; 0x8E]) /\
    hottTextModeMessage d' = hottTextModeMessage (startedWith [0x55; 0x8E; 0x80; 0x8E]) /\
    txLog d' = txLog (startedWith [0x55; 0x8E; 0x80; 0x8E]).
Proof.
  apply (unrecognised_marker_resyncs sampleHeaders benchEnv 10000 0x55 0x8E [0x80; 0x8E]
           (startedWith [0x55; 0x8E; 0x80; 0x8E])).
  - apply startedWith_requestCompletes.
  - discriminate.
  - discriminate.
  - discriminate.
Defined.

Lemma gps_request_without_sensor_witness :
  exists d',
    handleHoTTTelemetry sampleHeaders benchEnv 10000 (startedWith [0x80; 0x8A]) = Some d' /\
    hottState d' = HOTT_WAITING_FOR_REQUEST /\
    responseQueue d' = responseQueue (startedWith [0x80; 0x8A]) /\
    hottGPSMessage d' = hottGPSMessage (startedWith [0x80; 0x8A]) /\
    hottEAMMessage d' = hottEAMMessage (startedWith [0x80; 0x8A]) /\
    hottTextModeMessage d' = hottTextModeMessage (startedWith [0x80; 0x8A]) /\
    txLog d' = txLog (startedWith [0x80; 0x8A]) /\
    rxFifo d' = [].
Proof.
  apply (gps_request_without_sensor sampleHeaders benchEnv 10000 0x80
           (startedWith [0x80; 0x8A])).
  - reflexivity.
  - reflexivity.
  - apply startedWith_requestArrives.
  - right; reflexivity.
Defined.

Lemma request_timeout_resyncs_witness :
  runPolls sampleHeaders
    [ {| poll_env := benchEnv; poll_time := 10000; poll_arrived := [0x80] |} ]
    (startedDriver sampleHeaders) = Some afterFirstByte /\
  handleHoTTTelemetry sampleHeaders benchEnv 14100 afterFirstByte
  = Some (set_hottStateChangeUs 14100
            (set_hottState HOTT_WAITING_FOR_REQUEST (set_rxFifo [] afterFirstByte))) /\
  (forall env' now' m a,
     0 < rxSchedule afterFirstByte ->
     exists d'',
       handleHoTTTelemetry sampleHeaders env' now'
         (serialReceive [m; a]
            (set_hottStateChangeUs 14100
               (set_hottState HOTT_WAITING_FOR_REQUEST (set_rxFifo [] afterFirstByte))))
       = Some d'' /\
       hottRequestBuffer d'' = (m, a)).
Proof.
  split; [vm_compute; reflexivity |].
  destruct (request_timeout_resyncs sampleHeaders benchEnv 14100 afterFirstByte)
    as (W1 & _ & _ & _ & W5).
  - reflexivity.
  - reflexivity.
  - vm_compute; discriminate.
  - split; [exact W1 | exact W5].
Defined.

Lemma startedDriver_EAMInitialised bytes :
  EAMInitialised sampleHeaders (hottEAMMessage (startedWith bytes)).
Proof. repeat split. Qed.

(** C9, counterexample.  With the battery at 11.50 V (the input 1150, in
    units of 10 mV) the request 0x80, 0x8E arms an EAM record whose
    main-voltage pair reads 115, not 1150: the value is divided by ten and
    kept in eight bits before it is split. *)
Lemma eam_request_voltage_counterexample :
  getBatteryVoltage benchEnv = 1150 /\
  exists d',
    handleHoTTTelemetry sampleHeaders benchEnv 10000 (startedWith [0x80; 0x8E]) = Some d' /\
    hottTxMsg d' = Some {| base := EAMMessage; offset := 0 |} /\
    getEAM sampleHeaders EAM.main_voltage_L (hottEAMMessage d') = 115 /\
    getEAM sampleHeaders EAM.main_voltage_H (hottEAMMessage d') = 0 /\
    mainVoltage sampleHeaders (hottEAMMessage d') <> 1150.
Proof.
  split; [reflexivity |].
  eexists. split; [vm_compute; reflexivity |].
  repeat split; try reflexivity. vm_compute. discriminate.
Qed.

Lemma eam_request_voltage_witness :
  exists d',
    handleHoTTTelemetry sampleHeaders benchEnv 10000 (startedWith [0x80; 0x8E]) = Some d' /\
    hottState d' = HOTT_WAITING_FOR_TX_WINDOW /\
    hottTxMsg d' = Some {| base := EAMMessage; offset := 0 |} /\
    hottTxMsgSize d' = Z.of_nat (sizeof_EAM sampleHeaders) /\
    getEAM sampleHeaders EAM.start_byte (hottEAMMessage d') = 0x7C /\
    getEAM sampleHeaders EAM.eam_sensor_id (hottEAMMessage d')
    = u8 (HOTT_TELEMETRY_EAM_SENSOR_ID sampleHeaders) /\
    getEAM sampleHeaders EAM.sensor_id (hottEAMMessage d')
    = u8 (HOTT_EAM_SENSOR_TEXT_ID sampleHeaders) /\
    getEAM sampleHeaders EAM.stop_byte (hottEAMMessage d') = 0x7D /\
    mainVoltage sampleHeaders (hottEAMMessage d') = u8 (getBatteryVoltage benchEnv ÷ 10) /\
    (getBatteryVoltage benchEnv = 1150 -> mainVoltage sampleHeaders (hottEAMMessage d') = 115).
Proof.
  apply (eam_request_voltage sampleHeaders benchEnv 10000 0x80 (startedWith [0x80; 0x8E])).
  - exact sampleHeaders_EAMLayout.
  - reflexivity.
  - apply startedDriver_EAMInitialised.
  - apply startedWith_requestArrives.
  - right; reflexivity.
Defined.

(** C8, counterexample.  With a low battery and the alarm check due, the
    first population of the EAM record raises the alarm and the second, with
    the same inputs, does not: the two records differ in [warning_beeps]
    (0x10, then 0) and in [alarm_invers1] (0x80, then 0). *)
Lemma populate_twice_counterexample :
  let env := benchInputs 1050 BATTERY_WARNING 10000 in
  let msg := hottEAMMessage (startedDriver sampleHeaders) in
  getEAM sampleHeaders EAM.warning_beeps (fst (populateTwice sampleHeaders env 0 msg)) = 0x10 /\
  getEAM sampleHeaders EAM.warning_beeps (snd (populateTwice sampleHeaders env 0 msg)) = 0 /\
  getEAM sampleHeaders EAM.alarm_invers1 (fst (populateTwice sampleHeaders env 0 msg)) = 0x80 /\
  getEAM sampleHeaders EAM.alarm_invers1 (snd (populateTwice sampleHeaders env 0 msg)) = 0 /\
  snd (populateTwice sampleHeaders env 0 msg) <> fst (populateTwice sampleHeaders env 0 msg).
Proof.
  cbv zeta. repeat split; try reflexivity. vm_compute. discriminate.
Qed.

Lemma binary_marker_coalesced_witness :
  handleHoTTTelemetry sampleHeaders benchEnv 10000 (startedWith [0; 0x8E])
  = Some (binaryModeBranch sampleHeaders benchEnv 10000
            (received 10000 0 0x8E (startedWith [0; 0x8E]))) /\
  hottState (binaryModeBranch sampleHeaders benchEnv 10000
               (received 10000 0 0x8E (startedWith [0; 0x8E])))
  = HOTT_WAITING_FOR_TX_WINDOW /\
  binaryModeBranch sampleHeaders benchEnv 10000
    (received 10000 HOTT_BINARY_MODE_REQUEST_ID 0x8E (startedWith [0; 0x8E]))
  = set_hottRequestBuffer (HOTT_BINARY_MODE_REQUEST_ID, 0x8E)
      (binaryModeBranch sampleHeaders benchEnv 10000
         (received 10000 0 0x8E (startedWith [0; 0x8E]))) /\
  hottTxMsg (binaryModeBranch sampleHeaders benchEnv 10000
               (received 10000 0 0x8E (startedWith [0; 0x8E])))
  = Some {| base := EAMMessage; offset := 0 |} /\
  hottTxMsg (binaryModeBranch sampleHeaders gpsEnv 10000
               (received 10000 0 0x8A (startedWith [0; 0x8A])))
  = Some {| base := GPSMessage; offset := 0 |} /\
  hottState (binaryModeBranch sampleHeaders benchEnv 10000
               (received 10000 0 0x55 (startedWith [0; 0x55])))
  = HOTT_WAITING_FOR_REQUEST /\
  hottState (binaryModeBranch sampleHeaders benchEnv 10000
               (received 10000 0 0x8A (startedWith [0; 0x8A])))
  = HOTT_WAITING_FOR_REQUEST.
Proof.
  destruct (binary_marker_coalesced sampleHeaders benchEnv 10000 0x8E (startedWith [0; 0x8E]))
    as (W1 & W2 & W3 & W4).
  destruct (binary_marker_coalesced sampleHeaders gpsEnv 10000 0x8A (startedWith [0; 0x8A]))
    as (_ & _ & _ & G4).
  destruct (binary_marker_coalesced sampleHeaders benchEnv 10000 0x55 (startedWith [0; 0x55]))
    as (_ & _ & _ & U4).
  destruct (binary_marker_coalesced sampleHeaders benchEnv 10000 0x8A (startedWith [0; 0x8A]))
    as (_ & _ & _ & N4).
  destruct (W4 0) as (E & _). destruct (G4 0) as (_ & G & _).
  destruct (U4 0) as (_ & _ & U & _). destruct (N4 0) as (_ & _ & N & _).
  split; [| split; [| split; [| split; [| split; [| split]]]]].
  - apply (W1 0); [left; reflexivity | apply startedWith_requestArrives].
  - rewrite (W2 0). reflexivity.
  - exact W3.
  - apply E. reflexivity.
  - apply G; reflexivity.
  - apply U; [discriminate | left; discriminate].
  - apply N; [discriminate | right; right; reflexivity].
Defined.

Lemma populate_twice_witness :
  let msg := hottEAMMessage (startedDriver sampleHeaders) in
  snd (populateTwice sampleHeaders benchEnv 0 msg)
  = fst (populateTwice sampleHeaders benchEnv 0 msg) /\
  getEAM sampleHeaders EAM.warning_beeps
    (fst (populateTwice sampleHeaders (benchInputs 1050 BATTERY_CRITICAL 10000) 0 msg)) = 0x10 /\
  getEAM sampleHeaders EAM.warning_beeps
    (snd (populateTwice sampleHeaders (benchInputs 1050 BATTERY_CRITICAL 10000) 0 msg)) = 0.
Proof.
  intros msg.
  destruct (populate_twice sampleHeaders benchEnv 0 msg) as (_ & _ & W3 & _).
  destruct (populate_twice sampleHeaders (benchInputs 1050 BATTERY_CRITICAL 10000) 0 msg)
    as (_ & _ & _ & W4).
  split.
  - apply W3. right; right. split; [reflexivity | split; [exact sampleHeaders_EAMLayout |]].
    reflexivity.
  - destruct W4 as (A & _ & B & _).
    + reflexivity.
    + reflexivity.
    + vm_compute; discriminate.
    + exact sampleHeaders_EAMLayout.
    + reflexivity.
    + split; [exact A | exact B].
Defined.

Lemma hottTextmodeWriteChar_bounds_witness :
  hottTextmodeWriteChar sampleHeaders 21 0 65 (startedDriver sampleHeaders)
  = startedDriver sampleHeaders /\
  hottTextmodeWriteChar sampleHeaders 0 8 65 (startedDriver sampleHeaders)
  = startedDriver sampleHeaders /\
  load (txtCell sampleHeaders 7 20)
    (hottTextModeMessage
       (hottTextmodeWriteChar sampleHeaders 20 7 65 (startedDriver sampleHeaders))) = 65 /\
  load (txtCell sampleHeaders 7 19)
    (hottTextModeMessage
       (hottTextmodeWriteChar sampleHeaders 20 7 65 (startedDriver sampleHeaders)))
  = load (txtCell sampleHeaders 7 19) (hottTextModeMessage (startedDriver sampleHeaders)).
Proof.
  split; [| split; [| split]].
  - apply (hottTextmodeWriteChar_bounds sampleHeaders 21 0 65 (startedDriver sampleHeaders)).
    left. vm_compute; discriminate.
  - apply (hottTextmodeWriteChar_bounds sampleHeaders 0 8 65 (startedDriver sampleHeaders)).
    right. vm_compute; discriminate.
  - reflexivity.
  - apply (hottTextmodeWriteChar_bounds sampleHeaders 20 7 65 (startedDriver sampleHeaders)).
    + cbn; lia.
    + cbn; lia.
    + vm_compute; reflexivity.
    + intros E; discriminate E.
Defined.

(** ** The transitions of the state machine *)

Lemma hottSendTelemetryDataByte_frame hdr now d :
  let d1 := snd (hottSendTelemetryDataByte hdr now d) in
  hottState d1 = hottState d /\
  hottStateChangeUs d1 = hottStateChangeUs d /\
  rxFifo d1 = rxFifo d /\
  hottRequestBuffer d1 = hottRequestBuffer d /\
  hottRequestBufferPtr d1 = hottRequestBufferPtr d /\
  hottTelemetryEnabled d1 = hottTelemetryEnabled d /\
  byteSentTimeUs d1 = byteSentTimeUs d /\
  rxSchedule d1 = rxSchedule d /\
  txDelayUs d1 = txDelayUs d /\
  textmodeIsAlive d1 = textmodeIsAlive d /\
  (forall b, bufferOf b d1 = bufferOf b d).
Proof.
  unfold hottSendTelemetryDataByte, hottSerialWrite.
  destruct d; crunch; repeat split; try reflexivity; intros []; reflexivity.
Qed.

(** The loop body takes one of the transitions. *)
Lemma hottStateStep_Transition hdr env now d :
  Transition hdr env now d (fst (hottStateStep hdr env now d))
    (snd (hottStateStep hdr env now d)).
Proof.
  unfold hottStateStep. destruct (hottState d) eqn:Hs.
  - unfold serialRxBytesWaiting. destruct (rxFifo d) as [| b rest] eqn:Hf; cbn [length].
    + cbn. now constructor.
    + cbn [Z.of_nat Z.eqb negb fst snd].
      rewrite (hottSwitchState_from HOTT_WAITING_FOR_REQUEST _ now _)
        by (destruct d; first [exact Hs | reflexivity]).
      apply T_listening_bytes; [exact Hs | rewrite Hf; discriminate].
  - destruct (Z.geb_spec (elapsedUs hdr now (hottStateChangeUs d)) (rxSchedule d)).
    + cbn [fst snd]. unfold flushHottRxBuffer. rewrite flushLoop_nil.
      rewrite (hottSwitchState_from HOTT_RECEIVING_REQUEST _ now _)
        by (destruct d; first [exact Hs | reflexivity]).
      now apply T_receiving_timeout.
    + destruct (Nat.leb_spec 2 (hottRequestBufferPtr (receiveRequestBytes d))); cbn [fst snd].
      * now apply T_receiving_decode.
      * now apply T_receiving_partial.
  - destruct (Z.geb_spec (elapsedUs hdr now (hottStateChangeUs d)) HOTT_TX_SCHEDULE);
      cbn [fst snd].
    + rewrite (hottSwitchState_from HOTT_WAITING_FOR_TX_WINDOW _ now _)
        by (destruct d; first [exact Hs | reflexivity]).
      now apply T_window_open.
    + now apply T_window_wait.
  - pose proof (hottSendTelemetryDataByte_frame hdr now d) as F.
    destruct (hottSendTelemetryDataByte hdr now d) as [[|] d1] eqn:E; cbn [fst snd] in *.
    + destruct F as (F1 & _). rewrite Hs in F1.
      rewrite (hottSwitchState_from _ _ now _ F1) by reflexivity.
      now apply T_transmitting_done.
    + now apply T_transmitting.
  - destruct (Z.geb_spec (elapsedUs hdr now (hottStateChangeUs d)) (txDelayUs d));
      cbn [fst snd].
    + unfold flushHottRxBuffer. rewrite flushLoop_nil.
      rewrite (hottSwitchState_from HOTT_ENDING_TRANSMISSION _ now _)
        by (destruct d; first [exact Hs | reflexivity]).
      now apply T_ending_done.
    + now apply T_ending_wait.
Qed.

(** A property that every pass asking for another one keeps, and that makes
    the last pass establish [Q], makes the loop establish [Q]. *)
Lemma hottStateLoop_rule (P Q : Driver -> Prop) hdr env now :
  (forall d d', P d -> Transition hdr env now d d' true -> P d') ->
  (forall d d', P d -> Transition hdr env now d d' false -> Q d') ->
  forall fuel d d', P d -> hottStateLoop hdr fuel env now d = Some d' -> Q d'.
Proof.
  intros Hstep Hlast. induction fuel as [| fuel IH]; intros d d' HP H; [discriminate H |].
  rewrite hottStateLoop_S in H.
  pose proof (hottStateStep_Transition hdr env now d) as T.
  destruct (hottStateStep hdr env now d) as [d1 [|]]; cbn [fst snd] in T.
  - apply (IH d1); [now apply (Hstep d) | exact H].
  - injection H as <-. now apply (Hlast d).
Qed.

Lemma hottStateLoop_more_fuel hdr env now : forall fuel fuel' d d',
  hottStateLoop hdr fuel env now d = Some d' -> (fuel <= fuel')%nat ->
  hottStateLoop hdr fuel' env now d = Some d'.
Proof.
  induction fuel as [| fuel IH]; intros fuel' d d' H Hle; [discriminate H |].
  destruct fuel' as [| fuel']; [lia |].
  rewrite hottStateLoop_S in *.
  destruct (hottStateStep hdr env now d) as [d1 [|]]; [| exact H].
  apply (IH fuel'); [exact H | lia].
Qed.

(** What a call does is what the loop does from the driver it is given. *)
Lemma handleHoTTTelemetry_rule (P Q : Driver -> Prop) hdr env now d d' :
  (hottTelemetryEnabled d = false -> Q d) ->
  (hottTelemetryEnabled d = true -> P d) ->
  (forall d1 d2, P d1 -> Transition hdr env now d1 d2 true -> P d2) ->
  (forall d1 d2, P d1 -> Transition hdr env now d1 d2 false -> Q d2) ->
  handleHoTTTelemetry hdr env now d = Some d' -> Q d'.
Proof.
  intros Hoff Hon Hstep Hlast. unfold handleHoTTTelemetry.
  destruct (hottTelemetryEnabled d); cbn [negb].
  - intros H. exact (hottStateLoop_rule P Q hdr env now Hstep Hlast _ d d' (Hon eq_refl) H).
  - intros [= <-]. auto.
Qed.

(** What a transition does to the state and its timestamp, to the line and
    to the request buffer. *)
Lemma Transition_effects hdr env now d d' re :
  Transition hdr env now d d' re ->
  (hottStateChangeUs d' = now /\ hottState d' <> hottState d \/
   hottState d' = hottState d /\ hottStateChangeUs d' = hottStateChangeUs d) /\
  (txLog d' = txLog d \/
   hottState d = HOTT_TRANSMITTING /\
   HOTT_TX_DELAY_US <= elapsedUs hdr now (byteSentTimeUs d) /\
   txLog d' = txLog d
              ++ [if hottTxMsgSize d =? 0 then hottTxMsgCrc d else deref (hottTxMsg d) d]) /\
  (re = true -> hottState d' <> HOTT_TRANSMITTING /\ txLog d' = txLog d) /\
  (re = false -> hottState d' = HOTT_RECEIVING_REQUEST ->
   (hottRequestBufferPtr d' < 2)%nat) /\
  hottTelemetryEnabled d' = hottTelemetryEnabled d.
Proof.
  intros T. destruct T as [Hs Hf | Hs Hf | Hs Ht | Hs Ht Hp | Hs Ht Hp | Hs Ht | Hs Ht
                          | d1 Hs E | d1 Hs E | Hs Ht | Hs Ht].
  - rewrite Hs. repeat split; auto; discriminate.
  - destruct d; cbn in *; subst. repeat split; auto; try discriminate; try (left; split; congruence).
  - destruct d; cbn in *; subst. repeat split; auto; try discriminate; try (left; split; congruence).
  - destruct (receiveRequestBytes_frame d) as (F1 & F2 & _).
    assert (txLog (receiveRequestBytes d) = txLog d /\
            hottTelemetryEnabled (receiveRequestBytes d) = hottTelemetryEnabled d) as (F3 & F4).
    { unfold receiveRequestBytes. destruct (receiveLoop _ _ _) as [[? ?] ?]. now destruct d. }
    repeat split; auto; discriminate.
  - destruct (receiveRequestBytes_frame d) as (F1 & F2 & _).
    assert (txLog (receiveRequestBytes d) = txLog d /\
            hottTelemetryEnabled (receiveRequestBytes d) = hottTelemetryEnabled d) as (F3 & F4).
    { unfold receiveRequestBytes. destruct (receiveLoop _ _ _) as [[? ?] ?]. now destruct d. }
    rewrite Hs in F1.
    destruct (decodeRequest_after hdr env now _ F1) as (S1 & C1 & _ & _ & E1 & L1).
    rewrite Hs. repeat split; try discriminate.
    + left. split; [exact C1 | destruct S1 as [-> | ->]; discriminate].
    + left. congruence.
    + destruct S1 as [-> | ->]; discriminate.
    + congruence.
    + congruence.
  - rewrite Hs. repeat split; auto; discriminate.
  - destruct d; cbn in *; subst. repeat split; auto; try discriminate; try (left; split; congruence).
  - pose proof (hottSendTelemetryDataByte_frame hdr now d) as F. rewrite E in F.
    cbn [snd] in F. destruct F as (F1 & F2 & _ & _ & _ & F6 & _).
    repeat split; auto; try discriminate; [| rewrite F1, Hs; discriminate].
    revert E. unfold hottSendTelemetryDataByte, hottSerialWrite.
    destruct (Z.ltb_spec (elapsedUs hdr now (byteSentTimeUs d)) HOTT_TX_DELAY_US).
    + intros [= <-]. now left.
    + destruct (hottTxMsgSize d =? 0); [discriminate |].
      intros [= <-]. right. destruct d; cbn in *. auto.
  - pose proof (hottSendTelemetryDataByte_frame hdr now d) as F. rewrite E in F.
    cbn [snd] in F. destruct F as (F1 & F2 & _ & _ & _ & F6 & _).
    assert (Hl : HOTT_TX_DELAY_US <= elapsedUs hdr now (byteSentTimeUs d) /\
                 txLog d1 = txLog d
                   ++ [if hottTxMsgSize d =? 0 then hottTxMsgCrc d else deref (hottTxMsg d) d]).
    { revert E. unfold hottSendTelemetryDataByte, hottSerialWrite.
      destruct (Z.ltb_spec (elapsedUs hdr now (byteSentTimeUs d)) HOTT_TX_DELAY_US);
        [discriminate |].
      destruct (hottTxMsgSize d =? 0); [| discriminate].
      intros [= <-]. destruct d; cbn in *. auto. }
    destruct d1; cbn in *; subst. rewrite Hs.
    repeat split; auto; try discriminate; try (left; split; congruence).
  - rewrite Hs. repeat split; auto; discriminate.
  - destruct d; cbn in *; subst. repeat split; auto; try discriminate; try (left; split; congruence).
Qed.

(** X1.  The [do ... while] loop of [handleHoTTTelemetry] ends: on an
    enabled driver it asks for at most [2 + length (rxFifo d)] passes, two
    more than there are bytes in the receive FIFO, and a larger bound gives
    the same driver. *)
Theorem handleHoTTTelemetry_bound hdr env now d fuel :
  hottTelemetryEnabled d = true ->
  (2 + length (rxFifo d) <= fuel)%nat ->
  exists d',
    handleHoTTTelemetry hdr env now d = Some d' /\
    hottStateLoop hdr fuel env now d = Some d'.
Proof.
  intros En Hfuel. destruct (handleHoTTTelemetry_returns hdr env now d) as (d' & H).
  exists d'. split; [exact H |].
  unfold handleHoTTTelemetry in H. rewrite En in H. cbn [negb] in H.
  now apply (hottStateLoop_more_fuel hdr env now _ fuel d d' H).
Qed.

Lemma handleHoTTTelemetry_bound_witness :
  exists d',
    handleHoTTTelemetry sampleHeaders benchEnv 10000 (startedWith [0x80; 0x8E]) = Some d' /\
    hottStateLoop sampleHeaders 100 benchEnv 10000 (startedWith [0x80; 0x8E]) = Some d'.
Proof.
  apply (handleHoTTTelemetry_bound sampleHeaders benchEnv 10000 (startedWith [0x80; 0x8E]) 100).
  - reflexivity.
  - cbn; lia.
Defined.

(** X2.  A call that leaves the driver in another state than it found it
    in has stamped the change with its own time: after the call
    [hottStateChangeUs] is the time of the call, or the state and its
    timestamp are both what they were. *)
Theorem handleHoTTTelemetry_stamps hdr env now d d' :
  handleHoTTTelemetry hdr env now d = Some d' ->
  hottStateChangeUs d' = now \/
  (hottState d' = hottState d /\ hottStateChangeUs d' = hottStateChangeUs d).
Proof.
  apply (handleHoTTTelemetry_rule
           (fun d1 => hottStateChangeUs d1 = now \/
                      (hottState d1 = hottState d /\ hottStateChangeUs d1 = hottStateChangeUs d))
           (fun d1 => hottStateChangeUs d1 = now \/
                      (hottState d1 = hottState d /\ hottStateChangeUs d1 = hottStateChangeUs d))).
  - auto.
  - auto.
  - intros d1 d2 P T. destruct (Transition_effects _ _ _ _ _ _ T) as ([(C & _) | (S & C)] & _).
    + now left.
    + destruct P as [P | (P1 & P2)]; [left | right; split]; congruence.
  - intros d1 d2 P T. destruct (Transition_effects _ _ _ _ _ _ T) as ([(C & _) | (S & C)] & _).
    + now left.
    + destruct P as [P | (P1 & P2)]; [left | right; split]; congruence.
Qed.

Lemma handleHoTTTelemetry_stamps_witness :
  exists d',
    handleHoTTTelemetry sampleHeaders benchEnv 10000 (startedWith [0x80; 0x8E]) = Some d' /\
    hottState d' = HOTT_WAITING_FOR_TX_WINDOW /\
    (hottStateChangeUs d' = 10000 \/
     (hottState d' = hottState (startedWith [0x80; 0x8E]) /\
      hottStateChangeUs d' = hottStateChangeUs (startedWith [0x80; 0x8E]))).
Proof.
  eexists. split; [vm_compute; reflexivity |]. split; [reflexivity |].
  apply (handleHoTTTelemetry_stamps sampleHeaders benchEnv 10000 (startedWith [0x80; 0x8E])).
  vm_compute; reflexivity.
Defined.

(** X3.  A call puts at most one byte on the line, and none unless it found
    the driver in HOTT_TRANSMITTING with the guard of the byte transmitter
    open: the byte is the checksum when no byte of the record is left and
    the byte under [hottTxMsg] otherwise. *)
Theorem handleHoTTTelemetry_writes hdr env now d d' :
  handleHoTTTelemetry hdr env now d = Some d' ->
  txLog d' = txLog d \/
  (hottState d = HOTT_TRANSMITTING /\
   HOTT_TX_DELAY_US <= elapsedUs hdr now (byteSentTimeUs d) /\
   txLog d' = txLog d
              ++ [if hottTxMsgSize d =? 0 then hottTxMsgCrc d else deref (hottTxMsg d) d]).
Proof.
  apply (handleHoTTTelemetry_rule
           (fun d1 => txLog d1 = txLog d /\ (hottState d1 = HOTT_TRANSMITTING -> d1 = d))
           (fun d1 =>
              txLog d1 = txLog d \/
              (hottState d = HOTT_TRANSMITTING /\
               HOTT_TX_DELAY_US <= elapsedUs hdr now (byteSentTimeUs d) /\
               txLog d1 = txLog d
                          ++ [if hottTxMsgSize d =? 0 then hottTxMsgCrc d
                              else deref (hottTxMsg d) d]))).
  - auto.
  - auto.
  - intros d1 d2 (L & S) T.
    destruct (Transition_effects _ _ _ _ _ _ T) as (_ & _ & R & _).
    destruct (R eq_refl) as (R1 & R2). split; [congruence | tauto].
  - intros d1 d2 (L & S) T.
    destruct (Transition_effects _ _ _ _ _ _ T) as (_ & [W | (W1 & W2 & W3)] & _).
    + left. congruence.
    + right. pose proof (S W1) as E. subst d1. auto.
Qed.

Lemma handleHoTTTelemetry_writes_witness :
  exists d d',
    runPolls sampleHeaders
      [ {| poll_env := benchEnv; poll_time := 10000; poll_arrived := [0x80; 0x8E] |};
        quietPoll benchEnv 15000 ]
      (startedDriver sampleHeaders) = Some d /\
    handleHoTTTelemetry sampleHeaders benchEnv 17000 d = Some d' /\
    txLog d' = [0x7C] /\
    (txLog d' = txLog d \/
     (hottState d = HOTT_TRANSMITTING /\
      HOTT_TX_DELAY_US <= elapsedUs sampleHeaders 17000 (byteSentTimeUs d) /\
      txLog d' = txLog d
                 ++ [if hottTxMsgSize d =? 0 then hottTxMsgCrc d else deref (hottTxMsg d) d])).
Proof.
  eexists. eexists. split; [vm_compute; reflexivity |].
  split; [vm_compute; reflexivity |]. split; [reflexivity |].
  apply (handleHoTTTelemetry_writes sampleHeaders benchEnv 17000).
  vm_compute; reflexivity.
Defined.

(** X4.  A completed request never waits for the next call: a call on an
    enabled driver that returns in HOTT_RECEIVING_REQUEST has read fewer
    than two bytes of the request, so the index [hottRequestBufferPtr] stays
    inside the two-byte [hottRequestBuffer]. *)
Theorem handleHoTTTelemetry_receiving_incomplete hdr env now d d' :
  hottTelemetryEnabled d = true ->
  handleHoTTTelemetry hdr env now d = Some d' ->
  hottState d' = HOTT_RECEIVING_REQUEST ->
  (hottRequestBufferPtr d' < 2)%nat.
Proof.
  intros En H.
  apply (handleHoTTTelemetry_rule (fun _ => True)
           (fun d2 => hottState d2 = HOTT_RECEIVING_REQUEST ->
                      (hottRequestBufferPtr d2 < 2)%nat) hdr env now d d'); auto.
  - congruence.
  - intros d1 d2 _ T.
    destruct (Transition_effects _ _ _ _ _ _ T) as (_ & _ & _ & R & _). now apply R.
Qed.

Lemma handleHoTTTelemetry_receiving_incomplete_witness :
  exists d',
    handleHoTTTelemetry sampleHeaders benchEnv 10000 (startedWith [0x80]) = Some d' /\
    hottState d' = HOTT_RECEIVING_REQUEST /\
    (hottRequestBufferPtr d' < 2)%nat.
Proof.
  eexists. split; [vm_compute; reflexivity |]. split; [reflexivity |].
  apply (handleHoTTTelemetry_receiving_incomplete sampleHeaders benchEnv 10000
           (startedWith [0x80])).
  - reflexivity.
  - vm_compute; reflexivity.
  - reflexivity.
Defined.

(** ** What every run of the driver keeps *)

Lemma hottSwitchState_settings s now d : settings (hottSwitchState s now d) = settings d.
Proof. unfold hottSwitchState. destruct (hottState_eqb _ _); now destruct d. Qed.

Lemma flushHottRxBuffer_settings d : settings (flushHottRxBuffer d) = settings d.
Proof. now destruct d. Qed.

Lemma receiveRequestBytes_settings d :
  settings (receiveRequestBytes d) = settings d /\
  hottTelemetryEnabled (receiveRequestBytes d) = hottTelemetryEnabled d /\
  txLog (receiveRequestBytes d) = txLog d.
Proof.
  unfold receiveRequestBytes. destruct (receiveLoop _ _ _) as [[? ?] ?]. now destruct d.
Qed.

Lemma hottSendTelemetryDataByte_settings hdr now d :
  settings (snd (hottSendTelemetryDataByte hdr now d)) = settings d.
Proof.
  unfold hottSendTelemetryDataByte, hottSerialWrite. destruct d; crunch; reflexivity.
Qed.

(** The decode leaves the settings as one of the two request processors
    left them, or as they were. *)
Lemma decodeRequest_settings hdr env now d :
  settings (decodeRequest hdr env now d) = settings d \/
  settings (decodeRequest hdr env now d)
  = settings (snd (processBinaryModeRequest hdr env (snd (hottRequestBuffer d)) d)) \/
  (USE_HOTT_TEXTMODE_AND_CMS hdr = true /\
   settings (decodeRequest hdr env now d)
   = settings (snd (processHottTextModeRequest hdr env (snd (hottRequestBuffer d)) d))).
Proof.
  unfold decodeRequest, binaryModeBranch.
  destruct (processBinaryModeRequest hdr env (snd (hottRequestBuffer d)) d) as [okb db].
  destruct (processHottTextModeRequest hdr env (snd (hottRequestBuffer d)) d) as [okt dt].
  cbn [snd].
  destruct (_ || _).
  - right; left. destruct okb; apply hottSwitchState_settings.
  - destruct (_ =? _).
    + destruct (USE_HOTT_TEXTMODE_AND_CMS hdr).
      * right; right. split; [reflexivity |]. destruct okt; apply hottSwitchState_settings.
      * left. apply hottSwitchState_settings.
    + left. rewrite hottSwitchState_settings. apply flushHottRxBuffer_settings.
Qed.

(** Every transition but the decode leaves the settings alone. *)
Lemma Transition_settings hdr env now d d' re :
  Transition hdr env now d d' re ->
  settings d' = settings d \/
  exists d0, settings d0 = settings d /\ d' = decodeRequest hdr env now d0.
Proof.
  intros T. destruct T as [Hs Hf | Hs Hf | Hs Ht | Hs Ht Hp | Hs Ht Hp | Hs Ht | Hs Ht
                          | d1 Hs E | d1 Hs E | Hs Ht | Hs Ht];
    try (left; now destruct d).
  - left. apply receiveRequestBytes_settings.
  - right. eexists. split; [apply receiveRequestBytes_settings | reflexivity].
  - left. pose proof (hottSendTelemetryDataByte_settings hdr now d) as F.
    now rewrite E in F.
  - left. pose proof (hottSendTelemetryDataByte_settings hdr now d) as F.
    rewrite E in F. cbn [snd] in F. rewrite <- F. now destruct d1.
Qed.

(** A property of the settings that the two request processors keep is kept
    by every run of the driver. *)
Lemma runPolls_settings_invariant (I : Driver -> Prop) hdr :
  (forall d d', settings d' = settings d -> I d -> I d') ->
  (forall env a d, I d -> I (snd (processBinaryModeRequest hdr env a d))) ->
  (forall env cmd d, USE_HOTT_TEXTMODE_AND_CMS hdr = true -> I d ->
                     I (snd (processHottTextModeRequest hdr env cmd d))) ->
  forall polls d d', I d -> runPolls hdr polls d = Some d' -> I d'.
Proof.
  intros Hset Hbin Htxt.
  assert (Hstep : forall env now d1 d2 re, I d1 -> Transition hdr env now d1 d2 re -> I d2).
  { intros env now d1 d2 re H1 T.
    destruct (Transition_settings _ _ _ _ _ _ T) as [E | (d0 & E0 & ->)].
    - now apply (Hset d1).
    - assert (H0 : I d0) by now apply (Hset d1).
      destruct (decodeRequest_settings hdr env now d0) as [E | [E | (U & E)]].
      + now apply (Hset d0).
      + apply (Hset _ _ E). now apply Hbin.
      + apply (Hset _ _ E). now apply Htxt. }
  induction polls as [| p polls IH]; intros d d' H R; cbn [runPolls] in R.
  - now injection R as <-.
  - destruct (handleHoTTTelemetry hdr (poll_env p) (poll_time p)
                (serialReceive (poll_arrived p) d)) as [d1 |] eqn:E; [| discriminate R].
    apply (IH d1); [| exact R].
    assert (H' : I (serialReceive (poll_arrived p) d))
      by (apply (Hset d); [now destruct d | exact H]).
    apply (handleHoTTTelemetry_rule I I hdr _ _ _ d1
             (fun _ => H') (fun _ => H')
             (fun d1 d2 => Hstep _ _ d1 d2 true) (fun d1 d2 => Hstep _ _ d1 d2 false) E).
Qed.

Lemma settings_fields d d' :
  settings d' = settings d ->
  rxSchedule d' = rxSchedule d /\ txDelayUs d' = txDelayUs d /\
  textmodeIsAlive d' = textmodeIsAlive d /\
  telemetryTaskPeriod d' = telemetryTaskPeriod d /\
  lastHottAlarmSoundTime d' = lastHottAlarmSoundTime d /\
  setEscBack d' = setEscBack d /\ externCalls d' = externCalls d /\
  hottGPSMessage d' = hottGPSMessage d /\ hottEAMMessage d' = hottEAMMessage d /\
  hottTextModeMessage d' = hottTextModeMessage d.
Proof. unfold settings. intros [= -> -> -> -> -> -> -> -> -> ->]. repeat split. Qed.

Lemma processBinaryModeRequest_timing hdr env a d :
  TimingProfile d -> TimingProfile (snd (processBinaryModeRequest hdr env a d)).
Proof.
  unfold TimingProfile, processBinaryModeRequest, hottQueueSendResponse, hottTextmodeStop.
  destruct d; cbn -[hottPrepareEAMResponse hottPrepareGPSResponse].
  intros H. crunch; first [exact H | reflexivity].
Qed.

Lemma processHottTextModeRequest_timing hdr env cmd d :
  TimingProfile d -> TimingProfile (snd (processHottTextModeRequest hdr env cmd d)).
Proof.
  unfold TimingProfile, processHottTextModeRequest, hottQueueSendResponse, hottTextmodeStart.
  destruct d; cbn. intros H. crunch; first [exact H | reflexivity].
Qed.

(** X5.  The request timeout [rxSchedule] and the end-of-transmission delay
    [txDelayUs] always go together with [textmodeIsAlive]: 5000 and 1000
    microseconds while text mode is alive, 4000 and 2000 otherwise.  This
    holds when the driver starts and after every run of calls, whatever
    arrives on the line. *)
Theorem timing_profile_kept hdr :
  TimingProfile (startedDriver hdr) /\
  forall polls d d',
    TimingProfile d -> runPolls hdr polls d = Some d' -> TimingProfile d'.
Proof.
  split.
  - unfold startedDriver, configureHoTTTelemetryPort, initHoTTTelemetry, initialiseMessages,
      initialDriver, TimingProfile.
    destruct (USE_HOTT_TEXTMODE_AND_CMS hdr), (USE_GPS hdr); reflexivity.
  - apply (runPolls_settings_invariant TimingProfile).
    + intros d d' E. apply settings_fields in E. destruct E as (E1 & E2 & E3 & _).
      unfold TimingProfile. now rewrite E1, E2, E3.
    + intros. now apply processBinaryModeRequest_timing.
    + intros. now apply processHottTextModeRequest_timing.
Qed.

Lemma timing_profile_kept_witness :
  exists d',
    runPolls sampleHeaders
      [ {| poll_env := benchEnv; poll_time := 10000; poll_arrived := [0x7F; 0xE1] |} ]
      (startedDriver sampleHeaders) = Some d' /\
    textmodeIsAlive d' = true /\
    TimingProfile d'.
Proof.
  eexists. split; [vm_compute; reflexivity |]. split; [reflexivity |].
  destruct (timing_profile_kept sampleHeaders) as (W0 & W).
  apply (W [ {| poll_env := benchEnv; poll_time := 10000; poll_arrived := [0x7F; 0xE1] |} ]
           (startedDriver sampleHeaders)).
  - exact W0.
  - vm_compute; reflexivity.
Defined.

(** ** The records keep their frame *)

Lemma processBinaryModeRequest_records hdr env a d :
  let d' := snd (processBinaryModeRequest hdr env a d) in
  hottTextModeMessage d' = hottTextModeMessage d /\
  (hottEAMMessage d' = hottEAMMessage d \/
   hottEAMMessage d'
   = snd (hottPrepareEAMResponse hdr env (lastHottAlarmSoundTime d) (hottEAMMessage d))) /\
  (hottGPSMessage d' = hottGPSMessage d \/
   hottGPSMessage d' = hottPrepareGPSResponse hdr env (hottGPSMessage d)).
Proof.
  cbv zeta.
  remember (hottPrepareEAMResponse hdr env (lastHottAlarmSoundTime d) (hottEAMMessage d))
    as r eqn:Hr in *.
  destruct r as [last1 msg1].
  unfold processBinaryModeRequest, hottQueueSendResponse, hottTextmodeStop.
  normalise_with Hr; repeat split; auto.
Qed.

Lemma processHottTextModeRequest_records hdr env cmd d :
  let d' := snd (processHottTextModeRequest hdr env cmd d) in
  hottEAMMessage d' = hottEAMMessage d /\ hottGPSMessage d' = hottGPSMessage d.
Proof.
  unfold processHottTextModeRequest, hottQueueSendResponse, hottTextmodeStart.
  crunch; split; reflexivity.
Qed.

Ltac gps_kept L :=
  unfold getGPS, setGPS;
  repeat (rewrite load_store_ne by gps_distinct L);
  reflexivity.

(** [hottPrepareGPSResponse] writes none of the four members that
    [initialiseGPSMessage] sets. *)
Lemma hottPrepareGPSResponse_frame hdr env msg :
  GPSLayout hdr ->
  let msg' := hottPrepareGPSResponse hdr env msg in
  getGPS hdr GPS.start_byte msg' = getGPS hdr GPS.start_byte msg /\
  getGPS hdr GPS.gps_sensor_id msg' = getGPS hdr GPS.gps_sensor_id msg /\
  getGPS hdr GPS.sensor_id msg' = getGPS hdr GPS.sensor_id msg /\
  getGPS hdr GPS.stop_byte msg' = getGPS hdr GPS.stop_byte msg.
Proof.
  intros L. cbv zeta. unfold hottPrepareGPSResponse, addGPSCoordinates.
  split_ifs; repeat split; gps_kept L.
Qed.

Lemma initialiseGPSMessage_initialised hdr msg :
  GPSLayout hdr -> length msg = sizeof_GPS hdr ->
  GPSInitialised hdr (initialiseGPSMessage hdr msg (sizeof_GPS hdr)).
Proof.
  intros L Hlen. unfold GPSInitialised, initialiseGPSMessage.
  assert (Hlen' : length (memset0 (sizeof_GPS hdr) ++ drop (sizeof_GPS hdr) msg)
                  = sizeof_GPS hdr).
  { rewrite length_app, length_drop. unfold memset0. rewrite length_replicate. lia. }
  repeat split; gps_read L Hlen'.
Qed.

Lemma length_initialise hdr msg size :
  (size <= length msg)%nat ->
  length (initialiseEAMMessage hdr msg size) = length msg /\
  length (initialiseGPSMessage hdr msg size) = length msg.
Proof.
  intros H. unfold initialiseEAMMessage, initialiseGPSMessage, setEAM, setGPS, memset0.
  rewrite !length_store, length_app, length_drop, length_replicate. lia.
Qed.

(** X6.  The EAM record keeps its size and its frame: from start-up on and
    through every run of calls, whatever arrives on the line and whatever
    the sensors report, the record has the size of its declaration and
    carries the start byte 0x7C, the EAM sensor id, the text sensor id and
    the stop byte 0x7D.  No request and no population writes these four
    members. *)
Theorem EAM_record_framed hdr polls d' :
  EAMLayout hdr ->
  runPolls hdr polls (startedDriver hdr) = Some d' ->
  length (hottEAMMessage d') = sizeof_EAM hdr /\
  EAMInitialised hdr (hottEAMMessage d').
Proof.
  intros L.
  apply (runPolls_settings_invariant
           (fun d => length (hottEAMMessage d) = sizeof_EAM hdr /\
                     EAMInitialised hdr (hottEAMMessage d))).
  - intros d1 d2 E. apply settings_fields in E.
    destruct E as (_ & _ & _ & _ & _ & _ & _ & _ & E & _). now rewrite E.
  - intros env a d (Hlen & I1 & I2 & I3 & I4).
    destruct (processBinaryModeRequest_records hdr env a d) as (_ & [E | E] & _); rewrite E.
    + repeat split; assumption.
    + destruct (hottPrepareEAMResponse_fields hdr env (lastHottAlarmSoundTime d)
                  (hottEAMMessage d) L Hlen) as (F1 & F2 & F3 & F4 & _).
      rewrite length_hottPrepareEAMResponse.
      unfold EAMInitialised. rewrite F1, F2, F3, F4. repeat split; assumption.
  - intros env cmd d _ H.
    destruct (processHottTextModeRequest_records hdr env cmd d) as (E & _). now rewrite E.
  - assert (Hlen : length (memset0 (sizeof_EAM hdr)) = sizeof_EAM hdr)
      by (unfold memset0; apply length_replicate).
    assert (E : hottEAMMessage (startedDriver hdr)
                = initialiseEAMMessage hdr (memset0 (sizeof_EAM hdr)) (sizeof_EAM hdr)).
    { unfold startedDriver, configureHoTTTelemetryPort, initHoTTTelemetry, initialiseMessages,
        initialDriver.
      destruct (USE_HOTT_TEXTMODE_AND_CMS hdr), (USE_GPS hdr); reflexivity. }
    rewrite E. split.
    + destruct (length_initialise hdr (memset0 (sizeof_EAM hdr)) (sizeof_EAM hdr)) as (H & _);
        [lia | now rewrite H].
    + now apply initialiseEAMMessage_initialised.
Qed.

Lemma EAM_record_framed_witness :
  exists d',
    runPolls sampleHeaders
      [ {| poll_env := benchEnv; poll_time := 10000; poll_arrived := [0x80; 0x8E] |};
        quietPoll benchEnv 15000; quietPoll benchEnv 17000 ]
      (startedDriver sampleHeaders) = Some d' /\
    txLog d' = [0x7C] /\
    length (hottEAMMessage d') = sizeof_EAM sampleHeaders /\
    EAMInitialised sampleHeaders (hottEAMMessage d').
Proof.
  eexists. split; [vm_compute; reflexivity |]. split; [reflexivity |].
  apply (EAM_record_framed sampleHeaders
           [ {| poll_env := benchEnv; poll_time := 10000; poll_arrived := [0x80; 0x8E] |};
             quietPoll benchEnv 15000; quietPoll benchEnv 17000 ]).
  - exact sampleHeaders_EAMLayout.
  - vm_compute; reflexivity.
Defined.

(** X7.  The same for the GPS record, where GPS is compiled in: after
    start-up and every run of calls it carries the start byte 0x7C, the GPS
    sensor id, the GPS text sensor id and the stop byte 0x7D, and has the
    size of its declaration. *)
Theorem GPS_record_framed hdr polls d' :
  GPSLayout hdr -> USE_GPS hdr = true ->
  runPolls hdr polls (startedDriver hdr) = Some d' ->
  length (hottGPSMessage d') = sizeof_GPS hdr /\
  GPSInitialised hdr (hottGPSMessage d').
Proof.
  intros L U.
  apply (runPolls_settings_invariant
           (fun d => length (hottGPSMessage d) = sizeof_GPS hdr /\
                     GPSInitialised hdr (hottGPSMessage d))).
  - intros d1 d2 E. apply settings_fields in E.
    destruct E as (_ & _ & _ & _ & _ & _ & _ & E & _). now rewrite E.
  - intros env a d (Hlen & I1 & I2 & I3 & I4).
    destruct (processBinaryModeRequest_records hdr env a d) as (_ & _ & [E | E]); rewrite E.
    + repeat split; assumption.
    + destruct (hottPrepareGPSResponse_frame hdr env (hottGPSMessage d) L)
        as (F1 & F2 & F3 & F4).
      rewrite length_hottPrepareGPSResponse.
      unfold GPSInitialised. rewrite F1, F2, F3, F4. repeat split; assumption.
  - intros env cmd d _ H.
    destruct (processHottTextModeRequest_records hdr env cmd d) as (_ & E). now rewrite E.
  - assert (Hlen : length (memset0 (sizeof_GPS hdr)) = sizeof_GPS hdr)
      by (unfold memset0; apply length_replicate).
    assert (E : hottGPSMessage (startedDriver hdr)
                = initialiseGPSMessage hdr (memset0 (sizeof_GPS hdr)) (sizeof_GPS hdr)).
    { unfold startedDriver, configureHoTTTelemetryPort, initHoTTTelemetry, initialiseMessages,
        initialDriver. rewrite U.
      destruct (USE_HOTT_TEXTMODE_AND_CMS hdr); reflexivity. }
    rewrite E. split.
    + destruct (length_initialise hdr (memset0 (sizeof_GPS hdr)) (sizeof_GPS hdr)) as (_ & H);
        [lia | now rewrite H].
    + now apply initialiseGPSMessage_initialised.
Qed.

Lemma GPS_record_framed_witness :
  exists d',
    runPolls sampleHeaders
      [ {| poll_env := gpsEnv; poll_time := 10000; poll_arrived := [0x80; 0x8A] |} ]
      (startedDriver sampleHeaders) = Some d' /\
    hottTxMsg d' = Some {| base := GPSMessage; offset := 0 |} /\
    length (hottGPSMessage d') = sizeof_GPS sampleHeaders /\
    GPSInitialised sampleHeaders (hottGPSMessage d').
Proof.
  eexists. split; [vm_compute; reflexivity |]. split; [reflexivity |].
  apply (GPS_record_framed sampleHeaders
           [ {| poll_env := gpsEnv; poll_time := 10000; poll_arrived := [0x80; 0x8A] |} ]).
  - exact sampleHeaders_GPSLayout.
  - reflexivity.
  - vm_compute; reflexivity.
Defined.

(** ** The contents of the GPS record *)

Lemma pair_land x : u8 (Z.land x 0xFF) + 256 * u8 (Z.shiftr x 8) = x mod 65536.
Proof. rewrite land_0xFF, Z.shiftr_div_pow2 by lia. arith. Qed.

Lemma u8_land x : u8 (Z.land x 0xFF) = x mod 256.
Proof. rewrite land_0xFF. arith. Qed.

Lemma lookup_store_ne (i off : nat) v (msg : list Z) :
  i <> off -> store off v msg !! i = msg !! i.
Proof. intros H. unfold store. apply list_lookup_insert_ne. auto. Qed.

(** X8.  The fix character of the GPS record: '-' when there is no fix to
    report, '3' for a 3D fix and '2' for every other fix; 'D' is never sent.
    Without a fix [hottPrepareGPSResponse] writes the satellite count, the
    climb rates and the fix character and nothing else, so every other byte
    of the record, the position, the speed, the altitude and the way home
    among them, goes out as the last population with a fix left it. *)
Theorem hottPrepareGPSResponse_fix hdr env msg :
  GPSLayout hdr -> length msg = sizeof_GPS hdr ->
  let msg' := hottPrepareGPSResponse hdr env msg in
  getGPS hdr GPS.gps_fix_char msg'
  = (if haveFix hdr env
     then match gpsSol_fixType env with
          | GPS_FIX_3D => GPS_FIX_CHAR_3D
          | _ => GPS_FIX_CHAR_2D
          end
     else GPS_FIX_CHAR_NONE) /\
  getGPS hdr GPS.gps_fix_char msg' <> GPS_FIX_CHAR_DGPS /\
  (haveFix hdr env = false ->
   (forall i : nat,
      (forall f, writtenWithoutFix f = true -> i <> offsetof_GPS hdr f) ->
      msg' !! i = msg !! i) /\
   (forall f, writtenWithoutFix f = false -> getGPS hdr f msg' = getGPS hdr f msg)).
Proof.
  intros L Hlen. cbv zeta.
  assert (Hchar : getGPS hdr GPS.gps_fix_char (hottPrepareGPSResponse hdr env msg)
                  = (if haveFix hdr env
                     then match gpsSol_fixType env with
                          | GPS_FIX_3D => GPS_FIX_CHAR_3D
                          | _ => GPS_FIX_CHAR_2D
                          end
                     else GPS_FIX_CHAR_NONE)).
  { unfold hottPrepareGPSResponse, addGPSCoordinates, haveFix.
    destruct (if USE_GPS_FIX_ESTIMATION hdr then _ else _); cbn [negb].
    - destruct (gpsSol_fixType env); gps_read L Hlen.
    - gps_read L Hlen. }
  split; [exact Hchar |]. split.
  - rewrite Hchar. destruct (haveFix hdr env); [destruct (gpsSol_fixType env) |]; discriminate.
  - intros Hfix.
    assert (Hbytes : forall i : nat,
      (forall f, writtenWithoutFix f = true -> i <> offsetof_GPS hdr f) ->
      hottPrepareGPSResponse hdr env msg !! i = msg !! i).
    { intros i Hi. unfold hottPrepareGPSResponse. unfold haveFix in Hfix. rewrite Hfix.
      cbn [negb]. unfold setGPS.
      rewrite !lookup_store_ne by (apply Hi; reflexivity). reflexivity. }
    split; [exact Hbytes |].
    intros f Hf. unfold getGPS, load. rewrite Hbytes; [reflexivity |].
    intros g Hg E. apply (gps_offsets_distinct _ L) in E. subst g. congruence.
Qed.

Lemma hottPrepareGPSResponse_fix_witness :
  let msg := hottPrepareGPSResponse sampleHeaders gpsEnv
               (hottGPSMessage (startedDriver sampleHeaders)) in
  let msg' := hottPrepareGPSResponse sampleHeaders benchEnv msg in
  getGPS sampleHeaders GPS.gps_fix_char msg = GPS_FIX_CHAR_3D /\
  getGPS sampleHeaders GPS.gps_fix_char msg' = GPS_FIX_CHAR_NONE /\
  pairGPS sampleHeaders GPS.gps_speed_L GPS.gps_speed_H msg' = 54 /\
  getGPS sampleHeaders GPS.home_direction msg'
  = getGPS sampleHeaders GPS.home_direction msg.
Proof.
  intros msg msg'.
  destruct (hottPrepareGPSResponse_fix sampleHeaders gpsEnv
              (hottGPSMessage (startedDriver sampleHeaders)))
    as (W1 & _ & _); [exact sampleHeaders_GPSLayout | reflexivity |].
  destruct (hottPrepareGPSResponse_fix sampleHeaders benchEnv msg)
    as (W2 & _ & W3); [exact sampleHeaders_GPSLayout | reflexivity |].
  destruct (W3 eq_refl) as (_ & W4).
  split; [exact W1 |]. split; [exact W2 |]. split; [reflexivity |].
  apply (W4 GPS.home_direction). reflexivity.
Defined.

(** X9.  With a fix to report, the GPS record carries the inputs in the
    protocol's units, each 16-bit value cut to 16 bits and split low byte
    first: the ground speed times 36 over 1000 (cm/s to km/h), the distance
    to home, the altitude in metres plus HOTT_GPS_ALTITUDE_OFFSET, the
    direction to home cut to 8 bits, and the coordinates as
    [addGPSCoordinates] packs them, which none of the later stores touches.
    With or without a fix it carries the satellite count cut to 8 bits, the
    climb rate, not below 0, cut to 16 bits, and the three-second climb
    rate, not below 0, cut to 8 bits. *)
Theorem hottPrepareGPSResponse_values hdr env msg :
  GPSLayout hdr -> length msg = sizeof_GPS hdr ->
  let msg' := hottPrepareGPSResponse hdr env msg in
  (getGPS hdr GPS.gps_satelites msg' = u8 (gpsSol_numSat env) /\
   pairGPS hdr GPS.climbrate_L GPS.climbrate_H msg' = MAX 0 (climbrateRaw env) mod 65536 /\
   getGPS hdr GPS.climbrate3s msg' = MAX 0 (climbrate3sRaw env) mod 256) /\
  (haveFix hdr env = true ->
   pairGPS hdr GPS.gps_speed_L GPS.gps_speed_H msg'
   = u16 ((gpsSol_groundSpeed env * 36) ÷ 1000) /\
   pairGPS hdr GPS.home_distance_L GPS.home_distance_H msg'
   = GPS_distanceToHome env mod 65536 /\
   pairGPS hdr GPS.altitude_L GPS.altitude_H msg'
   = u16 (gpsSol_llh_alt env ÷ 100 + HOTT_GPS_ALTITUDE_OFFSET hdr) /\
   getGPS hdr GPS.home_direction msg' = u8 (GPS_directionToHome env) /\
   getGPS hdr GPS.pos_NS msg' = (if gpsSol_llh_lat env <? 0 then 1 else 0) /\
   getGPS hdr GPS.pos_EW msg' = (if gpsSol_llh_lon env <? 0 then 1 else 0) /\
   latitudePair hdr msg'
   = latitudePair hdr (addGPSCoordinates hdr msg (gpsSol_llh_lat env) (gpsSol_llh_lon env)) /\
   longitudePair hdr msg'
   = longitudePair hdr (addGPSCoordinates hdr msg (gpsSol_llh_lat env) (gpsSol_llh_lon env))).
Proof.
  intros L Hlen. cbv zeta. unfold pairGPS.
  rewrite <- (pair_land (MAX 0 (climbrateRaw env))), <- (u8_land (MAX 0 (climbrate3sRaw env))).
  split.
  - unfold hottPrepareGPSResponse, addGPSCoordinates.
    destruct (negb _); [| destruct (gpsSol_fixType env)];
      repeat split; try (f_equal; [| f_equal]); gps_read L Hlen.
  - intros Hfix.
    destruct (addGPSCoordinates_fields hdr msg (gpsSol_llh_lat env) (gpsSol_llh_lon env) L Hlen)
      as ((A1 & A2 & A3 & A4 & A5) & (B1 & B2 & B3 & B4 & B5)).
    unfold latitudePair, longitudePair. rewrite A2, A3, A4, A5, B2, B3, B4, B5.
    assert (Hu16 : forall x, u16 x = u16 x mod 65536) by (intros; arith).
    assert (Hflag : forall b : bool, (if b then 1 else 0) = u8 (if b then 1 else 0))
      by (intros []; reflexivity).
    rewrite (Hu16 (_ ÷ 1000)), (Hu16 (_ + _)).
    rewrite <- !pair_land.
    rewrite (Hflag (gpsSol_llh_lat env <? 0)), (Hflag (gpsSol_llh_lon env <? 0)).
    unfold hottPrepareGPSResponse, addGPSCoordinates.
    unfold haveFix in Hfix. rewrite Hfix. cbn [negb].
    destruct (gpsSol_fixType env);
      repeat split; try (f_equal; [| f_equal]); try gps_read L Hlen;
      f_equal; f_equal; gps_read L Hlen.
Qed.

Lemma hottPrepareGPSResponse_values_witness :
  let msg' := hottPrepareGPSResponse sampleHeaders gpsEnv
                (hottGPSMessage (startedDriver sampleHeaders)) in
  getGPS sampleHeaders GPS.gps_satelites msg' = 12 /\
  pairGPS sampleHeaders GPS.gps_speed_L GPS.gps_speed_H msg' = 54 /\
  pairGPS sampleHeaders GPS.altitude_L GPS.altitude_H msg' = 620 /\
  latitudePair sampleHeaders msg' = (5231, 2000).
Proof.
  intros msg'.
  destruct (hottPrepareGPSResponse_values sampleHeaders gpsEnv
              (hottGPSMessage (startedDriver sampleHeaders)))
    as ((W1 & _) & W2); [exact sampleHeaders_GPSLayout | reflexivity |].
  destruct (W2 eq_refl) as (W3 & _ & W4 & _ & _ & _ & W5 & _).
  split; [exact W1 |]. split; [exact W3 |]. split; [exact W4 |].
  unfold msg'. rewrite W5. reflexivity.
Defined.

(** ** The contents of the EAM record *)

Lemma s32_mod x : s32 x mod 65536 = x mod 65536.
Proof. arith. Qed.

(** X10.  The measurements of the EAM record: the current and the drawn
    capacity, each divided by ten, the altitude and the climb rate, neither
    below 0, all cut to 16 bits and split low byte first (a negative current
    goes out in two's complement); the three-second climb rate, not below
    0, cut to 8 bits; and the battery-1 voltage, like the main voltage the
    battery voltage divided by ten and cut to 8 bits, so that the high byte
    of both voltages is always 0. *)
Theorem hottPrepareEAMResponse_values hdr env last msg :
  EAMLayout hdr -> length msg = sizeof_EAM hdr ->
  let msg' := snd (hottPrepareEAMResponse hdr env last msg) in
  pairEAM hdr EAM.current_L EAM.current_H msg' = (getAmperage env ÷ 10) mod 65536 /\
  pairEAM hdr EAM.batt_cap_L EAM.batt_cap_H msg' = (getMAhDrawn env ÷ 10) mod 65536 /\
  pairEAM hdr EAM.altitude_L EAM.altitude_H msg' = MAX 0 (positionAlt env) mod 65536 /\
  pairEAM hdr EAM.climbrate_L EAM.climbrate_H msg' = MAX 0 (climbrateRaw env) mod 65536 /\
  getEAM hdr EAM.climbrate3s msg' = MAX 0 (climbrate3sRaw env) mod 256 /\
  pairEAM hdr EAM.batt1_voltage_L EAM.batt1_voltage_H msg' = u8 (getBatteryVoltage env ÷ 10) /\
  getEAM hdr EAM.main_voltage_H msg' = 0 /\
  getEAM hdr EAM.batt1_voltage_H msg' = 0.
Proof.
  intros L Hlen. cbv zeta. unfold pairEAM.
  rewrite <- (s32_mod (getAmperage env ÷ 10)), <- (s32_mod (getMAhDrawn env ÷ 10)).
  rewrite <- !pair_land, <- (u8_land (MAX 0 (climbrate3sRaw env))).
  rewrite <- (byte_pair_of_u8 (getBatteryVoltage env ÷ 10)).
  assert (Hhigh : u8 (Z.shiftr (u8 (getBatteryVoltage env ÷ 10)) 8) = 0).
  { rewrite Z.shiftr_div_pow2 by lia. pose proof (u8_range (getBatteryVoltage env ÷ 10)).
    arith. }
  unfold_eam.
  split_ifs; cbn [snd]; repeat split;
    try (f_equal; [| f_equal]; eam_read L Hlen);
    try eam_read L Hlen;
    (etransitivity; [| exact Hhigh]); eam_read L Hlen.
Qed.

Lemma hottPrepareEAMResponse_values_witness :
  let msg' := snd (hottPrepareEAMResponse sampleHeaders
                     (benchInputs 3000 BATTERY_OK 1000) 0
                     (hottEAMMessage (startedDriver sampleHeaders))) in
  pairEAM sampleHeaders EAM.altitude_L EAM.altitude_H msg' = 500 /\
  pairEAM sampleHeaders EAM.climbrate_L EAM.climbrate_H msg' = 30000 /\
  pairEAM sampleHeaders EAM.batt1_voltage_L EAM.batt1_voltage_H msg' = 44.
Proof.
  intros msg'.
  destruct (hottPrepareEAMResponse_values sampleHeaders (benchInputs 3000 BATTERY_OK 1000) 0
              (hottEAMMessage (startedDriver sampleHeaders)))
    as (_ & _ & W3 & W4 & _ & W6 & _); [exact sampleHeaders_EAMLayout | reflexivity |].
  split; [exact W3 |]. split; [exact W4 | exact W6].
Defined.

(** X11.  The battery alarm of the EAM record.  When the alarm interval has
    passed since [lastHottAlarmSoundTime], the population takes the time of
    the call as the new [lastHottAlarmSoundTime] and sets [warning_beeps]
    and [alarm_invers1] to 0x10 and the battery flag if the battery state is
    warning or critical, and both to HOTT_EAM_ALARM1_FLAG_NONE if not.  When
    the interval has not passed, it keeps [lastHottAlarmSoundTime] and
    leaves both members reset to 0, whatever the battery state. *)
Theorem hottPrepareEAMResponse_alarm hdr env last msg :
  EAMLayout hdr -> length msg = sizeof_EAM hdr ->
  let r := hottPrepareEAMResponse hdr env last msg in
  fst r = (if alarmCheckDue env last then millis env else last) /\
  getEAM hdr EAM.warning_beeps (snd r)
  = (if alarmCheckDue env last
     then if batteryLow env then 0x10 else u8 (HOTT_EAM_ALARM1_FLAG_NONE hdr)
     else 0) /\
  getEAM hdr EAM.alarm_invers1 (snd r)
  = (if alarmCheckDue env last
     then if batteryLow env then u8 (HOTT_EAM_ALARM1_FLAG_BATTERY_1 hdr)
          else u8 (HOTT_EAM_ALARM1_FLAG_NONE hdr)
     else 0).
Proof.
  intros L Hlen. cbv zeta. unfold_eam. unfold alarmCheckDue, batteryLow.
  destruct (_ >=? _); [destruct (getBatteryState env) |]; cbn [fst snd];
    (split; [reflexivity |]); split; eam_read L Hlen.
Qed.

Lemma hottPrepareEAMResponse_alarm_witness :
  let env := benchInputs 1050 BATTERY_CRITICAL 10000 in
  let r1 := hottPrepareEAMResponse sampleHeaders env 0
              (hottEAMMessage (startedDriver sampleHeaders)) in
  let r2 := hottPrepareEAMResponse sampleHeaders env (fst r1) (snd r1) in
  fst r1 = 10000 /\
  getEAM sampleHeaders EAM.warning_beeps (snd r1) = 0x10 /\
  getEAM sampleHeaders EAM.alarm_invers1 (snd r1) = 0x80 /\
  fst r2 = 10000 /\
  getEAM sampleHeaders EAM.warning_beeps (snd r2) = 0.
Proof.
  intros env r1 r2.
  destruct (hottPrepareEAMResponse_alarm sampleHeaders env 0
              (hottEAMMessage (startedDriver sampleHeaders)))
    as (W1 & W2 & W3); [exact sampleHeaders_EAMLayout | reflexivity |].
  destruct (hottPrepareEAMResponse_alarm sampleHeaders env (fst r1) (snd r1))
    as (W4 & W5 & _); [exact sampleHeaders_EAMLayout | reflexivity |].
  split; [exact W1 |]. split; [exact W2 |]. split; [exact W3 |].
  split; [exact W4 | exact W5].
Defined.

(** ** Requests in the receive FIFO *)

(** The call in which a request completes decodes it and goes on from the
    decoded driver, with passes left for everything behind the request. *)
Lemma request_reaches_decode hdr env now m a rest d :
  requestCompletes hdr now m a rest d ->
  exists fuel,
    (2 + length rest <= fuel)%nat /\
    handleHoTTTelemetry hdr env now d
    = hottStateLoop hdr fuel env now
        (decodeRequest hdr env now (set_rxFifo rest (received now m a d))).
Proof.
  intros (En & H). unfold handleHoTTTelemetry. rewrite En. cbn [negb].
  destruct H as [(Hs & Hf & Hrx) | (Hs & Ht & H)].
  - exists (2 + length rest)%nat. split; [lia |].
    rewrite Hf. cbn [length Nat.add].
    rewrite (hottStateLoop_again _ _ _ _ _ _ (hottStateStep_listening hdr env now _ _ d Hs Hf)).
    rewrite (hottStateLoop_again _ hdr env now _
               (decodeRequest hdr env now (set_rxFifo rest (received now m a d))));
      [reflexivity |].
    rewrite (hottStateStep_receiving_ahead hdr env now m a rest).
    + do 3 f_equal. unfold received. destruct d; cbn in *. subst. reflexivity.
    + destruct d; reflexivity.
    + destruct d; cbn. rewrite elapsedUs_same. exact Hrx.
    + left. destruct d; cbn in *. now split.
  - exists (1 + length (rxFifo d))%nat. split.
    + destruct H as [(_ & ->) | (_ & _ & ->)]; cbn [length]; lia.
    + change (2 + length (rxFifo d))%nat with (S (1 + length (rxFifo d))).
      now rewrite (hottStateLoop_again _ _ _ _ _ _
                     (hottStateStep_receiving_ahead hdr env now m a rest d Hs Ht H)).
Qed.

Lemma handleHoTTTelemetry_fuel hdr env now d fuel :
  hottTelemetryEnabled d = true -> (2 + length (rxFifo d) <= fuel)%nat ->
  hottStateLoop hdr fuel env now d = handleHoTTTelemetry hdr env now d.
Proof.
  intros En Hfuel. destruct (handleHoTTTelemetry_returns hdr env now d) as (d' & H).
  rewrite H. unfold handleHoTTTelemetry in H. rewrite En in H. cbn [negb] in H.
  now apply (hottStateLoop_more_fuel hdr env now _ fuel d d' H).
Qed.

(** X12.  Requests that wait one behind the other.  When the decode of a
    completed request sends the driver back to HOTT_WAITING_FOR_REQUEST (an
    address it does not serve, a text command it rejects, an unrecognised
    first byte), the call does not return: it goes on exactly as a call on
    the decoded driver would, so the next request in the receive FIFO is
    handled in the same call.  When the decode arms a response, the call
    returns at once and the bytes behind the request stay in the FIFO. *)
Theorem requests_back_to_back hdr env now m a rest d :
  requestCompletes hdr now m a rest d ->
  let d1 := decodeRequest hdr env now (set_rxFifo rest (received now m a d)) in
  (hottState d1 = HOTT_WAITING_FOR_REQUEST \/ hottState d1 = HOTT_WAITING_FOR_TX_WINDOW) /\
  (hottState d1 = HOTT_WAITING_FOR_REQUEST ->
   handleHoTTTelemetry hdr env now d = handleHoTTTelemetry hdr env now d1) /\
  (hottState d1 = HOTT_WAITING_FOR_TX_WINDOW ->
   handleHoTTTelemetry hdr env now d = Some d1 /\
   (m = 0 \/ m = HOTT_BINARY_MODE_REQUEST_ID \/ m = HOTT_TEXT_MODE_REQUEST_ID) /\
   rxFifo d1 = rest).
Proof.
  intros H. cbv zeta.
  destruct (request_reaches_decode hdr env now m a rest d H) as (fuel & Hfuel & E).
  set (D := set_rxFifo rest (received now m a d)) in *.
  destruct (received_fields now m a d) as (Hb & _ & Hs & _).
  assert (HD : hottState D = HOTT_RECEIVING_REQUEST /\ rxFifo D = rest /\
               hottTelemetryEnabled D = true /\ hottRequestBuffer D = (m, a)).
  { destruct H as (En & _).
    destruct (received_fields now m a d) as (? & _ & ? & _ & _ & _ & _ & _ & _ & _ & He).
    subst D. destruct (received now m a d); cbn in *. repeat split; congruence. }
  destruct HD as (HsD & HfD & HeD & HbD).
  destruct (decodeRequest_after hdr env now D HsD) as (S1 & C1 & F1 & _ & E1 & _).
  split; [exact S1 |]. split.
  - intros _. rewrite E. apply handleHoTTTelemetry_fuel; [congruence |].
    rewrite HfD in F1. lia.
  - intros Hw. split; [| split].
    + rewrite E. destruct fuel as [| fuel]; [lia |].
      apply idle_or_window_stops. right. now split.
    + revert Hw. unfold decodeRequest. rewrite HbD. cbn [fst snd].
      destruct (Z.eqb_spec m 0); [auto |].
      destruct (Z.eqb_spec m HOTT_BINARY_MODE_REQUEST_ID); [auto |].
      destruct (Z.eqb_spec m HOTT_TEXT_MODE_REQUEST_ID); [auto |].
      cbn [orb].
      assert (Hs' : hottState (flushHottRxBuffer D) = HOTT_RECEIVING_REQUEST)
        by (destruct D; exact HsD).
      rewrite (hottSwitchState_from _ _ now _ Hs') by reflexivity.
      destruct (flushHottRxBuffer D); discriminate.
    + revert Hw. unfold decodeRequest, binaryModeBranch.
      pose proof (processBinaryModeRequest_frame hdr env (snd (hottRequestBuffer D)) D) as FB.
      pose proof (processHottTextModeRequest_frame hdr env (snd (hottRequestBuffer D)) D) as FT.
      destruct (processBinaryModeRequest hdr env (snd (hottRequestBuffer D)) D) as [okb db].
      destruct (processHottTextModeRequest hdr env (snd (hottRequestBuffer D)) D) as [okt dt].
      cbn [snd] in FB, FT.
      destruct FB as (B1 & _ & B3 & _). destruct FT as (T1 & _ & T3 & _).
      rewrite HsD in B1, T1.
      assert (Hs' : hottState (flushHottRxBuffer D) = HOTT_RECEIVING_REQUEST)
        by (destruct D; exact HsD).
      split_ifs;
        first [ rewrite (hottSwitchState_from _ _ now _ B1) by reflexivity
              | rewrite (hottSwitchState_from _ _ now _ T1) by reflexivity
              | rewrite (hottSwitchState_from _ _ now _ Hs') by reflexivity
              | rewrite (hottSwitchState_from _ _ now _ HsD) by reflexivity ];
        cbn; try discriminate; intros _; congruence.
Qed.

Lemma requests_back_to_back_witness :
  exists d',
    handleHoTTTelemetry sampleHeaders benchEnv 10000 (startedWith [0x80; 0x55; 0x80; 0x8E])
    = Some d' /\
    hottState d' = HOTT_WAITING_FOR_TX_WINDOW /\
    hottTxMsg d' = Some {| base := EAMMessage; offset := 0 |} /\
    handleHoTTTelemetry sampleHeaders benchEnv 10000 (startedWith [0x80; 0x55; 0x80; 0x8E])
    = handleHoTTTelemetry sampleHeaders benchEnv 10000
        (decodeRequest sampleHeaders benchEnv 10000
           (set_rxFifo [0x80; 0x8E]
              (received 10000 0x80 0x55 (startedWith [0x80; 0x55; 0x80; 0x8E])))).
Proof.
  eexists. split; [vm_compute; reflexivity |]. split; [reflexivity |].
  split; [reflexivity |].
  destruct (requests_back_to_back sampleHeaders benchEnv 10000 0x80 0x55 [0x80; 0x8E]
              (startedWith [0x80; 0x55; 0x80; 0x8E])) as (_ & W & _).
  - apply startedWith_requestCompletes.
  - apply W. reflexivity.
Defined.

(** ** A request that arrives byte by byte *)

Lemma processBinaryModeRequest_stamp hdr env a s d :
  processBinaryModeRequest hdr env a (set_hottStateChangeUs s d)
  = (fst (processBinaryModeRequest hdr env a d),
     set_hottStateChangeUs s (snd (processBinaryModeRequest hdr env a d))).
Proof.
  remember (hottPrepareEAMResponse hdr env (lastHottAlarmSoundTime d) (hottEAMMessage d))
    as r eqn:Hr in *.
  destruct r as [last1 msg1].
  unfold processBinaryModeRequest, hottQueueSendResponse, hottTextmodeStop.
  normalise_with Hr; reflexivity.
Qed.

Lemma processHottTextModeRequest_stamp hdr env cmd s d :
  processHottTextModeRequest hdr env cmd (set_hottStateChangeUs s d)
  = (fst (processHottTextModeRequest hdr env cmd d),
     set_hottStateChangeUs s (snd (processHottTextModeRequest hdr env cmd d))).
Proof.
  unfold processHottTextModeRequest, hottQueueSendResponse, hottTextmodeStart.
  crunch; reflexivity.
Qed.

Lemma hottSwitchState_stamp s' now s d :
  hottState d = HOTT_RECEIVING_REQUEST ->
  hottState_eqb HOTT_RECEIVING_REQUEST s' = false ->
  hottSwitchState s' now (set_hottStateChangeUs s d) = hottSwitchState s' now d.
Proof.
  intros Hs Hne.
  rewrite (hottSwitchState_from HOTT_RECEIVING_REQUEST s' now d Hs Hne).
  rewrite (hottSwitchState_from HOTT_RECEIVING_REQUEST s' now (set_hottStateChangeUs s d))
    by (destruct d; first [exact Hs | exact Hne]).
  now destruct d.
Qed.

(** The decode does not look at the time at which the driver began to
    receive. *)
Lemma decodeRequest_stamp hdr env now s d :
  hottState d = HOTT_RECEIVING_REQUEST ->
  decodeRequest hdr env now (set_hottStateChangeUs s d) = decodeRequest hdr env now d.
Proof.
  intros Hs. unfold decodeRequest, binaryModeBranch.
  assert (Hb : hottRequestBuffer (set_hottStateChangeUs s d) = hottRequestBuffer d)
    by now destruct d.
  rewrite Hb, processBinaryModeRequest_stamp, processHottTextModeRequest_stamp.
  pose proof (processBinaryModeRequest_frame hdr env (snd (hottRequestBuffer d)) d) as FB.
  pose proof (processHottTextModeRequest_frame hdr env (snd (hottRequestBuffer d)) d) as FT.
  destruct (processBinaryModeRequest hdr env (snd (hottRequestBuffer d)) d) as [okb db].
  destruct (processHottTextModeRequest hdr env (snd (hottRequestBuffer d)) d) as [okt dt].
  cbn [fst snd] in *.
  destruct FB as (B1 & _). destruct FT as (T1 & _). rewrite Hs in B1, T1.
  assert (Hf : flushHottRxBuffer (set_hottStateChangeUs s d)
               = set_hottStateChangeUs s (flushHottRxBuffer d)) by now destruct d.
  assert (Hsf : hottState (flushHottRxBuffer d) = HOTT_RECEIVING_REQUEST)
    by (destruct d; exact Hs).
  rewrite Hf.
  split_ifs; apply hottSwitchState_stamp; first [assumption | reflexivity].
Qed.

(** X13.  A request may arrive in two pieces.  When the driver is listening
    with nothing in the FIFO, the first byte arrives before one call and the
    second before a later call, less than the request timeout after the
    first, the driver is after the second call exactly where a single call
    at that time with both bytes waiting would have left it: the decode does
    not depend on when the first byte came. *)
Theorem request_in_two_pieces hdr env1 env2 t1 t2 m a d :
  hottTelemetryEnabled d = true ->
  hottState d = HOTT_WAITING_FOR_REQUEST ->
  rxFifo d = [] ->
  0 < rxSchedule d ->
  elapsedUs hdr t2 t1 < rxSchedule d ->
  runPolls hdr
    [ {| poll_env := env1; poll_time := t1; poll_arrived := [m] |};
      {| poll_env := env2; poll_time := t2; poll_arrived := [a] |} ] d
  = runPolls hdr [ {| poll_env := env2; poll_time := t2; poll_arrived := [m; a] |} ] d.
Proof.
  intros En Hs Hf Hrx Ht. cbn [runPolls poll_env poll_time poll_arrived].
  set (d1 := set_hottRequestBufferPtr 1%nat
               (set_hottRequestBuffer (m, snd (hottRequestBuffer d))
                  (set_hottStateChangeUs t1
                     (set_hottState HOTT_RECEIVING_REQUEST d)))).
  assert (H1 : handleHoTTTelemetry hdr env1 t1 (serialReceive [m] d) = Some d1).
  { assert (S0 : hottState (serialReceive [m] d) = HOTT_WAITING_FOR_REQUEST)
      by (destruct d; exact Hs).
    assert (F0 : rxFifo (serialReceive [m] d) = [m])
      by (destruct d; cbn in *; subst; reflexivity).
    assert (E0 : hottTelemetryEnabled (serialReceive [m] d) = true) by now destruct d.
    unfold handleHoTTTelemetry. rewrite E0, F0. cbn [negb length Nat.add].
    rewrite (hottStateLoop_again _ _ _ _ _ _
               (hottStateStep_listening hdr env1 t1 m [] _ S0 F0)).
    apply hottStateLoop_stop. unfold hottStateStep, receiveRequestBytes, serialReceive.
    destruct d as [rxS ? ? ? ? ? ? ? ? ? ? ? ? ? ? ? ? [b0 b1] ? ? ? ?]; cbn in *. subst.
    rewrite elapsedUs_same.
    destruct (Z.geb_spec 0 rxS); [lia |]. reflexivity. }
  rewrite H1.
  assert (R2 : requestArrives hdr t2 m a (serialReceive [a] d1)).
  { split; [subst d1; now destruct d |]. right.
    subst d1. destruct d; cbn in *. subst. repeat split; auto. }
  assert (R : requestArrives hdr t2 m a (serialReceive [m; a] d)).
  { split; [now destruct d |]. left. destruct d; cbn in *. subst. repeat split; auto. }
  rewrite (handleHoTTTelemetry_request hdr env2 t2 m a _ R2).
  rewrite (handleHoTTTelemetry_request hdr env2 t2 m a _ R).
  f_equal.
  replace (received t2 m a (serialReceive [a] d1))
    with (set_hottStateChangeUs t1 (received t2 m a (serialReceive [m; a] d)))
    by (subst d1; unfold received; destruct d; cbn in *; subst; reflexivity).
  apply decodeRequest_stamp. apply received_fields.
Qed.

Lemma request_in_two_pieces_witness :
  exists d',
    runPolls sampleHeaders
      [ {| poll_env := benchEnv; poll_time := 10000; poll_arrived := [0x80] |};
        {| poll_env := benchEnv; poll_time := 13000; poll_arrived := [0x8E] |} ]
      (startedDriver sampleHeaders) = Some d' /\
    hottState d' = HOTT_WAITING_FOR_TX_WINDOW /\
    hottStateChangeUs d' = 13000 /\
    runPolls sampleHeaders
      [ {| poll_env := benchEnv; poll_time := 13000; poll_arrived := [0x80; 0x8E] |} ]
      (startedDriver sampleHeaders) = Some d'.
Proof.
  eexists. split; [vm_compute; reflexivity |]. split; [reflexivity |].
  split; [reflexivity |].
  rewrite <- (request_in_two_pieces sampleHeaders benchEnv benchEnv 10000 13000 0x80 0x8E
                (startedDriver sampleHeaders)).
  - vm_compute; reflexivity.
  - reflexivity.
  - reflexivity.
  - reflexivity.
  - vm_compute; reflexivity.
  - vm_compute; reflexivity.
Defined.

(** ** The end of a transmission *)

(** X14.  After the checksum the driver stays in HOTT_ENDING_TRANSMISSION
    until [txDelayUs] has passed since it was sent: a call before that
    changes nothing.  The first call after it drops everything that has
    arrived in the meantime, the echo of the response on a shared line
    included, and returns with the driver in HOTT_WAITING_FOR_REQUEST, the
    response queue and everything written as they were. *)
Theorem transmission_ends hdr env now arrived d :
  hottTelemetryEnabled d = true ->
  hottState d = HOTT_ENDING_TRANSMISSION ->
  handleHoTTTelemetry hdr env now (serialReceive arrived d)
  = Some (if elapsedUs hdr now (hottStateChangeUs d) <? txDelayUs d
          then serialReceive arrived d
          else set_hottStateChangeUs now
                 (set_hottState HOTT_WAITING_FOR_REQUEST (set_rxFifo [] d))).
Proof.
  intros En Hs.
  assert (HD : hottTelemetryEnabled (serialReceive arrived d) = true /\
               hottState (serialReceive arrived d) = HOTT_ENDING_TRANSMISSION /\
               hottStateChangeUs (serialReceive arrived d) = hottStateChangeUs d /\
               txDelayUs (serialReceive arrived d) = txDelayUs d)
    by (destruct d; cbn in *; auto).
  destruct HD as (E0 & S0 & C0 & T0).
  unfold handleHoTTTelemetry. rewrite E0. cbn [negb].
  change (2 + length (rxFifo (serialReceive arrived d)))%nat
    with (S (S (length (rxFifo (serialReceive arrived d))))).
  rewrite hottStateLoop_S. unfold hottStateStep. rewrite S0, C0, T0.
  destruct (Z.geb_spec (elapsedUs hdr now (hottStateChangeUs d)) (txDelayUs d));
    destruct (Z.ltb_spec (elapsedUs hdr now (hottStateChangeUs d)) (txDelayUs d)); try lia.
  - unfold flushHottRxBuffer. rewrite flushLoop_nil.
    replace (hottSwitchState HOTT_WAITING_FOR_REQUEST now
               (set_rxFifo [] (serialReceive arrived d)))
      with (set_hottStateChangeUs now
              (set_hottState HOTT_WAITING_FOR_REQUEST (set_rxFifo [] d)))
      by (unfold hottSwitchState, serialReceive; destruct d; cbn in *; subst; reflexivity).
    apply idle_or_window_stops. left. now destruct d.
  - reflexivity.
Qed.

Lemma transmission_ends_witness :
  let d := set_hottStateChangeUs 110000
             (set_hottState HOTT_ENDING_TRANSMISSION (startedDriver sampleHeaders)) in
  handleHoTTTelemetry sampleHeaders benchEnv 111000 (serialReceive [0x7C; 0x8E] d)
  = Some (serialReceive [0x7C; 0x8E] d) /\
  handleHoTTTelemetry sampleHeaders benchEnv 112000 (serialReceive [0x7C; 0x8E] d)
  = Some (set_hottStateChangeUs 112000
            (set_hottState HOTT_WAITING_FOR_REQUEST (set_rxFifo [] d))).
Proof.
  intros d. split.
  - rewrite (transmission_ends sampleHeaders benchEnv 111000 [0x7C; 0x8E] d);
      reflexivity.
  - rewrite (transmission_ends sampleHeaders benchEnv 112000 [0x7C; 0x8E] d);
      reflexivity.
Defined.

(** ** Text mode *)

(** X15.  A completed text-mode request, where text mode is compiled in.
    Whatever the command byte, the call leaves text mode alive; if it was
    not, the driver takes the text-mode timing (5000 and 1000 microseconds),
    keeps the period of the telemetry task and asks the scheduler for the
    text-mode period.  A command whose high nibble is the text id of the EAM
    sensor arms the whole text record and the driver waits for its transmit
    window; any other command arms nothing and changes no record, and the
    driver is back in HOTT_WAITING_FOR_REQUEST.  In both cases the GPS and
    EAM records and the bytes written so far are as before. *)
Theorem text_request hdr env now cmd d :
  USE_HOTT_TEXTMODE_AND_CMS hdr = true ->
  requestArrives hdr now HOTT_TEXT_MODE_REQUEST_ID cmd d ->
  exists d',
    handleHoTTTelemetry hdr env now d = Some d' /\
    textmodeIsAlive d' = true /\
    (textmodeIsAlive d = false ->
     rxSchedule d' = HOTT_TEXTMODE_RX_SCHEDULE /\
     txDelayUs d' = HOTT_TEXTMODE_TX_DELAY_US /\
     telemetryTaskPeriod d' = s32 (taskInfo_desiredPeriod env) /\
     In (rescheduleTask (TASK_PERIOD_HZ hdr HOTT_TEXTMODE_TASK_PERIOD)) (externCalls d')) /\
    hottGPSMessage d' = hottGPSMessage d /\
    hottEAMMessage d' = hottEAMMessage d /\
    txLog d' = txLog d /\
    (Z.land cmd 0xF0 = HOTT_EAM_SENSOR_TEXT_ID hdr ->
     hottState d' = HOTT_WAITING_FOR_TX_WINDOW /\
     hottStateChangeUs d' = now /\
     hottTxMsg d' = Some {| base := TextModeMessage; offset := 0 |} /\
     hottTxMsgSize d' = u8 (Z.of_nat (sizeof_TXT hdr))) /\
    (Z.land cmd 0xF0 <> HOTT_EAM_SENSOR_TEXT_ID hdr ->
     hottState d' = HOTT_WAITING_FOR_REQUEST /\
     responseQueue d' = responseQueue d /\
     hottTextModeMessage d' = hottTextModeMessage d).
Proof.
  intros U H. eexists. split; [apply (handleHoTTTelemetry_request _ _ _ _ _ _ H) |].
  destruct (received_fields now HOTT_TEXT_MODE_REQUEST_ID cmd d)
    as (Hb & Hf & Hs & Hq & Hg & He & Ht & Hl & _).
  assert (Ha : textmodeIsAlive (received now HOTT_TEXT_MODE_REQUEST_ID cmd d)
               = textmodeIsAlive d)
    by (unfold received; destruct d; cbn; destruct (hottState_eqb _ _); reflexivity).
  unfold decodeRequest. rewrite Hb, U. cbn [fst snd].
  change (HOTT_TEXT_MODE_REQUEST_ID =? 0) with false.
  change (HOTT_TEXT_MODE_REQUEST_ID =? HOTT_BINARY_MODE_REQUEST_ID) with false.
  change (HOTT_TEXT_MODE_REQUEST_ID =? HOTT_TEXT_MODE_REQUEST_ID) with true.
  cbn [orb].
  unfold processHottTextModeRequest, hottQueueSendResponse, hottTextmodeStart, hottSwitchState,
    responseQueue in *.
  destruct (received now HOTT_TEXT_MODE_REQUEST_ID cmd d);
    cbn in Hf, Hs, Hq, Hg, He, Ht, Hl, Ha; subst.
  destruct (Z.eqb_spec (Z.land cmd 0xF0) (HOTT_EAM_SENSOR_TEXT_ID hdr)) as [Hc | Hc];
    destruct (textmodeIsAlive d) eqn:Halive;
    crunch; repeat split; try congruence; try contradiction; intros;
    try (rewrite !in_app_iff; cbn [In]; tauto);
    auto.
Qed.

Lemma text_request_witness :
  exists d1 d2,
    handleHoTTTelemetry sampleHeaders benchEnv 10000 (startedWith [0x7F; 0xE1]) = Some d1 /\
    hottState d1 = HOTT_WAITING_FOR_TX_WINDOW /\
    hottTxMsgSize d1 = 172 /\
    rxSchedule d1 = 5000 /\
    handleHoTTTelemetry sampleHeaders benchEnv 10000 (startedWith [0x7F; 0xA1]) = Some d2 /\
    hottState d2 = HOTT_WAITING_FOR_REQUEST /\
    textmodeIsAlive d2 = true.
Proof.
  destruct (text_request sampleHeaders benchEnv 10000 0xE1 (startedWith [0x7F; 0xE1]))
    as (d1 & W1 & _ & W2 & _ & _ & _ & W3 & _);
    [reflexivity | apply startedWith_requestArrives |].
  destruct (text_request sampleHeaders benchEnv 10000 0xA1 (startedWith [0x7F; 0xA1]))
    as (d2 & W4 & W5 & _ & _ & _ & _ & _ & W6);
    [reflexivity | apply startedWith_requestArrives |].
  destruct (W2 eq_refl) as (W7 & _).
  destruct (W3 eq_refl) as (W8 & _ & _ & W9).
  destruct W6 as (W10 & _); [vm_compute; discriminate |].
  exists d1, d2. repeat split; assumption.
Defined.

(** X16.  A completed binary-mode request ends text mode, whatever its
    address: after the call text mode is not alive and the driver has the
    binary-mode timing (4000 and 2000 microseconds).  If text mode was alive
    and had kept a positive task period, the scheduler is asked for that
    period again, once, and the kept period is cleared; a period that is not
    positive is not given back. *)
Theorem binary_request_ends_textmode hdr env now m a d :
  USE_HOTT_TEXTMODE_AND_CMS hdr = true ->
  requestArrives hdr now m a d ->
  m = 0 \/ m = HOTT_BINARY_MODE_REQUEST_ID ->
  textmodeIsAlive d = true ->
  exists d',
    handleHoTTTelemetry hdr env now d = Some d' /\
    textmodeIsAlive d' = false /\
    rxSchedule d' = HOTT_RX_SCHEDULE /\
    txDelayUs d' = HOTT_TX_DELAY_US /\
    externCalls d'
    = externCalls d
      ++ (if 0 <? telemetryTaskPeriod d then [rescheduleTask (telemetryTaskPeriod d)] else []) /\
    telemetryTaskPeriod d' = (if 0 <? telemetryTaskPeriod d then 0 else telemetryTaskPeriod d).
Proof.
  intros U H Hm Halive. eexists. split.
  - rewrite (handleHoTTTelemetry_request _ _ _ _ _ _ H). now rewrite decodeRequest_binary.
  - assert (Hr : textmodeIsAlive (received now m a d) = true /\
                 externCalls (received now m a d) = externCalls d /\
                 telemetryTaskPeriod (received now m a d) = telemetryTaskPeriod d).
    { unfold received. destruct d; cbn in *. destruct (hottState_eqb _ _); auto. }
    destruct Hr as (R1 & R2 & R3).
    assert (Hq : forall d0,
      textmodeIsAlive d0 = true ->
      let d' := snd (processBinaryModeRequest hdr env (snd (hottRequestBuffer d0)) d0) in
      textmodeIsAlive d' = false /\ rxSchedule d' = HOTT_RX_SCHEDULE /\
      txDelayUs d' = HOTT_TX_DELAY_US /\
      externCalls d'
      = externCalls d0
        ++ (if 0 <? telemetryTaskPeriod d0 then [rescheduleTask (telemetryTaskPeriod d0)]
            else []) /\
      telemetryTaskPeriod d'
      = (if 0 <? telemetryTaskPeriod d0 then 0 else telemetryTaskPeriod d0)).
    { intros d0 H0. cbv zeta.
      remember (hottPrepareEAMResponse hdr env (lastHottAlarmSoundTime d0) (hottEAMMessage d0))
        as r eqn:Hr in *.
      destruct r as [last1 msg1].
      unfold processBinaryModeRequest, hottQueueSendResponse, hottTextmodeStop.
      rewrite U, H0. cbn [andb].
      normalise_with Hr; rewrite ?app_nil_r; repeat split; reflexivity. }
    specialize (Hq _ R1). cbv zeta in Hq. rewrite R2, R3 in Hq.
    unfold binaryModeBranch.
    destruct (processBinaryModeRequest hdr env _ (received now m a d)) as [ok db].
    cbn [snd] in Hq. destruct Hq as (Q1 & Q2 & Q3 & Q4 & Q5).
    destruct ok; unfold hottSwitchState; destruct (hottState_eqb _ _);
      destruct db; cbn in *; subst; repeat split; reflexivity.
Qed.

Lemma binary_request_ends_textmode_witness :
  exists d1 d2,
    handleHoTTTelemetry sampleHeaders benchEnv 10000 (startedWith [0x7F; 0xA1]) = Some d1 /\
    telemetryTaskPeriod d1 = 2000 /\
    handleHoTTTelemetry sampleHeaders benchEnv 20000 (serialReceive [0x80; 0x8E] d1)
    = Some d2 /\
    textmodeIsAlive d2 = false /\
    rxSchedule d2 = 4000 /\
    externCalls d2
    = [hottDisplayportRegister; rescheduleTask 1000; rescheduleTask 2000].
Proof.
  eexists. 
  destruct (binary_request_ends_textmode sampleHeaders benchEnv 20000 0x80 0x8E
              (serialReceive [0x80; 0x8E]
                 (decodeRequest sampleHeaders benchEnv 10000
                    (received 10000 0x7F 0xA1 (startedWith [0x7F; 0xA1])))))
    as (d2 & W1 & W2 & W3 & _ & W4 & _).
  - reflexivity.
  - split; [reflexivity |]. left. repeat split; try reflexivity.
  - right; reflexivity.
  - reflexivity.
  - exists d2. split; [vm_compute; reflexivity |]. split; [reflexivity |].
    split; [exact W1 |]. split; [exact W2 |]. split; [exact W3 |]. exact W4.
Defined.

(** ** The transmitter stays inside the record *)


(** A property that the arrival of bytes and every transition keep is kept
    by every run of the driver. *)
Lemma runPolls_invariant (I : Driver -> Prop) hdr :
  (forall bytes d, I d -> I (serialReceive bytes d)) ->
  (forall env now d d' re, I d -> Transition hdr env now d d' re -> I d') ->
  forall polls d d', I d -> runPolls hdr polls d = Some d' -> I d'.
Proof.
  intros Hrecv Hstep.
  induction polls as [| p polls IH]; intros d d' H R; cbn [runPolls] in R.
  - now injection R as <-.
  - destruct (handleHoTTTelemetry hdr (poll_env p) (poll_time p)
                (serialReceive (poll_arrived p) d)) as [d1 |] eqn:E; [| discriminate R].
    apply (IH d1); [| exact R].
    apply (handleHoTTTelemetry_rule I I hdr _ _ _ d1
             (fun _ => Hrecv _ _ H) (fun _ => Hrecv _ _ H)
             (fun d1 d2 => Hstep _ _ d1 d2 true) (fun d1 d2 => Hstep _ _ d1 d2 false) E).
Qed.

Lemma processBinaryModeRequest_armed hdr env a d :
  fst (processBinaryModeRequest hdr env a d) = true ->
  exists b,
    hottTxMsg (snd (processBinaryModeRequest hdr env a d))
    = Some {| base := b; offset := 0 |} /\
    hottTxMsgSize (snd (processBinaryModeRequest hdr env a d))
    = u8 (Z.of_nat (sizeofBuffer hdr b)).
Proof.
  remember (hottPrepareEAMResponse hdr env (lastHottAlarmSoundTime d) (hottEAMMessage d))
    as r eqn:Hr in *.
  destruct r as [last1 msg1].
  unfold processBinaryModeRequest, hottQueueSendResponse, hottTextmodeStop.
  normalise_with Hr; intros H; try discriminate H;
    first [ exists GPSMessage; split; reflexivity | exists EAMMessage; split; reflexivity ].
Qed.

Lemma processHottTextModeRequest_armed hdr env cmd d :
  fst (processHottTextModeRequest hdr env cmd d) = true ->
  hottTxMsg (snd (processHottTextModeRequest hdr env cmd d))
  = Some {| base := TextModeMessage; offset := 0 |} /\
  hottTxMsgSize (snd (processHottTextModeRequest hdr env cmd d))
  = u8 (Z.of_nat (sizeofBuffer hdr TextModeMessage)).
Proof.
  unfold processHottTextModeRequest, hottQueueSendResponse, hottTextmodeStart.
  crunch; intros H; try discriminate H; split; reflexivity.
Qed.

Lemma hottSwitchState_queue s now d :
  hottTxMsg (hottSwitchState s now d) = hottTxMsg d /\
  hottTxMsgSize (hottSwitchState s now d) = hottTxMsgSize d.
Proof. unfold hottSwitchState. destruct (hottState_eqb _ _); now destruct d. Qed.

(** A decode that leaves the driver waiting for its transmit window has
    armed a whole record. *)
Lemma decodeRequest_armed hdr env now d :
  hottState d = HOTT_RECEIVING_REQUEST ->
  hottState (decodeRequest hdr env now d) = HOTT_WAITING_FOR_TX_WINDOW ->
  exists b,
    hottTxMsg (decodeRequest hdr env now d) = Some {| base := b; offset := 0 |} /\
    hottTxMsgSize (decodeRequest hdr env now d) = u8 (Z.of_nat (sizeofBuffer hdr b)).
Proof.
  intros Hs. unfold decodeRequest, binaryModeBranch.
  pose proof (processBinaryModeRequest_frame hdr env (snd (hottRequestBuffer d)) d) as FB.
  pose proof (processHottTextModeRequest_frame hdr env (snd (hottRequestBuffer d)) d) as FT.
  pose proof (processBinaryModeRequest_armed hdr env (snd (hottRequestBuffer d)) d) as AB.
  pose proof (processHottTextModeRequest_armed hdr env (snd (hottRequestBuffer d)) d) as AT.
  destruct (processBinaryModeRequest hdr env (snd (hottRequestBuffer d)) d) as [okb db].
  destruct (processHottTextModeRequest hdr env (snd (hottRequestBuffer d)) d) as [okt dt].
  cbn [fst snd] in *.
  destruct FB as (B1 & _). destruct FT as (T1 & _). rewrite Hs in B1, T1.
  assert (Hf : hottState (flushHottRxBuffer d) = HOTT_RECEIVING_REQUEST)
    by (destruct d; exact Hs).
  assert (Hidle : forall d0, hottState d0 = HOTT_RECEIVING_REQUEST ->
            hottState (hottSwitchState HOTT_WAITING_FOR_REQUEST now d0)
            <> HOTT_WAITING_FOR_TX_WINDOW).
  { intros d0 H0. rewrite (hottSwitchState_from _ _ now _ H0) by reflexivity.
    destruct d0; discriminate. }
  split_ifs; intros Hw;
    try (exfalso; revert Hw; apply Hidle; assumption).
  - destruct (AB eq_refl) as (b & A1 & A2). exists b.
    destruct (hottSwitchState_queue HOTT_WAITING_FOR_TX_WINDOW now db) as (-> & ->). auto.
  - destruct (AT eq_refl) as (A1 & A2). exists TextModeMessage.
    destruct (hottSwitchState_queue HOTT_WAITING_FOR_TX_WINDOW now dt) as (-> & ->). auto.
Qed.

Lemma QueueInBounds_Transition hdr env now d d' re :
  (forall b, (sizeofBuffer hdr b < 256)%nat) ->
  QueueInBounds hdr d -> Transition hdr env now d d' re -> QueueInBounds hdr d'.
Proof.
  intros Hsize I T. unfold QueueInBounds in *.
  destruct T as [Hs Hf | Hs Hf | Hs Ht | Hs Ht Hp | Hs Ht Hp | Hs Ht | Hs Ht
                | d1 Hs E | d1 Hs E | Hs Ht | Hs Ht].
  - exact I.
  - now destruct d.
  - now destruct d.
  - destruct (receiveRequestBytes_frame d) as (-> & _). now rewrite Hs.
  - destruct (receiveRequestBytes_frame d) as (F1 & _). rewrite Hs in F1.
    destruct (decodeRequest_after hdr env now _ F1) as ([S1 | S1] & _); rewrite S1;
      [exact Logic.I |].
    destruct (decodeRequest_armed hdr env now _ F1 S1) as (b & A1 & A2).
    exists {| base := b; offset := 0 |}. rewrite A1, A2.
    rewrite u8_small by (specialize (Hsize b); lia).
    cbn [offset base]. repeat split; lia.
  - exact I.
  - rewrite Hs in I. destruct d; cbn in *. exact I.
  - pose proof (hottSendTelemetryDataByte_frame hdr now d) as F. rewrite E in F.
    cbn [snd] in F. destruct F as (F1 & _). rewrite F1, Hs. rewrite Hs in I.
    destruct I as (p & I1 & I2 & I3).
    revert E. unfold hottSendTelemetryDataByte, hottSerialWrite.
    destruct (_ <? _); [intros [= <-]; eauto |].
    destruct (Z.eqb_spec (hottTxMsgSize d) 0); [discriminate |].
    intros [= <-]. exists {| base := base p; offset := S (offset p) |}.
    assert (Hu : u8 (hottTxMsgSize d - 1) = hottTxMsgSize d - 1).
    { apply u8_small. specialize (Hsize (base p)). lia. }
    destruct d; cbn in *. subst. rewrite Hu. cbn. repeat split; lia.
  - now destruct d1.
  - exact I.
  - now destruct d.
Qed.

Lemma recordLengths_kept hdr :
  forall polls d d',
    recordLengths hdr d -> runPolls hdr polls d = Some d' -> recordLengths hdr d'.
Proof.
  apply (runPolls_settings_invariant (recordLengths hdr)).
  - intros d d' E. apply settings_fields in E.
    destruct E as (_ & _ & _ & _ & _ & _ & _ & E1 & E2 & E3).
    intros H b. specialize (H b). destruct b; cbn in *; congruence.
  - intros env a d H.
    destruct (processBinaryModeRequest_records hdr env a d) as (E1 & E2 & E3).
    pose proof (H GPSMessage) as HG. pose proof (H EAMMessage) as HE.
    pose proof (H TextModeMessage) as HT. cbn in HG, HE, HT.
    intros []; cbn.
    + destruct E3 as [-> | ->]; [| rewrite length_hottPrepareGPSResponse]; exact HG.
    + destruct E2 as [-> | ->]; [| rewrite length_hottPrepareEAMResponse]; exact HE.
    + now rewrite E1.
  - intros env cmd d _ H.
    destruct (processHottTextModeRequest_records hdr env cmd d) as (E1 & E2).
    pose proof (H GPSMessage) as HG. pose proof (H EAMMessage) as HE.
    pose proof (H TextModeMessage) as HT. cbn in HG, HE, HT.
    intros []; cbn; [now rewrite E2 | now rewrite E1 |].
    unfold processHottTextModeRequest, hottQueueSendResponse, hottTextmodeStart.
    crunch; unfold setTXT; rewrite ?length_store; exact HT.
Qed.

Lemma startedDriver_recordLengths hdr : recordLengths hdr (startedDriver hdr).
Proof.
  assert (HE := length_initialise hdr (memset0 (sizeof_EAM hdr)) (sizeof_EAM hdr)).
  assert (HG := length_initialise hdr (memset0 (sizeof_GPS hdr)) (sizeof_GPS hdr)).
  unfold memset0 in *. rewrite !length_replicate in *.
  destruct HE as (HE & _); [lia |]. destruct HG as (_ & HG); [lia |].
  unfold startedDriver, configureHoTTTelemetryPort, initHoTTTelemetry, initialiseMessages,
    initialDriver, initialiseTextmodeMessage, setTXT, memset0.
  destruct (USE_HOTT_TEXTMODE_AND_CMS hdr), (USE_GPS hdr); intros []; cbn;
    rewrite ?length_store, ?length_replicate; auto.
Qed.

(** X17.  The byte transmitter never reads outside the record it is
    sending.  From start-up on and through every run of calls, whatever
    arrives on the line: while the driver waits for its transmit window or
    transmits, [hottTxMsg] points into one of the three records, and the
    bytes left to send end exactly at the end of that record; so whenever a
    byte of the record is still to be sent the pointer is inside the
    record.  This needs no more than records that fit the 8-bit counter
    [hottTxMsgSize]. *)
Theorem transmitter_in_bounds hdr polls d' :
  (forall b, (sizeofBuffer hdr b < 256)%nat) ->
  runPolls hdr polls (startedDriver hdr) = Some d' ->
  QueueInBounds hdr d' /\
  (hottState d' = HOTT_TRANSMITTING -> hottTxMsgSize d' <> 0 ->
   exists p, hottTxMsg d' = Some p /\ (offset p < length (bufferOf (base p) d'))%nat).
Proof.
  intros Hsize R.
  assert (Q : QueueInBounds hdr d').
  { apply (runPolls_invariant (QueueInBounds hdr) hdr) with (polls := polls)
                                                           (d := startedDriver hdr).
    - intros bytes d. unfold QueueInBounds. now destruct d.
    - intros env now d1 d2 re. now apply QueueInBounds_Transition.
    - unfold QueueInBounds, startedDriver, configureHoTTTelemetryPort, initHoTTTelemetry,
        initialiseMessages, initialDriver.
      destruct (USE_HOTT_TEXTMODE_AND_CMS hdr), (USE_GPS hdr); exact Logic.I.
    - exact R. }
  split; [exact Q |]. intros Hs Hn.
  pose proof (recordLengths_kept hdr polls _ _ (startedDriver_recordLengths hdr) R) as Hlen.
  unfold QueueInBounds in Q. rewrite Hs in Q. destruct Q as (p & Q1 & Q2 & Q3).
  exists p. split; [exact Q1 |]. rewrite (Hlen (base p)). lia.
Qed.

Lemma transmitter_in_bounds_witness :
  exists d',
    runPolls sampleHeaders
      ({| poll_env := benchEnv; poll_time := 10000; poll_arrived := [0x80; 0x8E] |}
       :: spacedPolls 5 15000 1000)
      (startedDriver sampleHeaders) = Some d' /\
    hottState d' = HOTT_TRANSMITTING /\
    txLog d' = [0x7C; 0x8E; 0; 0xE0] /\
    exists p, hottTxMsg d' = Some p /\ (offset p < length (bufferOf (base p) d'))%nat.
Proof.
  eexists. split; [vm_compute; reflexivity |]. split; [reflexivity |].
  split; [reflexivity |].
  destruct (transmitter_in_bounds sampleHeaders
              ({| poll_env := benchEnv; poll_time := 10000; poll_arrived := [0x80; 0x8E] |}
               :: spacedPolls 5 15000 1000)
              _ ltac:(intros []; cbn; lia) ltac:(vm_compute; reflexivity)) as (_ & W).
  apply W; [reflexivity | vm_compute; discriminate].
Defined.

(** ** The transmit window *)

Lemma Transition_into_transmitting hdr env now d d' re :
  Transition hdr env now d d' re ->
  hottState d' = HOTT_TRANSMITTING ->
  hottState d = HOTT_TRANSMITTING \/
  (hottState d = HOTT_WAITING_FOR_TX_WINDOW /\
   HOTT_TX_SCHEDULE <= elapsedUs hdr now (hottStateChangeUs d) /\
   d' = set_hottStateChangeUs now (set_hottState HOTT_TRANSMITTING (set_hottTxMsgCrc 0 d))).
Proof.
  intros T. destruct T as [Hs Hf | Hs Hf | Hs Ht | Hs Ht Hp | Hs Ht Hp | Hs Ht | Hs Ht
                          | d1 Hs E | d1 Hs E | Hs Ht | Hs Ht]; intros H'; auto;
    try (destruct d; discriminate H'); try congruence.
  - destruct (receiveRequestBytes_frame d) as (F1 & _). congruence.
  - destruct (receiveRequestBytes_frame d) as (F1 & _). rewrite Hs in F1.
    destruct (decodeRequest_after hdr env now _ F1) as ([S1 | S1] & _); congruence.
Qed.

Lemma Transition_again hdr env now d d' :
  Transition hdr env now d d' true ->
  hottState d' <> HOTT_TRANSMITTING /\
  (hottState d' = HOTT_WAITING_FOR_TX_WINDOW -> hottStateChangeUs d' = now).
Proof.
  intros T. inversion T as [| Hs Hf | | | Hs Ht Hp | | | | | | Hs Ht]; subst.
  - split; [destruct d; discriminate | now destruct d].
  - destruct (receiveRequestBytes_frame d) as (F1 & _). rewrite Hs in F1.
    destruct (decodeRequest_after hdr env now _ F1) as ([S1 | S1] & C1 & _);
      split; auto; congruence.
  - split; [destruct d; discriminate | now destruct d].
Qed.

(** X18.  The driver starts to transmit only when its transmit window
    opens.  A call that leaves the driver in HOTT_TRANSMITTING without
    having found it there found it waiting for the window, at least
    HOTT_TX_SCHEDULE (5000 microseconds) after the state was entered; it
    sets the checksum accumulator to 0, stamps the state with its own time,
    and writes nothing.  A request is therefore never decoded and answered
    in one call. *)
Theorem transmit_window_respected hdr env now d d' :
  handleHoTTTelemetry hdr env now d = Some d' ->
  hottState d' = HOTT_TRANSMITTING ->
  hottState d <> HOTT_TRANSMITTING ->
  hottState d = HOTT_WAITING_FOR_TX_WINDOW /\
  HOTT_TX_SCHEDULE <= elapsedUs hdr now (hottStateChangeUs d) /\
  d' = set_hottStateChangeUs now (set_hottState HOTT_TRANSMITTING (set_hottTxMsgCrc 0 d)).
Proof.
  intros H.
  apply (handleHoTTTelemetry_rule
           (fun d1 => d1 = d \/
                      (hottState d1 <> HOTT_TRANSMITTING /\
                       (hottState d1 = HOTT_WAITING_FOR_TX_WINDOW ->
                        hottStateChangeUs d1 = now)))
           (fun d2 => hottState d2 = HOTT_TRANSMITTING ->
                      hottState d <> HOTT_TRANSMITTING ->
                      hottState d = HOTT_WAITING_FOR_TX_WINDOW /\
                      HOTT_TX_SCHEDULE <= elapsedUs hdr now (hottStateChangeUs d) /\
                      d2 = set_hottStateChangeUs now
                             (set_hottState HOTT_TRANSMITTING (set_hottTxMsgCrc 0 d)))
           hdr env now d d'); auto.
  - intros _ H1 H2. contradiction.
  - intros d1 d2 _ T. right. now apply (Transition_again hdr env now d1).
  - intros d1 d2 P T H2 Hd.
    destruct (Transition_into_transmitting _ _ _ _ _ _ T H2) as [S1 | (S1 & T1 & E1)].
    + destruct P as [-> | (P1 & _)]; contradiction.
    + destruct P as [-> | (_ & P2)]; [auto |].
      rewrite (P2 S1), elapsedUs_same in T1. unfold HOTT_TX_SCHEDULE in T1. lia.
Qed.

Lemma transmit_window_respected_witness :
  exists d d',
    handleHoTTTelemetry sampleHeaders benchEnv 10000 (startedWith [0x80; 0x8E]) = Some d /\
    handleHoTTTelemetry sampleHeaders benchEnv 15000 d = Some d' /\
    hottState d = HOTT_WAITING_FOR_TX_WINDOW /\
    HOTT_TX_SCHEDULE <= elapsedUs sampleHeaders 15000 (hottStateChangeUs d) /\
    d' = set_hottStateChangeUs 15000
           (set_hottState HOTT_TRANSMITTING (set_hottTxMsgCrc 0 d)).
Proof.
  eexists. eexists. split; [vm_compute; reflexivity |].
  split; [vm_compute; reflexivity |].
  apply (transmit_window_respected sampleHeaders benchEnv 15000).
  - vm_compute; reflexivity.
  - reflexivity.
  - discriminate.
Defined.

(** ** Writing to the text record *)

(** X19.  Inside the grid [hottTextmodeWriteChar] leaves the character, cut
    to 8 bits, in the addressed cell, provided the cell lies inside the text
    record; and writing the same character to the same cell again changes
    nothing, so that the test that skips the store of an unchanged character
    cannot be observed. *)
Theorem hottTextmodeWriteChar_stores hdr column row c d :
  u8 column < HOTT_TEXTMODE_DISPLAY_COLUMNS hdr ->
  u8 row < HOTT_TEXTMODE_DISPLAY_ROWS hdr ->
  (txtCell hdr (u8 row) (u8 column) < length (hottTextModeMessage d))%nat ->
  load (txtCell hdr (u8 row) (u8 column))
    (hottTextModeMessage (hottTextmodeWriteChar hdr column row c d)) = u8 c /\
  hottTextmodeWriteChar hdr column row c (hottTextmodeWriteChar hdr column row c d)
  = hottTextmodeWriteChar hdr column row c d.
Proof.
  intros Hc Hr Hin.
  assert (Hread : load (txtCell hdr (u8 row) (u8 column))
                    (hottTextModeMessage (hottTextmodeWriteChar hdr column row c d)) = u8 c).
  { unfold hottTextmodeWriteChar.
    destruct (Z.ltb_spec (u8 column) (HOTT_TEXTMODE_DISPLAY_COLUMNS hdr)); [| lia].
    destruct (Z.ltb_spec (u8 row) (HOTT_TEXTMODE_DISPLAY_ROWS hdr)); [| lia].
    cbn [andb].
    destruct (Z.eqb_spec (load (txtCell hdr (u8 row) (u8 column)) (hottTextModeMessage d))
                (u8 c)) as [E | E]; cbn [negb].
    - exact E.
    - replace (hottTextModeMessage (set_hottTextModeMessage _ d))
        with (store (txtCell hdr (u8 row) (u8 column)) (u8 c) (hottTextModeMessage d))
        by now destruct d.
      rewrite load_store_eq by exact Hin. apply u8_idem. }
  split; [exact Hread |].
  unfold hottTextmodeWriteChar at 1.
  destruct (Z.ltb_spec (u8 column) (HOTT_TEXTMODE_DISPLAY_COLUMNS hdr)); [| lia].
  destruct (Z.ltb_spec (u8 row) (HOTT_TEXTMODE_DISPLAY_ROWS hdr)); [| lia].
  cbn [andb]. rewrite Hread. now rewrite Z.eqb_refl.
Qed.

Lemma hottTextmodeWriteChar_stores_witness :
  load (txtCell sampleHeaders 7 20)
    (hottTextModeMessage
       (hottTextmodeWriteChar sampleHeaders 20 7 321 (startedDriver sampleHeaders))) = 65 /\
  hottTextmodeWriteChar sampleHeaders 20 7 321
    (hottTextmodeWriteChar sampleHeaders 20 7 321 (startedDriver sampleHeaders))
  = hottTextmodeWriteChar sampleHeaders 20 7 321 (startedDriver sampleHeaders).
Proof.
  apply (hottTextmodeWriteChar_stores sampleHeaders 20 7 321 (startedDriver sampleHeaders)).
  - vm_compute; reflexivity.
  - vm_compute; reflexivity.
  - vm_compute. lia.
Defined.

(** ** A driver without a port *)

Lemma runPolls_disabled hdr : forall polls d d',
  hottTelemetryEnabled d = false -> runPolls hdr polls d = Some d' ->
  hottTelemetryEnabled d' = false /\ hottState d' = hottState d /\
  txLog d' = txLog d /\ settings d' = settings d /\ responseQueue d' = responseQueue d.
Proof.
  induction polls as [| p polls IH]; intros d d' En R; cbn [runPolls] in R.
  - injection R as <-. auto.
  - unfold handleHoTTTelemetry in R.
    replace (hottTelemetryEnabled (serialReceive (poll_arrived p) d)) with false in R
      by (destruct d; cbn in *; congruence).
    cbn [negb] in R.
    assert (En' : hottTelemetryEnabled (serialReceive (poll_arrived p) d) = false)
      by (destruct d; exact En).
    destruct (IH _ _ En' R) as (I1 & I2 & I3 & I4 & I5).
    rewrite I2, I3, I4, I5. now destruct d.
Qed.

(** X20.  When no serial port is configured for HoTT, or the port cannot be
    opened, telemetry stays disabled and every call returns at once:
    whatever arrives and however often the driver is called, it stays in
    HOTT_WAITING_FOR_REQUEST, arms nothing and writes nothing.  Without a
    port configuration [initHoTTTelemetry] has not even initialised the
    records or registered the display port.  After [freeHoTTTelemetryPort]
    the calls return at once as well: the driver keeps the state it was
    freed in, its response queue and its records, and writes nothing. *)
Theorem no_port_no_telemetry hdr polls d' :
  (forall portConfig hottPort,
     portConfig && hottPort = false ->
     runPolls hdr polls
       (configureHoTTTelemetryPort portConfig hottPort
          (initHoTTTelemetry hdr portConfig (initialDriver hdr))) = Some d' ->
     hottTelemetryEnabled d' = false /\
     hottState d' = HOTT_WAITING_FOR_REQUEST /\
     hottTxMsg d' = None /\
     txLog d' = [] /\
     (portConfig = false ->
      externCalls d' = [] /\
      hottEAMMessage d' = memset0 (sizeof_EAM hdr) /\
      hottGPSMessage d' = memset0 (sizeof_GPS hdr))) /\
  (forall d,
     runPolls hdr polls (freeHoTTTelemetryPort d) = Some d' ->
     hottTelemetryEnabled d' = false /\
     hottState d' = hottState d /\
     responseQueue d' = responseQueue d /\
     settings d' = settings d /\
     txLog d' = txLog d).
Proof.
  split.
  - intros portConfig hottPort Hp R.
    set (d := configureHoTTTelemetryPort portConfig hottPort
                (initHoTTTelemetry hdr portConfig (initialDriver hdr))) in *.
    assert (Hd : hottTelemetryEnabled d = false /\ hottState d = HOTT_WAITING_FOR_REQUEST /\
                 hottTxMsg d = None /\ txLog d = [] /\
                 (portConfig = false -> d = initialDriver hdr)).
    { subst d. unfold configureHoTTTelemetryPort, initHoTTTelemetry, initialiseMessages.
      destruct portConfig, hottPort; try discriminate Hp; cbn [negb];
        destruct (USE_HOTT_TEXTMODE_AND_CMS hdr), (USE_GPS hdr);
        repeat split; try reflexivity; discriminate. }
    destruct Hd as (D1 & D2 & D3 & D4 & D5).
    destruct (runPolls_disabled hdr polls d d' D1 R) as (I1 & I2 & I3 & I4 & I5).
    unfold responseQueue in I5. apply settings_fields in I4.
    destruct I4 as (_ & _ & _ & _ & _ & _ & E1 & E2 & E3 & _).
    repeat split; try congruence.
    + rewrite E1, (D5 H). reflexivity.
    + rewrite E3, (D5 H). reflexivity.
    + rewrite E2, (D5 H). reflexivity.
  - intros d R.
    destruct (runPolls_disabled hdr polls (freeHoTTTelemetryPort d) d'
                ltac:(now destruct d) R) as (I1 & I2 & I3 & I4 & I5).
    rewrite I2, I3, I4, I5. now destruct d.
Qed.

Lemma no_port_no_telemetry_witness :
  exists d',
    runPolls sampleHeaders
      [ {| poll_env := benchEnv; poll_time := 10000; poll_arrived := [0x80; 0x8E] |};
        quietPoll benchEnv 15000; quietPoll benchEnv 17000 ]
      (configureHoTTTelemetryPort true false
         (initHoTTTelemetry sampleHeaders true (initialDriver sampleHeaders))) = Some d' /\
    rxFifo d' = [0x80; 0x8E] /\
    hottTelemetryEnabled d' = false /\
    hottState d' = HOTT_WAITING_FOR_REQUEST /\
    txLog d' = [].
Proof.
  eexists. split; [vm_compute; reflexivity |]. split; [reflexivity |].
  match goal with
  | |- hottTelemetryEnabled ?x = false /\ _ =>
      destruct (no_port_no_telemetry sampleHeaders
                  [ {| poll_env := benchEnv; poll_time := 10000;
                       poll_arrived := [0x80; 0x8E] |};
                    quietPoll benchEnv 15000; quietPoll benchEnv 17000 ]
                  x) as (W & _)
  end.
  destruct (W true false eq_refl ltac:(vm_compute; reflexivity)) as (W1 & W2 & _ & W3 & _).
  split; [exact W1 |]. split; [exact W2 | exact W3].
Defined.

(** ** The clock wraps around *)

(** X21.  The timers of the driver work across the wrap-around of the
    microsecond clock: if [delta] microseconds, fewer than the clock can
    count, have passed since the state was entered, the elapsed time that
    the driver computes is [delta], even when the clock has meanwhile
    started again from 0.  In particular the transmit window opens at the
    first call HOTT_TX_SCHEDULE or more after the request, wrapped clock or
    not. *)
Theorem timers_across_wrap hdr env d delta :
  0 <= TIMEUS_BITS hdr ->
  0 <= delta < 2 ^ TIMEUS_BITS hdr ->
  let now := wrap_unsigned (TIMEUS_BITS hdr) (hottStateChangeUs d + delta) in
  elapsedUs hdr now (hottStateChangeUs d) = delta /\
  (hottTelemetryEnabled d = true -> hottState d = HOTT_WAITING_FOR_TX_WINDOW ->
   HOTT_TX_SCHEDULE <= delta ->
   handleHoTTTelemetry hdr env now d
   = Some (set_hottStateChangeUs now
             (set_hottState HOTT_TRANSMITTING (set_hottTxMsgCrc 0 d)))).
Proof.
  intros Hbits Hdelta. cbv zeta.
  assert (E : elapsedUs hdr
                (wrap_unsigned (TIMEUS_BITS hdr) (hottStateChangeUs d + delta))
                (hottStateChangeUs d) = delta).
  { unfold elapsedUs, wrap_unsigned. rewrite Zminus_mod_idemp_l.
    replace (hottStateChangeUs d + delta - hottStateChangeUs d) with delta by ring.
    now apply Z.mod_small. }
  split; [exact E |].
  intros En Hs Ht. apply handleHoTTTelemetry_window; [exact En | exact Hs |].
  now rewrite E.
Qed.

Lemma timers_across_wrap_witness :
  let d := set_hottStateChangeUs (2 ^ 32 - 1000)
             (set_hottState HOTT_WAITING_FOR_TX_WINDOW (startedDriver sampleHeaders)) in
  elapsedUs sampleHeaders 5000 (hottStateChangeUs d) = 6000 /\
  handleHoTTTelemetry sampleHeaders benchEnv 5000 d
  = Some (set_hottStateChangeUs 5000
            (set_hottState HOTT_TRANSMITTING (set_hottTxMsgCrc 0 d))).
Proof.
  intros d.
  destruct (timers_across_wrap sampleHeaders benchEnv d 6000) as (W1 & W2).
  - vm_compute; discriminate.
  - split; [lia | vm_compute; reflexivity].
  - split; [exact W1 |]. apply W2; [reflexivity | reflexivity | vm_compute; discriminate].
Defined.
